(** * Fashion-store sales injection: a shallow embedding and its properties

    The repository holds two near-duplicate implementations of one workflow:
    - [src/main.py]: class [DataInjection] driven from the command line;
    - [src/dags/test_artefact/main.py]: the same steps as Airflow tasks.

    Both are embedded below.  Python strings that are only compared or
    passed on are [string]; the date argument is a list of Unicode code
    points, because [str.isdigit], the regular expression class [\d] and
    [int] are Unicode-aware and the validator depends on it.  External
    collaborators (PostgreSQL through psycopg / PostgresHook, the object
    store through Minio / S3Hook) are an interface, [Backend]; every
    theorem stated over [Backend] holds whatever the collaborators do,
    including raising.  The hand-off between two tasks of the DAG, which
    goes through pandas' JSON writer and reader, is an interface too,
    [Xcom].  A concrete relational store, built from the schema the
    specification gives and run with PostgreSQL's transactions (a
    statement that fails aborts the transaction), is used where a
    property needs to look inside the tables. *)

From Stdlib Require Import ZArith List String Ascii Bool Lia.
From stdpp Require Import base decidable option list strings.
Import ListNotations.

Local Open Scope Z_scope.

(* ===================================================================== *)
(** ** Python values: exceptions and results                              *)
(* ===================================================================== *)

(** The exception classes the two files name or can meet.  All of them
    derive from [Exception]; [BaseException]-only signals
    ([KeyboardInterrupt], [SystemExit]) are not errors of any step and are
    not modelled. *)
Inductive exn : Type :=
| PsycopgError (msg : string)        (* psycopg.Error and its subclasses *)
| S3Error (msg : string)             (* minio.error.S3Error *)
| ValueError (msg : string)
| KeyError (key : string)
| OtherException (name : string)     (* any other subclass of Exception *)
| DataInjectionError (msg : string). (* class DataInjectionError(Exception) *)

Inductive result (A : Type) : Type :=
| Ok (a : A)
| Raise (e : exn).
Arguments Ok {A} a.
Arguments Raise {A} e.

Definition is_ok {A} (r : result A) : bool :=
  match r with Ok _ => true | Raise _ => false end.

Definition is_psycopg (e : exn) : bool :=
  match e with PsycopgError _ => true | _ => false end.

Definition is_s3 (e : exn) : bool :=
  match e with S3Error _ => true | _ => false end.

(* ===================================================================== *)
(** ** Dates: [str.isdigit], [datetime.strptime], [strftime]               *)
(* ===================================================================== *)

Module PyDate.

(** A Python [str] as its sequence of code points. *)
Definition pystr := list Z.

(** First code point of every block of ten decimal digits (general
    category Nd) of the Unicode character database; in each block the
    digit at offset [k] has decimal value [k].  [\d] in a [str] pattern
    and [int] accept exactly these characters. *)
Definition decimal_blocks : list Z :=
  [48; 1632; 1776; 1984; 2406; 2534; 2662; 2790; 2918; 3046; 3174; 3302;
   3430; 3558; 3664; 3792; 3872; 4160; 4240; 6112; 6160; 6470; 6608; 6784;
   6800; 6992; 7088; 7232; 7248; 42528; 43216; 43264; 43472; 43504; 43600;
   44016; 65296; 66720; 68912; 69734; 69872; 69942; 70096; 70384; 70736;
   70864; 71248; 71360; 71472; 71904; 72016; 72784; 73040; 73120; 92768;
   92864; 93008; 120782; 120792; 120802; 120812; 120822; 123200; 123632;
   125264; 130032].

(** Characters with Numeric_Type=Digit that are not decimal (superscripts,
    circled digits, ...): [str.isdigit] accepts them, [\d] does not. *)
Definition other_digit_ranges : list (Z * Z) :=
  [(178, 179); (185, 185); (4969, 4977); (6618, 6618); (8304, 8304);
   (8308, 8313); (8320, 8329); (9312, 9320); (9332, 9340); (9352, 9360);
   (9450, 9450); (9461, 9469); (9471, 9471); (10102, 10110);
   (10112, 10120); (10122, 10130); (68160, 68163); (69216, 69224);
   (69714, 69722); (127232, 127242)].

Definition in_range (lo hi c : Z) : bool := (lo <=? c) && (c <=? hi).

Definition unicode_decimal (c : Z) : option Z :=
  match List.find (fun b => in_range b (b + 9) c) decimal_blocks with
  | Some b => Some (c - b)
  | None => None
  end.

Definition is_decimal (c : Z) : bool :=
  match unicode_decimal c with Some _ => true | None => false end.

Definition isdigit_char (c : Z) : bool :=
  is_decimal c || existsb (fun r => in_range (fst r) (snd r) c) other_digit_ranges.

(** [str.isdigit()]: every character is a digit and there is at least one. *)
Definition isdigit (s : pystr) : bool :=
  match s with
  | [] => false
  | _ => forallb isdigit_char s
  end.

(** *** The regular expression [_strptime] builds for ["%Y%m%d"]

    [(?P<Y>\d\d\d\d)(?P<m>1[0-2]|0[1-9]|[1-9])(?P<d>3[0-1]|[1-2]\d|0[1-9]|[1-9]| [1-9])]

    A group is a backtracking matcher: the list of (matched text, rest)
    in the order the engine tries the alternatives. *)
Definition matcher := pystr -> list (pystr * pystr).

(** One character taken by a class. *)
Definition cls (p : Z -> bool) : matcher :=
  fun s => match s with
           | c :: rest => if p c then [([c], rest)] else []
           | [] => []
           end.

Definition lit (c : Z) : matcher := cls (Z.eqb c).

Definition seq2 (a b : matcher) : matcher :=
  fun s => flat_map (fun x => List.map (fun y => (fst x ++ fst y, snd y)) (b (snd x))) (a s).

Definition alt (a b : matcher) : matcher := fun s => a s ++ b s.

Definition re_Y : matcher :=
  seq2 (cls is_decimal) (seq2 (cls is_decimal) (seq2 (cls is_decimal) (cls is_decimal))).

Definition re_m : matcher :=
  alt (seq2 (lit 49) (cls (in_range 48 50)))
      (alt (seq2 (lit 48) (cls (in_range 49 57)))
           (cls (in_range 49 57))).

Definition re_d : matcher :=
  alt (seq2 (lit 51) (cls (in_range 48 49)))
      (alt (seq2 (cls (in_range 49 50)) (cls is_decimal))
           (alt (seq2 (lit 48) (cls (in_range 49 57)))
                (alt (cls (in_range 49 57))
                     (seq2 (lit 32) (cls (in_range 49 57)))))).

(** [format_regex.match(data_string)]: the first match in backtracking
    order, with the three groups and the unconsumed rest. *)
Definition regex_match (s : pystr) : option (pystr * pystr * pystr * pystr) :=
  List.hd_error
    (flat_map (fun y =>
       flat_map (fun m =>
         List.map (fun d => (fst y, fst m, fst d, snd d)) (re_d (snd m)))
         (re_m (snd y)))
       (re_Y s)).

(** [int(text)] on a matched group: decimal digits of any script, after
    the blank a day group may start with. *)
Definition py_int (s : pystr) : Z :=
  fold_left (fun acc c => match unicode_decimal c with
                          | Some v => 10 * acc + v
                          | None => acc
                          end) s 0.

Record date : Type := mkdate { year : Z; month : Z; day : Z }.

Definition is_leap (y : Z) : bool :=
  (y mod 4 =? 0) && (negb (y mod 100 =? 0) || (y mod 400 =? 0)).

Definition days_in_month (y m : Z) : Z :=
  if (m =? 2) && is_leap y then 29
  else nth (Z.to_nat m) [-1; 31; 28; 31; 30; 31; 30; 31; 31; 30; 31; 30; 31] (-1).

(** [datetime.date(year, month, day)] accepts exactly these fields. *)
Definition check_date_fields (y m d : Z) : bool :=
  in_range 1 9999 y && in_range 1 12 m && in_range 1 (days_in_month y m) d.

(** [datetime.strptime(s, "%Y%m%d")]. *)
Definition strptime (s : pystr) : result date :=
  match regex_match s with
  | None => Raise (ValueError "time data does not match format")
  | Some (y, m, d, rest) =>
      match rest with
      | _ :: _ => Raise (ValueError "unconverted data remains")
      | [] =>
          let yy := py_int y in
          let mm := py_int m in
          let dd := py_int d in
          if check_date_fields yy mm dd then Ok (mkdate yy mm dd)
          else Raise (ValueError "out of range")
      end
  end.

(** [strftime("%Y-%m-%d")] as CPython gives it with the GNU C library:
    [%m] and [%d] are two digits, [%Y] is the year in decimal with no
    padding, so a year below 1000 has fewer than four digits (year 999
    gives [999-01-01], year 1 gives [1-01-01]).  The year of a [date] is
    between 1 and 9999. *)
Definition digit_char (d : Z) : ascii := ascii_of_N (Z.to_N (48 + d mod 10)).

Definition pad2 (n : Z) : string :=
  String (digit_char (n / 10)) (String (digit_char n) EmptyString).

Definition year_text (n : Z) : string :=
  if n <? 10 then String (digit_char n) EmptyString
  else if n <? 100 then pad2 n
  else if n <? 1000 then String (digit_char (n / 100)) (pad2 n)
  else String (digit_char (n / 1000)) (String (digit_char (n / 100)) (pad2 n)).

Definition strftime (d : date) : string :=
  (year_text (year d) ++ "-" ++ pad2 (month d) ++ "-" ++ pad2 (day d))%string.

(** [validate_date], identical in both files:
<<
    if len(date) != 8 or not date.isdigit(): return False
    try: datetime.strptime(date, "%Y%m%d"); return True
    except ValueError: return False
>> *)
Definition validate_date (date : pystr) : result bool :=
  if negb (Z.of_nat (length date) =? 8) || negb (isdigit date) then Ok false
  else match strptime date with
       | Ok _ => Ok true
       | Raise (ValueError _) => Ok false
       | Raise e => Raise e
       end.

(** [datetime.strptime(date, "%Y%m%d").strftime("%Y-%m-%d")]. *)
Definition formatted_date (date : pystr) : result string :=
  match strptime date with
  | Ok d => Ok (strftime d)
  | Raise e => Raise e
  end.

End PyDate.

Import PyDate.

(* ===================================================================== *)
(** ** Tabular data: the parsed CSV extract                               *)
(* ===================================================================== *)

(** One cell of a [pandas.DataFrame].  [CNull] stands for a missing value
    ([NaN], and [None] after [df.where(pd.notnull(df), None)], which the
    model therefore does not distinguish); [CFloat] carries the bit
    pattern of a float64 that is not NaN. *)
Inductive cell : Type :=
| CNull
| CInt (z : Z)
| CFloat (bits : Z)
| CStr (s : string).

#[global] Instance cell_eq_dec : EqDecision cell.
Proof. solve_decision. Defined.

(** A row holds one cell per column, in column order. *)
Definition row := list cell.

Record DataFrame : Type := mkdf {
  df_columns : list string;
  df_rows : list row
}.

Fixpoint column_index (name : string) (cols : list string) : option nat :=
  match cols with
  | [] => None
  | c :: cs => if decide (c = name) then Some 0%nat
               else S <$> column_index name cs
  end.

(** [row['name']]: [KeyError] when the label is absent. *)
Definition getitem (cols : list string) (r : row) (name : string) : result cell :=
  match column_index name cols with
  | Some i => Ok (nth i r CNull)
  | None => Raise (KeyError name)
  end.

(** A tuple [(row['a'], row['b'], ...)], evaluated left to right. *)
Fixpoint getitems (cols : list string) (r : row) (names : list string)
  : result (list cell) :=
  match names with
  | [] => Ok []
  | n :: ns =>
      match getitem cols r n with
      | Raise e => Raise e
      | Ok c => match getitems cols r ns with
                | Raise e => Raise e
                | Ok cs => Ok (c :: cs)
                end
      end
  end.

(** [df.empty]: some axis has length 0. *)
Definition df_empty (df : DataFrame) : bool :=
  match df_columns df, df_rows df with
  | _ :: _, _ :: _ => false
  | _, _ => true
  end.

(** [df[df["sale_date"] == formatted_date]]. *)
Definition filter_by_date (df : DataFrame) (fd : string) : result DataFrame :=
  match column_index "sale_date" (df_columns df) with
  | None => Raise (KeyError "sale_date")
  | Some i =>
      Ok (mkdf (df_columns df)
               (filter (fun r => nth i r CNull = CStr fd) (df_rows df)))
  end.

(** Equality of two cells as [duplicated] sees it: by value, so that
    the two zeros of float64, [0.0] and [-0.0], are the same, and two
    missing values are the same.  A column of a parsed CSV has one dtype
    (int64, float64 or object), so an integer is never compared with a
    float. *)
Definition float_zero (bits : Z) : bool :=
  (bits =? 0) || (bits =? 9223372036854775808).

Definition same_cell (a b : cell) : bool :=
  match a, b with
  | CFloat x, CFloat y => (x =? y) || (float_zero x && float_zero y)
  | _, _ => bool_decide (a = b)
  end.

Fixpoint same_row (r r' : row) : bool :=
  match r, r' with
  | [], [] => true
  | a :: r, b :: r' => same_cell a b && same_row r r'
  | _, _ => false
  end.

(** [DataFrame.drop_duplicates()]: a row equal on all columns to an
    earlier row is dropped; the first occurrence stays, order is kept. *)
Fixpoint drop_duplicates_from (seen : list row) (rows : list row) : list row :=
  match rows with
  | [] => []
  | r :: rest =>
      if existsb (same_row r) seen then drop_duplicates_from seen rest
      else r :: drop_duplicates_from (r :: seen) rest
  end.

Definition drop_duplicates (df : DataFrame) : DataFrame :=
  mkdf (df_columns df) (drop_duplicates_from [] (df_rows df)).

(** Every row has the text [fd] in the [sale_date] column, if there is
    such a column. *)
Definition rows_dated (fd : string) (cols : list string) (rows : list row) : Prop :=
  forall i, column_index "sale_date" cols = Some i ->
            forall r, In r rows -> nth i r CNull = CStr fd.

Definition dated (fd : string) (df : DataFrame) : Prop :=
  rows_dated fd (df_columns df) (df_rows df).

(** The two steps of the extract after the CSV is parsed. *)
Definition filter_extract (df : DataFrame) (fd : string) : result DataFrame :=
  match filter_by_date df fd with
  | Ok d => Ok (drop_duplicates d)
  | Raise e => Raise e
  end.

(* ===================================================================== *)
(** ** The collaborators and the effect monad                             *)
(* ===================================================================== *)

Inductive table : Type := Client | Product | Sale | SaleProduct.

#[global] Instance table_eq_dec : EqDecision table.
Proof. solve_decision. Defined.

(** Calls that leave the process, in the order they are made. *)
Inductive event : Type :=
| EvConnect                                   (* psycopg.connect / get_conn *)
| EvSelectExists (sale_date : string)         (* SELECT EXISTS(SELECT 1 FROM sale WHERE sale_date = %s) *)
| EvInsert (t : table) (params : list cell)   (* INSERT INTO t ... ON CONFLICT (pk) DO NOTHING *)
| EvCommit
| EvRollback
| EvClose
| EvGetObject (bucket key : string).          (* fetch and parse the CSV object *)

#[global] Instance event_eq_dec : EqDecision event.
Proof. solve_decision. Defined.

Definition trace := list event.

(** What the database server and the object store do, as functions of a
    world [W] that the code cannot inspect.  [pg_rollback] and [pg_close]
    cannot fail towards the caller: the context manager swallows their
    errors. *)
Class Backend (W : Type) : Type := {
  pg_connect : W -> result unit * W;
  pg_select_exists : string -> W -> result bool * W;
  pg_insert : table -> list cell -> W -> result unit * W;
  pg_commit : W -> result unit * W;
  pg_rollback : W -> W;
  pg_close : W -> W;
  s3_read_csv : string -> string -> W -> result DataFrame * W
}.

(** Bucket and object name: [self.bucket], [self.file] of
    [DataInjection]. *)
Record Source : Type := mksource { bucket : string; file : string }.

(** The Airflow variables the DAG reads; [None] for one that does not
    exist. *)
Record Variables : Type := mkvars {
  minio_bucket_name : option string;
  file_name : option string
}.

(** [Variable.get(key)], no default given: [KeyError] when the variable
    does not exist. *)
Definition variable_get (v : option string) (key : string) : result string :=
  match v with
  | Some s => Ok s
  | None => Raise (KeyError key)
  end.

(** The variables that name a source. *)
Definition variables (s : Source) : Variables :=
  mkvars (Some (bucket s)) (Some (file s)).

(** The hand-off between the extract and the load task of the DAG: the
    table goes through [DataFrame.to_json(orient='records')], the text
    is the XCom value, and [pd.read_json] reads it back.  pandas' codec is
    a collaborator; it need not return the table it was given (floats are
    written with ten decimals, dtypes are inferred anew), and either
    function can raise.  [read_json] stands for [pd.read_json] followed by
    [df.where(pd.notnull(df), None)], which gives the missing values the
    form [CNull] has here. *)
Class Xcom : Type := {
  json : Type;
  to_json : DataFrame -> result json;
  read_json : json -> result DataFrame
}.

Record outcome (W A : Type) : Type := mkout {
  res : result A;
  world : W;
  log : trace
}.
Arguments mkout {W A}.
Arguments res {W A}.
Arguments world {W A}.
Arguments log {W A}.

(** State, exceptions and the trace of calls. *)
Definition M (W A : Type) : Type := W -> outcome W A.

Definition ret {W A} (a : A) : M W A := fun w => mkout (Ok a) w [].

Definition raise {W A} (e : exn) : M W A := fun w => mkout (Raise e) w [].

Definition bind {W A B} (m : M W A) (f : A -> M W B) : M W B :=
  fun w =>
    match m w with
    | mkout (Ok a) w1 l1 =>
        match f a w1 with
        | mkout r w2 l2 => mkout r w2 (l1 ++ l2)
        end
    | mkout (Raise e) w1 l1 => mkout (Raise e) w1 l1
    end.

(** [try: m  except E: h]; [h e = None] when no clause matches [e]. *)
Definition catch {W A} (m : M W A) (h : exn -> option (M W A)) : M W A :=
  fun w =>
    match m w with
    | mkout (Ok a) w1 l1 => mkout (Ok a) w1 l1
    | mkout (Raise e) w1 l1 =>
        match h e with
        | Some k =>
            match k w1 with
            | mkout r w2 l2 => mkout r w2 (l1 ++ l2)
            end
        | None => mkout (Raise e) w1 l1
        end
    end.

Definition lift {W A} (r : result A) : M W A := fun w => mkout r w [].

Definition call {W A} (ev : event) (op : W -> result A * W) : M W A :=
  fun w => mkout (fst (op w)) (snd (op w)) [ev].

Definition call_total {W} (ev : event) (op : W -> W) : M W unit :=
  fun w => mkout (Ok tt) (op w) [ev].

Notation "x <- m ;; k" := (bind m (fun x => k))
  (at level 100, m at next level, right associativity).
Notation "m ;;; k" := (bind m (fun _ => k))
  (at level 100, right associativity).

(* ===================================================================== *)
(** ** The four inserts of one row (identical in both files)              *)
(* ===================================================================== *)

(** The columns each statement reads from the row, in parameter order;
    the first is the primary key of the table. *)
Definition table_columns (t : table) : list string :=
  match t with
  | Client => ["customer_id"; "first_name"; "last_name"; "email"; "country";
               "signup_date"; "gender"; "age_range"]
  | Product => ["product_id"; "product_name"; "brand"; "category";
                "cost_price"; "color"; "size"; "catalog_price"]
  | Sale => ["sale_id"; "sale_date"; "channel"; "channel_campaigns";
             "customer_id"]
  | SaleProduct => ["item_id"; "sale_id"; "product_id"; "quantity";
                    "discount_applied"]
  end%string.

Definition insert_order : list table := [Client; Product; Sale; SaleProduct].

Section Loader.
Context {W : Type} `{Backend W}.

(** [cur.execute("INSERT INTO t ...", (row[..], ...))]: the parameter
    tuple is built first, then the statement is sent. *)
Definition execute_insert (t : table) (cols : list string) (r : row) : M W unit :=
  params <- lift (getitems cols r (table_columns t)) ;;
  call (EvInsert t params) (pg_insert t params).

(** The body of the per-row [try]. *)
Definition insert_row (cols : list string) (r : row) : M W unit :=
  execute_insert Client cols r ;;;
  execute_insert Product cols r ;;;
  execute_insert Sale cols r ;;;
  execute_insert SaleProduct cols r.

End Loader.

(* ===================================================================== *)
(** ** [src/main.py]: class [DataInjection]                               *)
(* ===================================================================== *)

Module DataInjection.
Section DataInjection.
Context {W : Type} `{Backend W}.
Variable self : Source.

(** [with psycopg.connect(url) as conn: body]: on leaving the block the
    connection commits, or rolls back when the body raised, and is then
    closed. *)
Definition with_connection {A} (body : M W A) : M W A :=
  call EvConnect pg_connect ;;;
  a <- catch body
         (fun e => Some (call_total EvRollback pg_rollback ;;;
                         call_total EvClose pg_close ;;;
                         raise e)) ;;
  call EvCommit pg_commit ;;;
  call_total EvClose pg_close ;;;
  ret a.

Definition extract_data_from_minio (date : pystr) : M W DataFrame :=
  formatted <- lift (formatted_date date) ;;
  catch (df <- call (EvGetObject (bucket self) (file self))
                    (s3_read_csv (bucket self) (file self)) ;;
         lift (filter_extract df formatted))
        (fun e => if is_s3 e
                  then Some (raise (DataInjectionError "Impossible de lire le fichier"))
                  else None).

Definition check_date_exists (date : pystr) : M W bool :=
  formatted <- lift (formatted_date date) ;;
  catch (with_connection
           (call (EvSelectExists formatted) (pg_select_exists formatted)))
        (fun e => if is_psycopg e
                  then Some (raise (DataInjectionError "Impossible de verifier la date en base"))
                  else None).

(** The [for _, row in df.iterrows()] loop with its counter. *)
Fixpoint insert_rows (cols : list string) (rows : list row)
         (inserted_count : nat) : M W nat :=
  match rows with
  | [] => ret inserted_count
  | r :: rest =>
      n <- catch (insert_row cols r ;;; ret (S inserted_count))
             (fun e => if is_psycopg e then Some (ret inserted_count)
                       else None) ;;
      insert_rows cols rest n
  end.

(** The counter is local: the method returns nothing. *)
Definition load_data_to_postgres (df : DataFrame) : M W unit :=
  catch (with_connection
           (insert_rows (df_columns df) (df_rows df) 0 ;;;
            call EvCommit pg_commit))
        (fun e => if is_psycopg e
                  then Some (raise (DataInjectionError "Impossible d'inserer les donnees"))
                  else None).

(** Both [except] clauses return [False]. *)
Definition start_workflow (date : pystr) : M W bool :=
  catch (date_exists <- check_date_exists date ;;
         if date_exists : bool then ret false
         else
           df <- extract_data_from_minio date ;;
           if df_empty df then ret false
           else load_data_to_postgres df ;;; ret true)
        (fun e => Some (ret false)).

End DataInjection.
End DataInjection.

(** *** [main]: the command-line entry point *)

(** The process environment as [main] reads it ([os.getenv]): [None] for
    a variable that is not set. *)
Record Environ : Type := mkenv {
  DATABASE_URL : option string;
  MINIO_ROOT_USER : option string;
  MINIO_ROOT_PASSWORD : option string;
  MINIO_BUCKET_NAME : option string;
  FILE_NAME : option string
}.

(** Truth value of an [os.getenv] result: [None] and the empty string are
    false. *)
Definition truthy (v : option string) : bool :=
  match v with
  | Some (String _ _) => true
  | _ => false
  end.

(** [os.getenv(name, default)]. *)
Definition getenv_default (v : option string) (default : string) : option string :=
  match v with
  | Some s => Some s
  | None => Some default
  end.

Definition text (v : option string) : string :=
  match v with
  | Some s => s
  | None => EmptyString
  end.

(** [main]; [argv] is [sys.argv], the script name first.  The database
    URL and the credentials select the collaborators the [Backend] stands
    for; constructing the [Minio] client and [DataInjection] makes no
    call. *)
Definition main {W : Type} `{Backend W} (argv : list pystr) (env : Environ)
  : M W unit :=
  let database_url := DATABASE_URL env in
  let minio_root_user := MINIO_ROOT_USER env in
  let minio_root_password := MINIO_ROOT_PASSWORD env in
  let bucket_name := MINIO_BUCKET_NAME env in
  let file_name := getenv_default (FILE_NAME env) "fashion_store_sales.csv" in
  match argv with
  | _ :: date :: _ =>
      valid <- lift (validate_date date) ;;
      if valid : bool then
        if negb (forallb truthy [database_url; minio_root_user;
                                 minio_root_password; bucket_name; file_name])
        then ret tt
        else
          DataInjection.start_workflow
            (mksource (text bucket_name) (text file_name)) date ;;;
          ret tt
      else ret tt
  | _ => ret tt
  end.

(* ===================================================================== *)
(** ** [src/dags/test_artefact/main.py]: the Airflow tasks                *)
(* ===================================================================== *)

Inductive load_message : Type :=
| NothingToLoad                  (* 'Pas de données à charger' *)
| Inserted (n : nat).            (* f'{inserted_count} lignes insérées avec succès' *)

Record LoadResult : Type := mkresult {
  status : string;
  rows_inserted : nat;
  message : load_message
}.

Module Dag.
Section Dag.
Context {W : Type} `{Backend W} {xcom : Xcom}.
Variable vars : Variables.

Definition validate_execution_date (date : pystr) : M W pystr :=
  valid <- lift (validate_date date) ;;
  if valid : bool then ret date
  else raise (ValueError "Format de date invalide").

(** [PostgresHook.get_first], as [DbApiHook.run] does it: a connection
    of its own, the query, a commit, and the connection closed whatever
    happened. *)
Definition get_first (formatted : string) : M W bool :=
  call EvConnect pg_connect ;;;
  r <- catch (r <- call (EvSelectExists formatted) (pg_select_exists formatted) ;;
              call EvCommit pg_commit ;;;
              ret r)
         (fun e => Some (call_total EvClose pg_close ;;; raise e)) ;;
  call_total EvClose pg_close ;;;
  ret r.

Definition check_date_exists (date : pystr) : M W bool :=
  formatted <- lift (formatted_date date) ;;
  catch (get_first formatted)
        (fun e => Some (raise (DataInjectionError "Impossible de verifier la date en base"))).

(** The date is formatted and the two variables are read before the
    [try]: what they raise leaves the task as it is.  The filtered table
    leaves the task as JSON text. *)
Definition extract_data_from_minio (date : pystr) (date_exists : bool)
  : M W (option json) :=
  if date_exists then ret None
  else
    formatted <- lift (formatted_date date) ;;
    bucket_name <- lift (variable_get (minio_bucket_name vars) "minio_bucket_name") ;;
    object_name <- lift (variable_get (file_name vars) "file_name") ;;
    catch (df <- call (EvGetObject bucket_name object_name)
                      (s3_read_csv bucket_name object_name) ;;
           df_filtered <- lift (filter_extract df formatted) ;;
           if df_empty df_filtered then ret None
           else
             data <- lift (to_json df_filtered) ;;
             ret (Some data))
          (fun e => Some (raise (DataInjectionError "Impossible de lire le fichier"))).

(** The loop; its handler formats [row['sale_id']] into the log line. *)
Fixpoint insert_rows (cols : list string) (rows : list row)
         (inserted_count : nat) : M W nat :=
  match rows with
  | [] => ret inserted_count
  | r :: rest =>
      n <- catch (insert_row cols r ;;; ret (S inserted_count))
             (fun e => Some (lift (getitem cols r "sale_id") ;;;
                             ret inserted_count)) ;;
      insert_rows cols rest n
  end.

(** The [try] block of the load task and its handler, on the table read
    back. *)
Definition load_table (df : DataFrame) : M W LoadResult :=
  catch (call EvConnect pg_connect ;;;
         inserted_count <- insert_rows (df_columns df) (df_rows df) 0 ;;
         call EvCommit pg_commit ;;;
         call_total EvClose pg_close ;;;
         ret (mkresult "success" inserted_count (Inserted inserted_count)))
        (fun e => Some (raise (DataInjectionError "Impossible d'inserer les donnees"))).

(** [pd.read_json] and the replacement of missing values come before the
    [try]: what they raise leaves the task as it is. *)
Definition load_data_to_postgres (data_json : option json) : M W LoadResult :=
  match data_json with
  | None => ret (mkresult "skipped" 0 NothingToLoad)
  | Some data =>
      df <- lift (read_json data) ;;
      load_table df
  end.

Definition send_notification (result : LoadResult) (date : pystr) : M W unit :=
  lift (formatted_date date) ;;; ret tt.

(** The DAG wiring: each task runs when the one before it succeeded. *)
Definition fashion_store_etl (date : pystr) : M W LoadResult :=
  execution_date <- validate_execution_date date ;;
  date_exists <- check_date_exists execution_date ;;
  data <- extract_data_from_minio execution_date date_exists ;;
  result <- load_data_to_postgres data ;;
  send_notification result execution_date ;;;
  ret result.

End Dag.
End Dag.

(* ===================================================================== *)
(** ** A relational store and an object store to run the code against     *)
(* ===================================================================== *)

Module Store.

(** Rows of the four tables, as the parameter tuples that created them;
    the primary key is the first field. *)
Record tables : Type := mktables {
  t_client : list (list cell);
  t_product : list (list cell);
  t_sale : list (list cell);
  t_sale_product : list (list cell)
}.

Definition no_tables : tables := mktables [] [] [] [].

Definition rows_of (t : table) (ts : tables) : list (list cell) :=
  match t with
  | Client => t_client ts
  | Product => t_product ts
  | Sale => t_sale ts
  | SaleProduct => t_sale_product ts
  end.

Definition add_row (t : table) (r : list cell) (ts : tables) : tables :=
  match t with
  | Client => mktables (t_client ts ++ [r]) (t_product ts) (t_sale ts) (t_sale_product ts)
  | Product => mktables (t_client ts) (t_product ts ++ [r]) (t_sale ts) (t_sale_product ts)
  | Sale => mktables (t_client ts) (t_product ts) (t_sale ts ++ [r]) (t_sale_product ts)
  | SaleProduct => mktables (t_client ts) (t_product ts) (t_sale ts) (t_sale_product ts ++ [r])
  end.

Definition pkey (r : list cell) : cell := hd CNull r.

Definition has_key (t : table) (k : cell) (ts : tables) : bool :=
  existsb (fun r => bool_decide (pkey r = k)) (rows_of t ts).

(** A foreign key that is null references nothing and is accepted. *)
Definition references (t : table) (k : cell) (ts : tables) : bool :=
  match k with
  | CNull => true
  | _ => has_key t k ts
  end.

Definition foreign_keys_ok (t : table) (params : list cell) (ts : tables) : bool :=
  match t with
  | Client | Product => true
  | Sale => references Client (nth 4 params CNull) ts
  | SaleProduct => references Sale (nth 1 params CNull) ts
                   && references Product (nth 2 params CNull) ts
  end.

(** Modelled from the spec: the four tables of the relational store,
    whose schema is not part of the repository, with primary keys
    [customer_id], [product_id], [sale_id], [item_id] and the foreign keys
    [sale.customer_id], [sale_product.sale_id], [sale_product.product_id]
    (sections 3 and 6).  The statement is the one of the source,
    [INSERT ... ON CONFLICT (key) DO NOTHING]: an insert whose key is
    present does nothing; a null key or a dangling reference is an error
    of the statement. *)
Definition insert_do_nothing (t : table) (params : list cell) (ts : tables)
  : result tables :=
  match pkey params with
  | CNull => Raise (PsycopgError "null value in primary key")
  | k =>
      if has_key t k ts then Ok ts
      else if foreign_keys_ok t params ts then Ok (add_row t params ts)
      else Raise (PsycopgError "foreign key violation")
  end.

(** [SELECT EXISTS(SELECT 1 FROM sale WHERE sale_date = d)]. *)
Definition sale_dated (d : string) (ts : tables) : bool :=
  existsb (fun r => bool_decide (nth 1 r CNull = CStr d)) (t_sale ts).

(** Every table of [a] is an initial segment of the same table of [b]:
    rows were added at most, none removed or changed. *)
Definition grows (a b : tables) : Prop :=
  forall t, exists extra, rows_of t b = rows_of t a ++ extra.

(** The transaction of a connection, as PostgreSQL runs it when neither
    autocommit nor a savepoint is used (neither file uses them): the
    tables as the transaction sees them, or, once a statement has failed,
    the aborted state, in which the server refuses every statement until
    the transaction ends and ends it by rolling back, also on [COMMIT]. *)
Inductive transaction : Type :=
| InTransaction (ts : tables)
| Aborted.

(** The world: what is committed, the transaction of the open connection
    if there is one, and the objects of the bucket (already parsed as
    CSV). *)
Record pg : Type := mkpg {
  committed : tables;
  session : option transaction;
  objects : list (string * string * DataFrame)
}.

Definition closed : exn := PsycopgError "the connection is closed".

Definition in_failed_transaction : exn :=
  PsycopgError "current transaction is aborted".

Definition lookup_object (b k : string) (w : pg) : option DataFrame :=
  snd <$> List.find (fun o => bool_decide (fst o = (b, k))) (objects w).

#[global] Instance pg_backend : Backend pg := {
  pg_connect w :=
    (Ok tt, mkpg (committed w) (Some (InTransaction (committed w))) (objects w));
  pg_select_exists d w :=
    match session w with
    | Some (InTransaction ts) => (Ok (sale_dated d ts), w)
    | Some Aborted => (Raise in_failed_transaction, w)
    | None => (Raise closed, w)
    end;
  pg_insert t params w :=
    match session w with
    | Some (InTransaction ts) =>
        match insert_do_nothing t params ts with
        | Ok ts' => (Ok tt, mkpg (committed w) (Some (InTransaction ts')) (objects w))
        | Raise e => (Raise e, mkpg (committed w) (Some Aborted) (objects w))
        end
    | Some Aborted => (Raise in_failed_transaction, w)
    | None => (Raise closed, w)
    end;
  pg_commit w :=
    match session w with
    | Some (InTransaction ts) => (Ok tt, mkpg ts (Some (InTransaction ts)) (objects w))
    | Some Aborted =>
        (Ok tt, mkpg (committed w) (Some (InTransaction (committed w))) (objects w))
    | None => (Raise closed, w)
    end;
  pg_rollback w :=
    match session w with
    | Some _ => mkpg (committed w) (Some (InTransaction (committed w))) (objects w)
    | None => w
    end;
  pg_close w := mkpg (committed w) None (objects w);
  s3_read_csv b k w :=
    match lookup_object b k w with
    | Some df => (Ok df, w)
    | None => (Raise (S3Error "NoSuchKey"), w)
    end
}.

(** The key a row gives to table [t]. *)
Definition row_key (t : table) (cols : list string) (r : row) : cell :=
  match getitem cols r (hd ""%string (table_columns t)) with
  | Ok c => c
  | Raise _ => CNull
  end.

(** Row atomicity as the specification words it: after the load the four
    entities of the row are all there, or the row has created none. *)
Definition all_present (cols : list string) (r : row) (after : tables) : bool :=
  forallb (fun t => has_key t (row_key t cols r) after) insert_order.

Definition none_created (cols : list string) (r : row) (before after : tables) : bool :=
  forallb (fun t => implb (has_key t (row_key t cols r) after)
                          (has_key t (row_key t cols r) before)) insert_order.


(** What a row's sequence returns in a transaction that is not aborted,
    whatever the tables hold: a statement fails when its parameters
    cannot be built or its key is null (the keys it refers to were
    inserted just before it). *)
Definition statement_result (t : table) (cols : list string) (r : row) : result unit :=
  match getitems cols r (table_columns t) with
  | Raise e => Raise e
  | Ok p =>
      match pkey p with
      | CNull => Raise (PsycopgError "null value in primary key")
      | _ => Ok tt
      end
  end.

Fixpoint tables_result (ts : list table) (cols : list string) (r : row) : result unit :=
  match ts with
  | [] => Ok tt
  | t :: ts' =>
      match statement_result t cols r with
      | Ok _ => tables_result ts' cols r
      | Raise e => Raise e
      end
  end.

Definition row_result (cols : list string) (r : row) : result unit :=
  tables_result insert_order cols r.

(** The server refuses a row: its sequence raises a storage error. *)
Definition refused (cols : list string) (r : row) : bool :=
  match row_result cols r with
  | Raise e => is_psycopg e
  | Ok _ => false
  end.

(** Sale rows added between [a] and [b] carry the date [fd]. *)
Definition new_sales_dated (fd : string) (a b : tables) : Prop :=
  forall s, In s (t_sale b) -> In s (t_sale a) \/ nth 1 s CNull = CStr fd.

(** What a loop over [rows] leaves of the store it started on with the
    open transaction [ts]: nothing committed, the objects as they were,
    and a transaction that is aborted or whose tables only grew, with new
    Sale rows of the date [fd] only when the rows carry that date. *)
Definition loop_leaves (fd : string) (cols : list string) (rows : list row)
    (w : pg) (ts : tables) (w' : pg) : Prop :=
  committed w' = committed w /\
  objects w' = objects w /\
  (session w' = Some Aborted \/
   exists ts', session w' = Some (InTransaction ts') /\
               grows ts ts' /\
               (rows_dated fd cols rows -> new_sales_dated fd ts ts')).

(** The world once a connection is open on it: a transaction begins on
    what is committed. *)
Definition opened (w : pg) : pg :=
  mkpg (committed w) (Some (InTransaction (committed w))) (objects w).

(** The committed tables after [COMMIT] on the connection. *)
Definition after_commit (w : pg) : tables :=
  match session w with
  | Some (InTransaction ts) => ts
  | _ => committed w
  end.

(** The world once the connection is closed. *)
Definition disconnected (w : pg) : pg := mkpg (committed w) None (objects w).


End Store.

(* ===================================================================== *)
(** ** Concrete extracts and worlds                                       *)
(* ===================================================================== *)

Module Example.
Import Store.
Local Open Scope string_scope.

(** The header the extract is expected to carry. *)
Definition all_columns : list string :=
  ["customer_id"; "first_name"; "last_name"; "email"; "country"; "signup_date";
   "gender"; "age_range"; "product_id"; "product_name"; "brand"; "category";
   "cost_price"; "color"; "size"; "catalog_price"; "sale_id"; "sale_date";
   "channel"; "channel_campaigns"; "item_id"; "quantity"; "discount_applied"].

(** A line of the extract: customer, product, sale, its date, line item.
    Keys are text and the other fields integers or text that is not a
    number, so that a column with an empty field keeps its dtype and the
    JSON hand-off of the DAG returns the table as it was. *)
Definition line (customer product sale : cell) (sale_date : string) (item : cell) : row :=
  [customer; CStr "Ada"; CStr "Martin"; CStr "ada@example.org"; CStr "FR";
   CStr "2020-01-01"; CStr "F"; CStr "26-35";
   product; CStr "Shirt"; CStr "Acme"; CStr "Tops"; CInt 10; CStr "red";
   CStr "M"; CInt 20;
   sale; CStr sale_date; CStr "web"; CStr "summer"; item; CInt 1; CInt 0].

Definition d20230615 : pystr := [50; 48; 50; 51; 48; 54; 49; 53]%Z.

(** Eight digits that are no date: 30 February. *)
Definition d20230230 : pystr := [50; 48; 50; 51; 48; 50; 51; 48]%Z.

Definition source : Source := mksource "sales" "fashion_store_sales.csv".

Definition good1 : row :=
  line (CStr "C1") (CStr "P10") (CStr "S100") "2023-06-15" (CStr "I1000").
Definition good2 : row :=
  line (CStr "C3") (CStr "P11") (CStr "S103") "2023-06-15" (CStr "I1003").
Definition other_day : row :=
  line (CStr "C4") (CStr "P12") (CStr "S104") "2023-06-14" (CStr "I1004").

(** The [product_id] field is empty in the CSV. *)
Definition no_product : row :=
  line (CStr "C2") CNull (CStr "S101") "2023-06-15" (CStr "I1001").

Definition three_rows : DataFrame := mkdf all_columns [good1; no_product; good2].

(** The same records, the one with the empty [product_id] last. *)
Definition refused_last : DataFrame := mkdf all_columns [good1; good2; no_product].

Definition mixed : DataFrame :=
  mkdf all_columns [good1; other_day; no_product; good1; good2].


Definition one_row : DataFrame := mkdf all_columns [good1].

Definition no_rows : DataFrame := mkdf all_columns [].

(** What [pd.read_json] makes of the JSON text of an empty list. *)
Definition no_records : DataFrame := mkdf [] [].

Definition only_other_day : DataFrame := mkdf all_columns [other_day].

Definition holding (ts : tables) (df : DataFrame) : pg :=
  mkpg ts None [("sales", "fashion_store_sales.csv", df)].

(** Nothing loaded yet. *)
Definition fresh (df : DataFrame) : pg := holding no_tables df.


(** The load of 2023-06-15 has been done. *)
Definition already_loaded : tables :=
  mktables
    [[CStr "C1"; CStr "Ada"; CStr "Martin"; CStr "ada@example.org"; CStr "FR";
      CStr "2020-01-01"; CStr "F"; CStr "26-35"]]
    [[CStr "P10"; CStr "Shirt"; CStr "Acme"; CStr "Tops"; CInt 10; CStr "red";
      CStr "M"; CInt 20]]
    [[CStr "S100"; CStr "2023-06-15"; CStr "web"; CStr "summer"; CStr "C1"]]
    [[CStr "I1000"; CStr "S100"; CStr "P10"; CInt 1; CInt 0]].

(** The bucket does not hold the object. *)
Definition object_missing : pg := mkpg no_tables None [].

(** A complete environment, [FILE_NAME] left to its default. *)
Definition environ : Environ :=
  mkenv (Some "postgresql://etl@localhost/sales") (Some "minio")
        (Some "secret") (Some "sales") None.

(** [sys.argv] of [python main.py 20230615]. *)
Definition argv : list pystr := [[109; 97; 105; 110; 46; 112; 121]%Z; d20230615].

(** An extract whose header lacks [email], which the Client statement
    reads. *)
Definition no_email : DataFrame :=
  mkdf ["customer_id"; "sale_id"; "sale_date"]
       [[CInt 1; CInt 100; CStr "2023-06-15"]; [CInt 2; CInt 101; CStr "2023-06-15"]].

(** An extract whose header lacks [brand], which the Product statement
    reads. *)
Definition no_brand : DataFrame :=
  mkdf (List.filter (fun c => negb (String.eqb c "brand")) all_columns)
       [List.map snd
          (List.filter (fun x => negb (String.eqb (fst x) "brand"))
                       (combine all_columns good1))].


(** The first of January of the year 999, and a line with that date in
    the form YYYY-MM-DD. *)
Definition d09990101 : pystr := [48; 57; 57; 57; 48; 49; 48; 49]%Z.


(** The Airflow variables that name [source]. *)
Definition dag_variables : Variables := variables source.

(** A hand-off that returns the table it was given, as pandas does for
    the extracts of this section: integers, and text that is not a
    number. *)
Definition same_table : Xcom := {|
  json := DataFrame;
  to_json df := Ok df;
  read_json data := Ok data
|}.

End Example.

(* ===================================================================== *)
(** ** Vocabulary of the properties                                       *)
(* ===================================================================== *)

Definition is_insert (e : event) : bool :=
  match e with EvInsert _ _ => true | _ => false end.

Definition is_fetch (e : event) : bool :=
  match e with EvGetObject _ _ => true | _ => false end.

Definition event_table (e : event) : option table :=
  match e with EvInsert t _ => Some t | _ => None end.

(** The statements one row gives rise to, in source order, as far as their
    parameter tuples can be built. *)
Fixpoint statements (cols : list string) (r : row) (ts : list table) : trace :=
  match ts with
  | [] => []
  | t :: ts' =>
      match getitems cols r (table_columns t) with
      | Ok params => EvInsert t params :: statements cols r ts'
      | Raise _ => []
      end
  end.

Definition row_inserts (cols : list string) (r : row) : trace :=
  statements cols r insert_order.

(** Each row's insert sequence, run from the world the previous row left,
    whether or not that row raised. *)
Fixpoint run_rows {W} `{Backend W} (cols : list string) (rows : list row) (w : W)
  : list (outcome W unit) :=
  match rows with
  | [] => []
  | r :: rest =>
      let o := insert_row cols r w in
      o :: run_rows cols rest (world o)
  end.

(** The world after the last of a sequence of steps. *)
Definition last_world {W A} (w : W) (os : list (outcome W A)) : W :=
  fold_left (fun _ o => world o) os w.

(** The per-row sequence over any list of tables; [insert_row] is the
    instance at [insert_order]. *)
Fixpoint insert_tables {W} `{Backend W} (ts : list table) (cols : list string)
         (r : row) : M W unit :=
  match ts with
  | [] => ret tt
  | t :: ts' => execute_insert t cols r ;;; insert_tables ts' cols r
  end.

(** An outcome the command-line loop lets pass: no error, or a storage
    error. *)
Definition swallowed_by_cli {W} (o : outcome W unit) : Prop :=
  res o = Ok tt \/ exists msg, res o = Raise (PsycopgError msg).

(** The trace is, row by row in input order, a prefix of that row's
    statements. *)
Inductive row_by_row (cols : list string) : list row -> trace -> Prop :=
| rbr_nil : row_by_row cols [] []
| rbr_cons r rows j tr :
    (j <= 4)%nat ->
    row_by_row cols rows tr ->
    row_by_row cols (r :: rows) (take j (row_inserts cols r) ++ tr).

Definition count_ok {W A} (os : list (outcome W A)) : nat :=
  length (List.filter (fun o => is_ok (res o)) os).

(** *** The validator as the specification words it *)

Definition ascii_digit (c : Z) : bool := in_range 48 57 c.

(** The number a string of ASCII digits writes. *)
Definition number (s : pystr) : Z := fold_left (fun acc c => 10 * acc + (c - 48)) s 0.

Definition leap_year (y : Z) : bool :=
  if y mod 400 =? 0 then true
  else if y mod 100 =? 0 then false
  else y mod 4 =? 0.

Definition month_length (y m : Z) : Z :=
  if m =? 2 then (if leap_year y then 29 else 28)
  else if (m =? 4) || (m =? 6) || (m =? 9) || (m =? 11) then 30
  else 31.

(** A date of the calendar: years start at 1, twelve months, and as many
    days as the month has in that year. *)
Definition real_calendar_date (y m d : Z) : bool :=
  (1 <=? y) && in_range 1 12 m && in_range 1 (month_length y m) d.

(** Exactly eight ASCII digits that read as a calendar date YYYYMMDD. *)
Definition spec_validate (s : pystr) : bool :=
  match s with
  | [a; b; c; d; e; f; g; h] =>
      forallb ascii_digit s
      && real_calendar_date (number [a; b; c; d]) (number [e; f]) (number [g; h])
  | _ => false
  end.

(** The form YYYY-MM-DD of eight characters YYYYMMDD. *)
Definition char_of (c : Z) : ascii := ascii_of_N (Z.to_N c).

Definition iso_form (s : pystr) : string :=
  match s with
  | [a; b; c; d; e; f; g; h] =>
      string_of_list_ascii
        [char_of a; char_of b; char_of c; char_of d; "-"%char;
         char_of e; char_of f; "-"%char; char_of g; char_of h]
  | _ => EmptyString
  end.

(** The year is written with four significant digits: the first is not
    a zero. *)
Definition four_digit_year (s : pystr) : bool :=
  match s with
  | a :: _ => negb (a =? 48)
  | [] => false
  end.

(** Leading zeros removed, the last digit kept. *)
Fixpoint strip_zeros (s : pystr) : pystr :=
  match s with
  | c :: ((_ :: _) as rest) => if c =? 48 then strip_zeros rest else s
  | _ => s
  end.

(** The form the code gives eight characters YYYYMMDD: as [iso_form], the
    year without its leading zeros. *)
Definition code_form (s : pystr) : string :=
  match s with
  | [a; b; c; d; e; f; g; h] =>
      string_of_list_ascii
        (List.map char_of (strip_zeros [a; b; c; d])
         ++ ["-"%char; char_of e; char_of f; "-"%char; char_of g; char_of h])
  | _ => EmptyString
  end.

(** No two rows are equal on all columns. *)
Fixpoint all_distinct (rows : list row) : bool :=
  match rows with
  | [] => true
  | r :: rest => negb (existsb (same_row r) rest) && all_distinct rest
  end.

(** The hand-off keeps the text of a formatted date: a table whose
    [sale_date] column holds it in every row is read back as such a
    table.  ([pd.read_json] converts neither the column, whose name is not
    one of its date-like names, nor the text, which is not a number.) *)
Definition keeps_dates (xcom : Xcom) : Prop :=
  forall date fd df data back,
    formatted_date date = Ok fd ->
    dated fd df ->
    to_json df = Ok data ->
    read_json data = Ok back ->
    dated fd back.

(** The hand-off returns the table it was given. *)
Definition hands_over (xcom : Xcom) (df : DataFrame) : Prop :=
  exists data, to_json df = Ok data /\ read_json data = Ok df.

(** The header has every column the four statements read. *)
Definition complete_header (cols : list string) : bool :=
  forallb (fun t => forallb (fun c => bool_decide (is_Some (column_index c cols)))
                            (table_columns t))
          insert_order.

(** The eight ASCII digits YYYYMMDD that write a date. *)
Definition date_digits (d : date) : pystr :=
  [48 + (year d / 1000) mod 10; 48 + (year d / 100) mod 10;
   48 + (year d / 10) mod 10; 48 + year d mod 10;
   48 + (month d / 10) mod 10; 48 + month d mod 10;
   48 + (day d / 10) mod 10; 48 + day d mod 10].

Definition ascii_digits : list Z := [48; 49; 50; 51; 52; 53; 54; 55; 56; 57].

(** The month and day groups of the pattern on what follows the year. *)
Definition md_groups (rest : pystr) : list (pystr * pystr * pystr) :=
  flat_map (fun m => List.map (fun d => (fst m, fst d, snd d)) (re_d (snd m)))
           (re_m rest).

Definition md_expected (e f g h : Z) : bool :=
  in_range 1 12 (number [e; f]) && in_range 1 31 (number [g; h]).

Definition md_agrees (e f g h : Z) : bool :=
  match hd_error (md_groups [e; f; g; h]) with
  | Some (m, d, []) =>
      md_expected e f g h && (py_int m =? number [e; f]) && (py_int d =? number [g; h])
  | _ => negb (md_expected e f g h)
  end.

Definition year_agrees (a b c d : Z) : bool :=
  (year_text (number [a; b; c; d])
   =? string_of_list_ascii (List.map char_of (strip_zeros [a; b; c; d])))%string.

Definition pair_agrees (a b : Z) : bool :=
  (pad2 (number [a; b]) =? string_of_list_ascii [char_of a; char_of b])%string.

Definition lengths_agree (y m : Z) : bool :=
  days_in_month y m =? month_length y m.

(** The five settings [main] requires, all set and not empty. *)
Definition settings_present (env : Environ) : bool :=
  forallb truthy
    [DATABASE_URL env; MINIO_ROOT_USER env; MINIO_ROOT_PASSWORD env;
     MINIO_BUCKET_NAME env;
     getenv_default (FILE_NAME env) "fashion_store_sales.csv"].

(** The object [main] makes the workflow read. *)
Definition main_source (env : Environ) : Source :=
  mksource (text (MINIO_BUCKET_NAME env))
           (text (getenv_default (FILE_NAME env) "fashion_store_sales.csv")).

(** Every fetch of the object comes after an existence query. *)
Fixpoint check_precedes_fetch (checked : bool) (tr : trace) : bool :=
  match tr with
  | [] => true
  | EvSelectExists _ :: tr' => check_precedes_fetch true tr'
  | EvGetObject _ _ :: tr' => checked && check_precedes_fetch checked tr'
  | _ :: tr' => check_precedes_fetch checked tr'
  end.

(** Neither the object store nor an insert is reached. *)
Definition quiet (tr : trace) : Prop :=
  forall ev, In ev tr -> is_fetch ev = false /\ is_insert ev = false.

(** The terminal states of a run of [start_workflow], read off the steps:
    the date does not parse when the check formats it; the check finds
    the date; the extract is empty; the load returns; or a step raises. *)
Inductive terminal : Type :=
| RejectedAtRuntime
| SkippedExisting
| SkippedNoData
| Completed
| Failed.

#[global] Instance terminal_eq_dec : EqDecision terminal.
Proof. solve_decision. Defined.

Definition run_state {W} `{Backend W} (self : Source) (date : pystr) (w : W)
  : terminal :=
  match formatted_date date with
  | Raise _ => RejectedAtRuntime
  | Ok _ =>
      let o1 := DataInjection.check_date_exists date w in
      match res o1 with
      | Raise _ => Failed
      | Ok true => SkippedExisting
      | Ok false =>
          let o2 := DataInjection.extract_data_from_minio self date (world o1) in
          match res o2 with
          | Raise _ => Failed
          | Ok df =>
              if df_empty df then SkippedNoData
              else match res (DataInjection.load_data_to_postgres df (world o2)) with
                   | Raise _ => Failed
                   | Ok _ => Completed
                   end
          end
      end
  end.

(* ===================================================================== *)
(** ** Properties                                                         *)
(* ===================================================================== *)

Ltac run_monad :=
  unfold bind, catch, call, call_total, lift, ret, raise in *; simpl in *.

Section MonadFacts.
Context {W : Type}.

(** [bind] and [catch] in terms of the parts of the first outcome. *)
Lemma bind_outcome {A B} (m : M W A) (f : A -> M W B) w :
  bind m f w
  = match res (m w) with
    | Ok a => mkout (res (f a (world (m w)))) (world (f a (world (m w))))
                    (log (m w) ++ log (f a (world (m w))))
    | Raise e => mkout (Raise e) (world (m w)) (log (m w))
    end.
Proof.
  unfold bind. destruct (m w) as [[a|e] w1 l1]; cbn [res world log]; [|reflexivity].
  destruct (f a w1); reflexivity.
Qed.

Lemma catch_outcome {A} (m : M W A) (h : exn -> option (M W A)) w :
  catch m h w
  = match res (m w) with
    | Ok a => m w
    | Raise e =>
        match h e with
        | Some k => mkout (res (k (world (m w)))) (world (k (world (m w))))
                          (log (m w) ++ log (k (world (m w))))
        | None => m w
        end
    end.
Proof.
  unfold catch. destruct (m w) as [[a|e] w1 l1]; cbn [res world log]; [reflexivity|].
  destruct (h e) as [k|]; [|reflexivity]. destruct (k w1); reflexivity.
Qed.

End MonadFacts.

Section LoaderFacts.
Context {W : Type} `{Backend W}.

Lemma insert_row_tables cols r w :
  insert_row cols r w = insert_tables insert_order cols r w.
Proof.
  unfold insert_row, insert_order. cbn [insert_tables]. unfold bind, ret.
  destruct (execute_insert Client cols r w) as [[[]|e] w1 l1]; [|reflexivity].
  destruct (execute_insert Product cols r w1) as [[[]|e] w2 l2]; [|reflexivity].
  destruct (execute_insert Sale cols r w2) as [[[]|e] w3 l3]; [|reflexivity].
  destruct (execute_insert SaleProduct cols r w3) as [[[]|e] w4 l4];
    rewrite ?app_nil_r; reflexivity.
Qed.

Lemma execute_insert_raise t cols r w e :
  getitems cols r (table_columns t) = Raise e ->
  execute_insert t cols r w = mkout (Raise e) w [].
Proof. intros E. unfold execute_insert. run_monad. rewrite E. reflexivity. Qed.

Lemma execute_insert_ok t cols r w p :
  getitems cols r (table_columns t) = Ok p ->
  execute_insert t cols r w
  = mkout (fst (pg_insert t p w)) (snd (pg_insert t p w)) [EvInsert t p].
Proof. intros E. unfold execute_insert. run_monad. rewrite E. reflexivity. Qed.

Lemma insert_tables_log ts cols r w :
  exists j, (j <= length ts)%nat /\
    log (insert_tables ts cols r w) = take j (statements cols r ts) /\
    (res (insert_tables ts cols r w) = Ok tt ->
     j = length ts /\ length (statements cols r ts) = length ts).
Proof.
  revert w. induction ts as [|t ts IH]; intros w.
  - exists 0%nat. simpl. auto.
  - cbn [insert_tables statements]. rewrite bind_outcome.
    destruct (getitems cols r (table_columns t)) as [p|e] eqn:E.
    + rewrite (execute_insert_ok _ _ _ _ _ E). cbn [res world log].
      destruct (fst (pg_insert t p w)) as [[]|e].
      * destruct (IH (snd (pg_insert t p w))) as (j & Hj & Hl & Hr).
        exists (S j). cbn [res log length]. rewrite Hl.
        split; [lia|]. split; [reflexivity|].
        intros Hok. destruct (Hr Hok) as [-> ->]. auto.
      * exists 1%nat. cbn [res log length].
        split; [lia|]. split; [reflexivity|]. discriminate.
    + rewrite (execute_insert_raise _ _ _ _ _ E). cbn [res world log].
      exists 0%nat. split; [lia|]. split; [reflexivity|]. discriminate.
Qed.

(** The sequence stops at the first statement that raises; what was sent
    is a prefix of the row's statements, the whole of it on success. *)
Lemma insert_row_log cols r w :
  exists j, (j <= 4)%nat /\
    log (insert_row cols r w) = take j (row_inserts cols r) /\
    (res (insert_row cols r w) = Ok tt ->
     j = 4%nat /\ length (row_inserts cols r) = 4%nat).
Proof. rewrite insert_row_tables. apply (insert_tables_log insert_order). Qed.

End LoaderFacts.

Section LoopFacts.
Context {W : Type} `{Backend W}.

Lemma row_by_row_none cols rows : row_by_row cols rows [].
Proof.
  induction rows as [|r rest IH]; [constructor|].
  apply (rbr_cons cols r rest 0 []); [lia | exact IH].
Qed.

(** One iteration of either loop, in terms of the row's own outcome. *)
Lemma guarded_row cols r n (h : exn -> option (M W nat)) w :
  catch (insert_row cols r ;;; ret (S n)) h w
  = let o := insert_row cols r w in
    match res o with
    | Ok _ => mkout (Ok (S n)) (world o) (log o)
    | Raise e =>
        match h e with
        | Some k => mkout (res (k (world o))) (world (k (world o)))
                          (log o ++ log (k (world o)))
        | None => mkout (Raise e) (world o) (log o)
        end
    end.
Proof.
  rewrite catch_outcome, bind_outcome. unfold ret. cbv zeta.
  destruct (insert_row cols r w) as [[[]|e] w1 l1]; cbn [res world log].
  - rewrite app_nil_r. reflexivity.
  - destruct (h e); reflexivity.
Qed.

Lemma cli_rows_row_by_row cols rows n w :
  row_by_row cols rows (log (DataInjection.insert_rows cols rows n w)).
Proof.
  revert n w. induction rows as [|r rest IH]; intros n w.
  - constructor.
  - cbn [DataInjection.insert_rows]. rewrite bind_outcome, guarded_row. cbv zeta.
    destruct (insert_row_log cols r w) as (j & Hj & Hl & _).
    destruct (res (insert_row cols r w)) as [[]|e]; cbn [res world log].
    + rewrite Hl. constructor; [exact Hj | apply IH].
    + destruct (is_psycopg e); cbn [res world log ret].
      * rewrite app_nil_r, Hl. constructor; [exact Hj | apply IH].
      * rewrite Hl, <- (app_nil_r (take j _)).
        constructor; [exact Hj | apply row_by_row_none].
Qed.

Lemma dag_rows_row_by_row cols rows n w :
  row_by_row cols rows (log (Dag.insert_rows cols rows n w)).
Proof.
  revert n w. induction rows as [|r rest IH]; intros n w.
  - constructor.
  - cbn [Dag.insert_rows]. rewrite bind_outcome, guarded_row. cbv zeta.
    destruct (insert_row_log cols r w) as (j & Hj & Hl & _).
    destruct (res (insert_row cols r w)) as [[]|e]; cbn [res world log].
    + rewrite Hl. constructor; [exact Hj | apply IH].
    + rewrite bind_outcome. unfold lift, ret. cbn [res world log].
      destruct (getitem cols r "sale_id"); cbn [res world log].
      * rewrite app_nil_r, Hl. constructor; [exact Hj | apply IH].
      * rewrite app_nil_r, Hl, <- (app_nil_r (take j _)).
        constructor; [exact Hj | apply row_by_row_none].
Qed.

Lemma statements_are_inserts cols r ts :
  List.filter is_insert (statements cols r ts) = statements cols r ts.
Proof.
  induction ts as [|t ts IH]; [reflexivity|]. cbn [statements].
  destruct (getitems cols r (table_columns t)); [|reflexivity].
  cbn [List.filter is_insert]. rewrite IH. reflexivity.
Qed.

Lemma take_inserts j (l : trace) :
  List.filter is_insert l = l -> List.filter is_insert (take j l) = take j l.
Proof.
  revert j. induction l as [|e l IH]; intros [|j] E; try reflexivity.
  cbn [List.filter] in E. cbn [take firstn List.filter].
  destruct (is_insert e) eqn:Ee.
  - injection E as E. rewrite (IH j E). reflexivity.
  - exfalso. assert (L := filter_length_le is_insert l).
    rewrite E in L. cbn [length] in L. lia.
Qed.

Lemma row_by_row_inserts cols rows tr :
  row_by_row cols rows tr -> List.filter is_insert tr = tr.
Proof.
  induction 1 as [|r rows j tr Hj Hrows IH]; [reflexivity|].
  rewrite List.filter_app, IH.
  rewrite take_inserts; [reflexivity | apply statements_are_inserts].
Qed.

(** What a managed connection adds around its body. *)
Lemma with_connection_outcome {A} (body : M W A) w :
  DataInjection.with_connection body w
  = match fst (pg_connect w) with
    | Raise e => mkout (Raise e) (snd (pg_connect w)) [EvConnect]
    | Ok _ =>
        let o := body (snd (pg_connect w)) in
        match res o with
        | Raise e => mkout (Raise e) (pg_close (pg_rollback (world o)))
                           (EvConnect :: log o ++ [EvRollback; EvClose])
        | Ok a =>
            match fst (pg_commit (world o)) with
            | Raise e => mkout (Raise e) (snd (pg_commit (world o)))
                               (EvConnect :: log o ++ [EvCommit])
            | Ok _ => mkout (Ok a) (pg_close (snd (pg_commit (world o))))
                            (EvConnect :: log o ++ [EvCommit; EvClose])
            end
        end
    end.
Proof.
  unfold DataInjection.with_connection, bind, catch, call, call_total, ret, raise. cbv zeta.
  destruct (pg_connect w) as [[[]|e] w1]; cbn [fst snd]; [|reflexivity].
  destruct (body w1) as [[a|e] w2 l2]; cbn [res world log app].
  - destruct (pg_commit w2) as [[[]|e] w3]; cbn [fst snd app];
      rewrite ?app_nil_r; reflexivity.
  - rewrite ?app_nil_r. reflexivity.
Qed.

Lemma filter_inserts_around (tr before after : trace) :
  List.filter is_insert before = [] ->
  List.filter is_insert after = [] ->
  List.filter is_insert (before ++ tr ++ after) = List.filter is_insert tr.
Proof.
  intros B A. rewrite !List.filter_app, A, B, app_nil_r. reflexivity.
Qed.

Lemma with_connection_inserts {A} (body : M W A) w :
  List.filter is_insert (log (DataInjection.with_connection body w))
  = match fst (pg_connect w) with
    | Ok _ => List.filter is_insert (log (body (snd (pg_connect w))))
    | Raise _ => []
    end.
Proof.
  rewrite with_connection_outcome. cbv zeta.
  destruct (fst (pg_connect w)) as [[]|e]; [|reflexivity].
  destruct (res (body _)) as [a|e]; [destruct (fst (pg_commit _))|];
    cbn [log]; apply (filter_inserts_around _ [EvConnect]); reflexivity.
Qed.

Lemma cli_load_inserts df w :
  List.filter is_insert (log (DataInjection.load_data_to_postgres df w))
  = match fst (pg_connect w) with
    | Ok _ => log (DataInjection.insert_rows (df_columns df) (df_rows df) 0 (snd (pg_connect w)))
    | Raise _ => []
    end.
Proof.
  unfold DataInjection.load_data_to_postgres.
  match goal with |- context [DataInjection.with_connection ?b] => set (body := b) end.
  assert (E : List.filter is_insert (log (DataInjection.with_connection body w))
              = match fst (pg_connect w) with
                | Ok _ => log (DataInjection.insert_rows (df_columns df) (df_rows df) 0
                                 (snd (pg_connect w)))
                | Raise _ => []
                end).
  { rewrite with_connection_inserts.
    destruct (fst (pg_connect w)) as [[]|e]; [|reflexivity].
    unfold body. rewrite bind_outcome.
    pose proof (row_by_row_inserts _ _ _
      (cli_rows_row_by_row (df_columns df) (df_rows df) 0 (snd (pg_connect w)))) as F.
    destruct (res (DataInjection.insert_rows _ _ _ _)); cbn [log]; [|exact F].
    unfold call. cbn [log]. rewrite <- F at 2.
    apply (filter_inserts_around _ [] [EvCommit]); reflexivity. }
  rewrite catch_outcome.
  destruct (res (DataInjection.with_connection body w)) as [[]|e]; [exact E|].
  destruct (is_psycopg e); [|exact E].
  unfold raise. cbn [res world log]. rewrite app_nil_r. exact E.
Qed.

(** The DAG's loader around its loop. *)
Lemma dag_load_outcome df w :
  Dag.load_table df w
  = match fst (pg_connect w) with
    | Raise e => mkout (Raise (DataInjectionError "Impossible d'inserer les donnees"))
                       (snd (pg_connect w)) [EvConnect]
    | Ok _ =>
        let o := Dag.insert_rows (df_columns df) (df_rows df) 0 (snd (pg_connect w)) in
        match res o with
        | Raise e => mkout (Raise (DataInjectionError "Impossible d'inserer les donnees"))
                           (world o) (EvConnect :: log o)
        | Ok n =>
            match fst (pg_commit (world o)) with
            | Raise e => mkout (Raise (DataInjectionError "Impossible d'inserer les donnees"))
                               (snd (pg_commit (world o)))
                               (EvConnect :: log o ++ [EvCommit])
            | Ok _ => mkout (Ok (mkresult "success" n (Inserted n)))
                            (pg_close (snd (pg_commit (world o))))
                            (EvConnect :: log o ++ [EvCommit; EvClose])
            end
        end
    end.
Proof.
  unfold Dag.load_table, bind, catch, call, call_total, ret, raise.
  cbv zeta.
  destruct (pg_connect w) as [[[]|e] w1]; cbn [fst snd]; [|reflexivity].
  destruct (Dag.insert_rows _ _ _ w1) as [[n|e] w2 l2]; cbn [res world log app].
  - destruct (pg_commit w2) as [[[]|e] w3]; cbn [fst snd app];
      rewrite ?app_nil_r; reflexivity.
  - rewrite ?app_nil_r. reflexivity.
Qed.

Lemma dag_load_inserts df w :
  List.filter is_insert (log (Dag.load_table df w))
  = match fst (pg_connect w) with
    | Ok _ => log (Dag.insert_rows (df_columns df) (df_rows df) 0 (snd (pg_connect w)))
    | Raise _ => []
    end.
Proof.
  rewrite dag_load_outcome. cbv zeta.
  destruct (fst (pg_connect w)) as [[]|e]; [|reflexivity].
  pose proof (row_by_row_inserts _ _ _
    (dag_rows_row_by_row (df_columns df) (df_rows df) 0 (snd (pg_connect w)))) as F.
  destruct (res (Dag.insert_rows _ _ _ _)) as [n|e];
    [destruct (fst (pg_commit _))|]; cbn [log].
  - rewrite <- F at 2. apply (filter_inserts_around _ [EvConnect]); reflexivity.
  - rewrite <- F at 2. apply (filter_inserts_around _ [EvConnect]); reflexivity.
  - rewrite <- F at 2.
    rewrite <- (app_nil_r (log _)) at 1.
    apply (filter_inserts_around _ [EvConnect] []); reflexivity.
Qed.

(** The load task is [pd.read_json], then the load of the table read
    back; nothing is called when the text cannot be read. *)
Lemma dag_load_read {xcom : Xcom} (data : json) df w :
  read_json data = Ok df ->
  Dag.load_data_to_postgres (Some data) w = Dag.load_table df w.
Proof.
  intros E. unfold Dag.load_data_to_postgres, bind, lift. rewrite E.
  destruct (Dag.load_table df w). reflexivity.
Qed.

Lemma dag_load_unread {xcom : Xcom} (data : json) e w :
  read_json data = Raise e ->
  Dag.load_data_to_postgres (Some data) w = mkout (Raise e) w [].
Proof.
  intros E. unfold Dag.load_data_to_postgres, bind, lift. rewrite E. reflexivity.
Qed.

End LoopFacts.

Lemma getitems_nth cols r names ps :
  getitems cols r names = Ok ps ->
  forall i name, names !! i = Some name ->
                 getitem cols r name = Ok (nth i ps CNull).
Proof.
  revert ps. induction names as [|n ns IH]; intros ps E i name Hi.
  - destruct i; discriminate.
  - cbn [getitems] in E.
    destruct (getitem cols r n) as [c|e] eqn:Ec; [|discriminate].
    destruct (getitems cols r ns) as [cs|e] eqn:Ecs; [|discriminate].
    injection E as <-. destruct i as [|i].
    + injection Hi as <-. exact Ec.
    + apply (IH cs eq_refl i name Hi).
Qed.

Lemma statements_tables cols r ts :
  event_table <$> statements cols r ts
  = Some <$> take (length (statements cols r ts)) ts.
Proof.
  induction ts as [|t ts IH]; [reflexivity|]. cbn [statements].
  destruct (getitems cols r (table_columns t)); [|reflexivity].
  cbn [fmap list_fmap length take firstn event_table]. f_equal. exact IH.
Qed.

(** What the Sale and SaleLineItem statements of a row refer to are the
    keys of the statements issued before them for the same row. *)
Lemma row_references cols r pc pp ps pi :
  row_inserts cols r = [EvInsert Client pc; EvInsert Product pp;
                        EvInsert Sale ps; EvInsert SaleProduct pi] ->
  nth 4 ps CNull = hd CNull pc /\
  nth 1 pi CNull = hd CNull ps /\
  nth 2 pi CNull = hd CNull pp.
Proof.
  unfold row_inserts, insert_order. cbn [statements].
  destruct (getitems cols r (table_columns Client)) as [c|] eqn:Ec; [|discriminate].
  destruct (getitems cols r (table_columns Product)) as [p|] eqn:Ep; [|discriminate].
  destruct (getitems cols r (table_columns Sale)) as [s|] eqn:Es; [|discriminate].
  destruct (getitems cols r (table_columns SaleProduct)) as [i|] eqn:Ei; [|discriminate].
  intros E. injection E as -> -> -> ->.
  pose proof (getitems_nth _ _ _ _ Ec 0%nat "customer_id" eq_refl) as C0.
  pose proof (getitems_nth _ _ _ _ Ep 0%nat "product_id" eq_refl) as P0.
  pose proof (getitems_nth _ _ _ _ Es 0%nat "sale_id" eq_refl) as S0.
  pose proof (getitems_nth _ _ _ _ Es 4%nat "customer_id" eq_refl) as S4.
  pose proof (getitems_nth _ _ _ _ Ei 1%nat "sale_id" eq_refl) as I1.
  pose proof (getitems_nth _ _ _ _ Ei 2%nat "product_id" eq_refl) as I2.
  assert (Hd : forall l : list cell, hd CNull l = nth 0 l CNull) by (intros []; reflexivity).
  rewrite !Hd. repeat split; congruence.
Qed.

Section Accounting.
Context {W : Type} `{Backend W}.

(** When every error is a storage error, the command-line loop attempts
    every row and counts those that raised nothing. *)
Lemma cli_rows_counted cols rows n w :
  Forall swallowed_by_cli (run_rows cols rows w) ->
  DataInjection.insert_rows cols rows n w
  = mkout (Ok (n + count_ok (run_rows cols rows w))%nat)
          (last_world w (run_rows cols rows w))
          (concat (log <$> run_rows cols rows w)).
Proof.
  revert n w. induction rows as [|r rest IH]; intros n w F.
  - cbn. unfold ret. f_equal. f_equal. unfold count_ok. cbn. lia.
  - cbn [run_rows] in *. apply Forall_cons in F as [F1 F2].
    cbn [DataInjection.insert_rows]. unfold bind at 1. rewrite guarded_row. cbv zeta.
    unfold count_ok, last_world. cbn [List.filter fold_left fmap list_fmap concat].
    fold (last_world (world (insert_row cols r w)) (run_rows cols rest (world (insert_row cols r w)))).
    destruct F1 as [E|[msg E]]; rewrite E; cbn [res world log is_psycopg ret is_ok].
    + rewrite (IH _ _ F2). cbn [res world log length]. f_equal. f_equal.
      unfold count_ok. lia.
    + rewrite (IH _ _ F2). cbn [res world log]. rewrite app_nil_r. reflexivity.
Qed.

(** The DAG loop swallows every error of a row, provided its log line
    can be formatted. *)
Lemma dag_rows_counted cols rows n w i :
  column_index "sale_id" cols = Some i ->
  Dag.insert_rows cols rows n w
  = mkout (Ok (n + count_ok (run_rows cols rows w))%nat)
          (last_world w (run_rows cols rows w))
          (concat (log <$> run_rows cols rows w)).
Proof.
  intros Hi. revert n w. induction rows as [|r rest IH]; intros n w.
  - cbn. unfold ret. f_equal. f_equal. unfold count_ok. cbn. lia.
  - cbn [run_rows Dag.insert_rows]. unfold bind at 1. rewrite guarded_row. cbv zeta.
    unfold count_ok, last_world. cbn [List.filter fold_left fmap list_fmap concat].
    fold (last_world (world (insert_row cols r w)) (run_rows cols rest (world (insert_row cols r w)))).
    destruct (res (insert_row cols r w)) as [[]|e]; cbn [res world log is_ok].
    + rewrite IH. cbn [res world log length]. f_equal. f_equal.
      unfold count_ok. lia.
    + unfold bind, lift, ret, getitem. rewrite Hi. cbn [res world log].
      rewrite IH. cbn [res world log]. rewrite !app_nil_r. reflexivity.
Qed.

End Accounting.

Lemma column_index_in name cols :
  In name cols -> exists i, column_index name cols = Some i.
Proof.
  induction cols as [|c cs IH]; intros Hin; [destruct Hin|].
  cbn [column_index]. destruct (decide (c = name)) as [|Hne]; [eauto|].
  destruct Hin as [|Hin]; [contradiction|].
  destruct (IH Hin) as [i ->]. eauto.
Qed.

Section RowStatements.
Context {W : Type} `{Backend W}.

(** A row whose sequence returns has sent its four statements, each
    with the fields of the row. *)
Lemma insert_row_ok_log cols r w :
  res (insert_row cols r w) = Ok tt ->
  exists pc pp ps pi,
    getitems cols r (table_columns Client) = Ok pc /\
    getitems cols r (table_columns Product) = Ok pp /\
    getitems cols r (table_columns Sale) = Ok ps /\
    getitems cols r (table_columns SaleProduct) = Ok pi /\
    log (insert_row cols r w)
    = [EvInsert Client pc; EvInsert Product pp; EvInsert Sale ps;
       EvInsert SaleProduct pi].
Proof.
  intros E. destruct (insert_row_log cols r w) as (j & _ & Hl & Hok).
  destruct (Hok E) as [-> L]. rewrite firstn_all2 in Hl by lia. rewrite Hl.
  revert L. unfold row_inserts, insert_order. cbn [statements].
  destruct (getitems cols r (table_columns Client)) as [pc|]; [|discriminate].
  destruct (getitems cols r (table_columns Product)) as [pp|]; [|discriminate].
  destruct (getitems cols r (table_columns Sale)) as [ps|]; [|discriminate].
  destruct (getitems cols r (table_columns SaleProduct)) as [pi|]; [|discriminate].
  intros _. exists pc, pp, ps, pi. repeat split; reflexivity.
Qed.

(** The Client statement is sent whenever its parameters can be built,
    and each further statement as soon as the one before it returned. *)
Lemma insert_tables_next t ts cols r w p :
  getitems cols r (table_columns t) = Ok p ->
  log (insert_tables (t :: ts) cols r w)
  = EvInsert t p
      :: match fst (pg_insert t p w) with
         | Ok _ => log (insert_tables ts cols r (snd (pg_insert t p w)))
         | Raise _ => []
         end.
Proof.
  intros E. cbn [insert_tables]. rewrite bind_outcome, (execute_insert_ok _ _ _ _ _ E).
  cbn [res world log]. destruct (fst (pg_insert t p w)); reflexivity.
Qed.

Lemma insert_row_prefix cols r w :
  exists j, (j <= 4)%nat /\
            log (insert_row cols r w) = take j (row_inserts cols r) /\
            event_table <$> log (insert_row cols r w)
            = Some <$> take j [Client; Product; Sale; SaleProduct].
Proof.
  destruct (insert_row_log cols r w) as (j & Hj & Hl & _).
  pose proof (statements_tables cols r insert_order) as T.
  fold (row_inserts cols r) in T.
  exists (j `min` length (row_inserts cols r))%nat.
  split; [lia|]. rewrite Hl. split.
  - destruct (Nat.le_gt_cases j (length (row_inserts cols r))).
    + rewrite Nat.min_l by lia. reflexivity.
    + rewrite Nat.min_r by lia. rewrite !firstn_all2 by lia. reflexivity.
  - change (firstn j (row_inserts cols r)) with (take j (row_inserts cols r)).
    rewrite fmap_take, T, <- fmap_take, take_take. reflexivity.
Qed.

Lemma dag_rows_inserts_at_least cols rows n w m :
  res (Dag.insert_rows cols rows n w) = Ok m ->
  (4 * m <= 4 * n + length (log (Dag.insert_rows cols rows n w)))%nat.
Proof.
  revert n w. induction rows as [|r rest IH]; intros n w.
  - cbn. intros E. injection E as <-. lia.
  - cbn [Dag.insert_rows]. rewrite bind_outcome, guarded_row. cbv zeta.
    destruct (res (insert_row cols r w)) as [[]|e] eqn:E; cbn [res world log].
    + destruct (insert_row_ok_log cols r w E) as (pc & pp & ps & pi & _ & _ & _ & _ & ->).
      intros En. apply IH in En. rewrite length_app. cbn [length]. lia.
    + rewrite bind_outcome. unfold lift, ret. cbn [res world log].
      destruct (getitem cols r "sale_id"); cbn [res world log]; [|discriminate].
      intros En. apply IH in En. rewrite !length_app. lia.
Qed.

End RowStatements.

(** C5. For every row the loader processes, the four inserts are issued
    in the order Client, Product, Sale, SaleLineItem and in no other.  A
    row whose sequence returns has sent exactly these four statements, in
    this order, each with the fields of the row, the Sale and SaleLineItem
    statements referring to the keys of the statements before them; the
    Client statement is sent whenever its parameters can be built, and
    each statement after it as soon as the one before it returned, never
    otherwise.  In both implementations the insert statements of a load
    are the rows' sequences in input order: row by row a prefix of the
    row's four statements, one after the other from the state the
    previous row left when no row lets an error out of the loop, and at
    least four for each row the DAG counts. *)
Theorem C5_insertion_order {W : Type} `{Backend W} {xcom : Xcom}
    (df : DataFrame) (data : json) (w : W) :
  read_json data = Ok df ->
  let cols := df_columns df in
  let rows := df_rows df in
  let runs := run_rows cols rows (snd (pg_connect w)) in
  (forall r w',
      res (insert_row cols r w') = Ok tt ->
      exists pc pp ps pi,
        getitems cols r (table_columns Client) = Ok pc /\
        getitems cols r (table_columns Product) = Ok pp /\
        getitems cols r (table_columns Sale) = Ok ps /\
        getitems cols r (table_columns SaleProduct) = Ok pi /\
        log (insert_row cols r w')
        = [EvInsert Client pc; EvInsert Product pp; EvInsert Sale ps;
           EvInsert SaleProduct pi] /\
        nth 4 ps CNull = hd CNull pc /\
        nth 1 pi CNull = hd CNull ps /\
        nth 2 pi CNull = hd CNull pp) /\
  (forall r w' t ts p,
      getitems cols r (table_columns t) = Ok p ->
      log (insert_tables (t :: ts) cols r w')
      = EvInsert t p
          :: match fst (pg_insert t p w') with
             | Ok _ => log (insert_tables ts cols r (snd (pg_insert t p w')))
             | Raise _ => []
             end) /\
  (forall r w',
      insert_row cols r w' = insert_tables [Client; Product; Sale; SaleProduct] cols r w' /\
      exists j, (j <= 4)%nat /\
                log (insert_row cols r w') = take j (row_inserts cols r) /\
                event_table <$> log (insert_row cols r w')
                = Some <$> take j [Client; Product; Sale; SaleProduct]) /\
  row_by_row cols rows
    (List.filter is_insert (log (DataInjection.load_data_to_postgres df w))) /\
  row_by_row cols rows
    (List.filter is_insert (log (Dag.load_data_to_postgres (Some data) w))) /\
  (fst (pg_connect w) = Ok tt ->
   (Forall swallowed_by_cli runs ->
    List.filter is_insert (log (DataInjection.load_data_to_postgres df w))
    = concat (log <$> runs)) /\
   (In "sale_id"%string cols ->
    List.filter is_insert (log (Dag.load_data_to_postgres (Some data) w))
    = concat (log <$> runs)) /\
   (forall r, res (Dag.load_data_to_postgres (Some data) w) = Ok r ->
              (4 * rows_inserted r
               <= length (List.filter is_insert
                            (log (Dag.load_data_to_postgres (Some data) w))))%nat)).
Proof.
  intros Hread cols rows runs. subst runs rows cols.
  rewrite (dag_load_read data df w Hread).
  split; [|split; [|split; [|split; [|split]]]].
  - intros r w' E.
    destruct (insert_row_ok_log (df_columns df) r w' E) as (pc & pp & ps & pi & E1 & E2 & E3 & E4 & L).
    exists pc, pp, ps, pi. repeat (split; [assumption|]).
    apply (row_references (df_columns df) r). unfold row_inserts, insert_order.
    cbn [statements]. rewrite E1, E2, E3, E4. reflexivity.
  - intros r w' t ts p E. apply insert_tables_next, E.
  - intros r w'. split; [apply insert_row_tables|].
    apply insert_row_prefix.
  - rewrite cli_load_inserts. destruct (fst (pg_connect w)).
    + apply cli_rows_row_by_row.
    + apply row_by_row_none.
  - rewrite dag_load_inserts. destruct (fst (pg_connect w)).
    + apply dag_rows_row_by_row.
    + apply row_by_row_none.
  - intros Hconn. split; [|split].
    + intros Hsw. rewrite cli_load_inserts, Hconn.
      rewrite (cli_rows_counted (df_columns df) (df_rows df) 0 _ Hsw). reflexivity.
    + intros Hsale. destruct (column_index_in _ _ Hsale) as [i Hi].
      rewrite dag_load_inserts, Hconn.
      rewrite (dag_rows_counted (df_columns df) (df_rows df) 0 _ i Hi). reflexivity.
    + intros r. rewrite dag_load_inserts, Hconn. rewrite dag_load_outcome.
      cbv zeta. rewrite Hconn.
      destruct (res (Dag.insert_rows _ _ _ _)) as [n|e] eqn:En; cbn [res];
        [|discriminate].
      destruct (fst (pg_commit _)); cbn [res]; [|discriminate].
      intros E. injection E as <-. cbn [rows_inserted].
      pose proof (dag_rows_inserts_at_least (df_columns df) (df_rows df) 0 _ n En). lia.
Qed.

Lemma C5_insertion_order_witness :
  List.filter is_insert
    (log (DataInjection.load_data_to_postgres Example.one_row
            (Example.fresh Example.one_row)))
  = [EvInsert Client (take 8 Example.good1);
     EvInsert Product (take 8 (drop 8 Example.good1));
     EvInsert Sale [CStr "S100"; CStr "2023-06-15"; CStr "web"; CStr "summer";
                    CStr "C1"];
     EvInsert SaleProduct [CStr "I1000"; CStr "S100"; CStr "P10"; CInt 1; CInt 0]] /\
  List.filter is_insert
    (log (Dag.load_data_to_postgres (xcom := Example.same_table)
            (Some Example.one_row) (Example.fresh Example.one_row)))
  = [EvInsert Client (take 8 Example.good1);
     EvInsert Product (take 8 (drop 8 Example.good1));
     EvInsert Sale [CStr "S100"; CStr "2023-06-15"; CStr "web"; CStr "summer";
                    CStr "C1"];
     EvInsert SaleProduct [CStr "I1000"; CStr "S100"; CStr "P10"; CInt 1; CInt 0]].
Proof.
  destruct (C5_insertion_order (xcom := Example.same_table) Example.one_row
              Example.one_row (Example.fresh Example.one_row) eq_refl)
    as (_ & _ & _ & _ & _ & Hload).
  destruct (Hload eq_refl) as (Hcli & Hdag & _). split.
  - apply Hcli. vm_compute.
    apply Forall_cons_2; [left; reflexivity | apply Forall_nil_2].
  - apply Hdag. vm_compute. tauto.
Defined.

(* ===================================================================== *)
(** ** The steps of a run                                                 *)
(* ===================================================================== *)

Section Orchestration.
Context {W : Type} `{Backend W}.

(** [start_workflow] step by step: whatever stops the steps, the result
    is a boolean. *)
Lemma start_workflow_steps self date w :
  DataInjection.start_workflow self date w
  = let o1 := DataInjection.check_date_exists date w in
    match res o1 with
    | Raise _ => mkout (Ok false) (world o1) (log o1)
    | Ok true => mkout (Ok false) (world o1) (log o1)
    | Ok false =>
        let o2 := DataInjection.extract_data_from_minio self date (world o1) in
        match res o2 with
        | Raise _ => mkout (Ok false) (world o2) (log o1 ++ log o2)
        | Ok df =>
            if df_empty df then mkout (Ok false) (world o2) (log o1 ++ log o2)
            else
              let o3 := DataInjection.load_data_to_postgres df (world o2) in
              mkout (Ok (is_ok (res o3))) (world o3) (log o1 ++ log o2 ++ log o3)
        end
    end.
Proof.
  unfold DataInjection.start_workflow, catch, bind, ret. cbv zeta.
  destruct (DataInjection.check_date_exists date w) as [[[|]|e] w1 l1]; cbn [res world log];
    rewrite ?app_nil_r; try reflexivity.
  destruct (DataInjection.extract_data_from_minio self date w1) as [[df|e] w2 l2];
    cbn [res world log]; rewrite ?app_nil_r; try reflexivity.
  destruct (df_empty df); cbn [res world log]; rewrite ?app_nil_r; try reflexivity.
  destruct (DataInjection.load_data_to_postgres df w2) as [[[]|e] w3 l3];
    cbn [res world log is_ok]; rewrite ?app_nil_r; reflexivity.
Qed.

(** The existence check either answers, after exactly one query on a
    connection of its own, or raises; it never touches the object store
    and never inserts. *)
Lemma cli_check_cases date w :
  (exists b fd, formatted_date date = Ok fd /\
                res (DataInjection.check_date_exists date w) = Ok b /\
                log (DataInjection.check_date_exists date w)
                = [EvConnect; EvSelectExists fd; EvCommit; EvClose]) \/
  (exists e, res (DataInjection.check_date_exists date w) = Raise e /\
             quiet (log (DataInjection.check_date_exists date w))).
Proof.
  unfold DataInjection.check_date_exists, DataInjection.with_connection.
  unfold catch, bind, call, call_total, lift, ret, raise. cbn [res world log].
  destruct (formatted_date date) as [fd|e]; cbn [res world log].
  2:{ right. exists e. split; [reflexivity|]. intros ev []. }
  destruct (fst (pg_connect w)) as [[]|e]; cbn [res world log].
  2:{ right. destruct (is_psycopg e); cbn [res world log]; eexists;
        (split; [reflexivity|]); intros ev Hin; cbn in Hin;
        intuition (subst; auto). }
  destruct (fst (pg_select_exists fd (snd (pg_connect w)))) as [b|e];
    cbn [res world log].
  - destruct (fst (pg_commit _)) as [[]|e]; cbn [res world log].
    + left. exists b, fd. auto.
    + right. destruct (is_psycopg e); cbn [res world log]; eexists;
        (split; [reflexivity|]); intros ev Hin; cbn in Hin;
        intuition (subst; auto).
  - right. destruct (is_psycopg e); cbn [res world log]; eexists;
      (split; [reflexivity|]); intros ev Hin; cbn in Hin;
      intuition (subst; auto).
Qed.

Lemma dag_check_cases date w :
  (exists b fd, formatted_date date = Ok fd /\
                res (Dag.check_date_exists date w) = Ok b /\
                log (Dag.check_date_exists date w)
                = [EvConnect; EvSelectExists fd; EvCommit; EvClose]) \/
  (exists e, res (Dag.check_date_exists date w) = Raise e /\
             quiet (log (Dag.check_date_exists date w))).
Proof.
  unfold Dag.check_date_exists, Dag.get_first.
  unfold catch, bind, call, call_total, lift, ret, raise. cbn [res world log].
  destruct (formatted_date date) as [fd|e]; cbn [res world log].
  2:{ right. exists e. split; [reflexivity|]. intros ev []. }
  destruct (fst (pg_connect w)) as [[]|e]; cbn [res world log].
  2:{ right. eexists; (split; [reflexivity|]); intros ev Hin; cbn in Hin;
        intuition (subst; auto). }
  destruct (fst (pg_select_exists fd (snd (pg_connect w)))) as [b|e];
    cbn [res world log].
  - destruct (fst (pg_commit _)) as [[]|e]; cbn [res world log].
    + left. exists b, fd. auto.
    + right. eexists; (split; [reflexivity|]); intros ev Hin; cbn in Hin;
        intuition (subst; auto).
  - right. eexists; (split; [reflexivity|]); intros ev Hin; cbn in Hin;
      intuition (subst; auto).
Qed.

Lemma quiet_order checked tr : quiet tr -> check_precedes_fetch checked tr = true.
Proof.
  revert checked. induction tr as [|ev tr IH]; intros checked Q; [reflexivity|].
  assert (Qtr : quiet tr) by (intros x Hx; apply Q; right; exact Hx).
  destruct (Q ev (or_introl eq_refl)) as [Hf _].
  destruct ev; cbn [check_precedes_fetch]; try apply IH; try exact Qtr.
  discriminate.
Qed.

Lemma checked_order tr : check_precedes_fetch true tr = true.
Proof.
  induction tr as [|ev tr IH]; [reflexivity|].
  destruct ev; cbn [check_precedes_fetch andb]; exact IH.
Qed.

End Orchestration.

Section Pipeline.
Context {W : Type} `{Backend W} {xcom : Xcom}.

Lemma etl_steps vars date w :
  Dag.fashion_store_etl vars date w
  = match validate_date date with
    | Raise e => mkout (Raise e) w []
    | Ok false => mkout (Raise (ValueError "Format de date invalide")) w []
    | Ok true =>
        let o1 := Dag.check_date_exists date w in
        match res o1 with
        | Raise e => mkout (Raise e) (world o1) (log o1)
        | Ok date_exists =>
            let o2 := Dag.extract_data_from_minio vars date date_exists (world o1) in
            match res o2 with
            | Raise e => mkout (Raise e) (world o2) (log o1 ++ log o2)
            | Ok data =>
                let o3 := Dag.load_data_to_postgres data (world o2) in
                match res o3 with
                | Raise e => mkout (Raise e) (world o3) (log o1 ++ log o2 ++ log o3)
                | Ok result =>
                    match formatted_date date with
                    | Raise e => mkout (Raise e) (world o3) (log o1 ++ log o2 ++ log o3)
                    | Ok _ => mkout (Ok result) (world o3) (log o1 ++ log o2 ++ log o3)
                    end
                end
            end
        end
    end.
Proof.
  unfold Dag.fashion_store_etl, Dag.validate_execution_date, Dag.send_notification.
  unfold bind, lift, ret, raise. cbv zeta. cbn [res world log].
  destruct (validate_date date) as [[|]|e]; cbn [res world log]; try reflexivity.
  destruct (Dag.check_date_exists date w) as [[ex|e] w1 l1]; cbn [res world log];
    try reflexivity.
  destruct (Dag.extract_data_from_minio vars date ex w1) as [[data|e] w2 l2];
    cbn [res world log]; try reflexivity.
  destruct (Dag.load_data_to_postgres data w2) as [[r|e] w3 l3];
    cbn [res world log]; try reflexivity.
  destruct (formatted_date date); cbn [res world log]; rewrite ?app_nil_r; reflexivity.
Qed.

Lemma order_after_check fd rest :
  check_precedes_fetch false
    ([EvConnect; EvSelectExists fd; EvCommit; EvClose] ++ rest) = true.
Proof. cbn. apply checked_order. Qed.

Lemma cli_order src date w :
  check_precedes_fetch false (log (DataInjection.start_workflow src date w)) = true.
Proof.
  rewrite start_workflow_steps. cbv zeta.
  destruct (cli_check_cases date w) as [(b & fd & _ & -> & ->)|(e & -> & Q)].
  - destruct b; cbn [res world log]; [reflexivity|].
    destruct (res (DataInjection.extract_data_from_minio src date _)) as [df|e];
      [destruct (df_empty df)|]; cbn [res world log]; apply order_after_check.
  - cbn [log]. apply quiet_order. exact Q.
Qed.

Lemma dag_order vars date w :
  check_precedes_fetch false (log (Dag.fashion_store_etl vars date w)) = true.
Proof.
  rewrite etl_steps. cbv zeta.
  destruct (validate_date date) as [[|]|e]; cbn [log]; try reflexivity.
  destruct (dag_check_cases date w) as [(b & fd & _ & -> & ->)|(e & -> & Q)].
  - destruct (res (Dag.extract_data_from_minio vars date b _)) as [data|e];
      cbn [log]; [|apply order_after_check].
    destruct (res (Dag.load_data_to_postgres data _)); cbn [log];
      [destruct (formatted_date date); cbn [log]|]; apply order_after_check.
  - cbn [log]. apply quiet_order. exact Q.
Qed.

Lemma quiet_check_log fd : quiet [EvConnect; EvSelectExists fd; EvCommit; EvClose].
Proof. intros ev Hin. cbn in Hin. intuition (subst; auto). Qed.

End Pipeline.

(** C6. In every run the existence check comes strictly before the fetch
    of the object: every fetch in the trace of a run, of either
    implementation, follows an existence query.  When the check answers
    that the date exists, the run ends skipped: the command-line workflow
    returns False and the DAG ends with status skipped and no row
    inserted, and in both the trace is that of the check alone: no fetch,
    no insert. *)
Theorem C6_check_before_fetch {W : Type} `{Backend W} {xcom : Xcom}
    (src : Source) (vars : Variables) (date : pystr) (w : W) :
  check_precedes_fetch false (log (DataInjection.start_workflow src date w)) = true /\
  check_precedes_fetch false (log (Dag.fashion_store_etl vars date w)) = true /\
  (res (DataInjection.check_date_exists date w) = Ok true ->
   res (DataInjection.start_workflow src date w) = Ok false /\
   log (DataInjection.start_workflow src date w) = log (DataInjection.check_date_exists date w) /\
   quiet (log (DataInjection.start_workflow src date w))) /\
  (validate_date date = Ok true ->
   res (Dag.check_date_exists date w) = Ok true ->
   res (Dag.fashion_store_etl vars date w) = Ok (mkresult "skipped" 0 NothingToLoad) /\
   log (Dag.fashion_store_etl vars date w) = log (Dag.check_date_exists date w) /\
   quiet (log (Dag.fashion_store_etl vars date w))).
Proof.
  split; [apply cli_order|]. split; [apply dag_order|]. split.
  - intros E. rewrite start_workflow_steps. cbv zeta. rewrite E. cbn [res log].
    split; [reflexivity|]. split; [reflexivity|].
    destruct (cli_check_cases date w) as [(b & fd & _ & _ & ->)|(e & E' & _)];
      [apply quiet_check_log | congruence].
  - intros V E. rewrite etl_steps. cbv zeta. rewrite V, E.
    destruct (dag_check_cases date w) as [(b & fd & F & _ & L)|(e & E' & _)];
      [|congruence].
    cbn [Dag.extract_data_from_minio Dag.load_data_to_postgres]. unfold ret.
    cbn [res world log]. rewrite F. cbn [res log]. rewrite !app_nil_r.
    split; [reflexivity|]. split; [reflexivity|]. rewrite L. apply quiet_check_log.
Qed.

Lemma C6_check_before_fetch_witness :
  res (DataInjection.start_workflow Example.source Example.d20230615
         (Example.holding Example.already_loaded Example.three_rows)) = Ok false /\
  res (Dag.fashion_store_etl (xcom := Example.same_table) Example.dag_variables
         Example.d20230615
         (Example.holding Example.already_loaded Example.three_rows))
  = Ok (mkresult "skipped" 0 NothingToLoad).
Proof.
  pose proof (C6_check_before_fetch (xcom := Example.same_table) Example.source
                Example.dag_variables Example.d20230615
                (Example.holding Example.already_loaded Example.three_rows))
    as (_ & _ & Hcli & Hdag).
  split.
  - exact (proj1 (Hcli eq_refl)).
  - exact (proj1 (Hdag eq_refl eq_refl)).
Defined.

(** C7. Whatever the date and whatever the collaborators do,
    [start_workflow] returns a boolean and raises nothing; an error raised
    by the existence check, by the extraction or by the load is turned
    into the result False. *)
Theorem C7_error_boundary {W : Type} `{Backend W}
    (src : Source) (date : pystr) (w : W) :
  (exists b, res (DataInjection.start_workflow src date w) = Ok b) /\
  (forall e, res (DataInjection.check_date_exists date w) = Raise e ->
             res (DataInjection.start_workflow src date w) = Ok false) /\
  (forall e,
      res (DataInjection.check_date_exists date w) = Ok false ->
      res (DataInjection.extract_data_from_minio src date
             (world (DataInjection.check_date_exists date w))) = Raise e ->
      res (DataInjection.start_workflow src date w) = Ok false) /\
  (forall df e,
      res (DataInjection.check_date_exists date w) = Ok false ->
      res (DataInjection.extract_data_from_minio src date
             (world (DataInjection.check_date_exists date w))) = Ok df ->
      df_empty df = false ->
      res (DataInjection.load_data_to_postgres df
             (world (DataInjection.extract_data_from_minio src date
                       (world (DataInjection.check_date_exists date w))))) = Raise e ->
      res (DataInjection.start_workflow src date w) = Ok false).
Proof.
  rewrite start_workflow_steps. cbv zeta. repeat split.
  - destruct (res (DataInjection.check_date_exists date w)) as [[|]|e]; cbn [res]; eauto.
    destruct (res (DataInjection.extract_data_from_minio src date _)) as [df|e];
      [destruct (df_empty df)|]; cbn [res]; eauto.
  - intros e ->. reflexivity.
  - intros e -> ->. reflexivity.
  - intros df e -> -> -> ->. reflexivity.
Qed.

Lemma C7_error_boundary_witness :
  res (DataInjection.start_workflow Example.source Example.d20230615 Example.object_missing)
  = Ok false.
Proof.
  exact (proj1 (proj2 (proj2
    (C7_error_boundary Example.source Example.d20230615 Example.object_missing)))
    (DataInjectionError "Impossible de lire le fichier") eq_refl eq_refl).
Defined.

(** C10. The boolean [start_workflow] returns is True exactly when the run
    ends completed, that is when the load step returned; it is False for a
    run rejected at runtime, skipped because the date exists, skipped for
    want of data, or failed.  A skip and a failure are therefore the same
    to the caller: the two runs exhibited return the same value. *)
Theorem C10_boolean_conflates {W : Type} `{Backend W}
    (src : Source) (date : pystr) (w : W) :
  res (DataInjection.start_workflow src date w)
  = Ok (bool_decide (run_state src date w = Completed)) /\
  (run_state Example.source Example.d20230615
     (Example.holding Example.already_loaded Example.three_rows) = SkippedExisting /\
   run_state Example.source Example.d20230615 Example.object_missing = Failed /\
   run_state Example.source Example.d20230615
     (Example.fresh Example.only_other_day) = SkippedNoData /\
   run_state Example.source Example.d20230230
     (Example.fresh Example.three_rows) = RejectedAtRuntime /\
   res (DataInjection.start_workflow Example.source Example.d20230615
          (Example.holding Example.already_loaded Example.three_rows))
   = res (DataInjection.start_workflow Example.source Example.d20230615 Example.object_missing) /\
   res (DataInjection.start_workflow Example.source Example.d20230615
          (Example.fresh Example.only_other_day)) = Ok false /\
   res (DataInjection.start_workflow Example.source Example.d20230230
          (Example.fresh Example.three_rows)) = Ok false /\
   run_state Example.source Example.d20230615
     (Example.fresh Example.three_rows) = Completed /\
   res (DataInjection.start_workflow Example.source Example.d20230615
          (Example.fresh Example.three_rows)) = Ok true).
Proof.
  split; [|vm_compute; repeat split; reflexivity].
  rewrite start_workflow_steps. unfold run_state. cbv zeta.
  destruct (cli_check_cases date w) as [(b & fd & -> & -> & _)|(e & E & _)].
  - destruct b; [reflexivity|].
    destruct (res (DataInjection.extract_data_from_minio src date _)) as [df|e]; [|reflexivity].
    destruct (df_empty df); [reflexivity|].
    destruct (res (DataInjection.load_data_to_postgres df _)); reflexivity.
  - rewrite E. destruct (formatted_date date); reflexivity.
Qed.

Section EmptyInput.
Context {W : Type} `{Backend W} {xcom : Xcom}.

(** The DAG's extract task hands over the JSON text of a table, and only
    when rows remain. *)
Lemma dag_extract_nonempty vars date date_exists w data :
  res (Dag.extract_data_from_minio vars date date_exists w) = Ok (Some data) ->
  exists out, to_json out = Ok data /\ df_empty out = false.
Proof.
  unfold Dag.extract_data_from_minio.
  destruct date_exists; [discriminate|].
  unfold catch, bind, call, lift, ret, raise. cbn [res world log].
  destruct (formatted_date date) as [fd|e]; cbn [res world log]; [|discriminate].
  destruct (variable_get (minio_bucket_name vars) _) as [b|e]; cbn [res world log];
    [|discriminate].
  destruct (variable_get (file_name vars) _) as [k|e]; cbn [res world log];
    [|discriminate].
  destruct (fst (s3_read_csv _ _ w)) as [d|e]; cbn [res world log]; [|discriminate].
  destruct (filter_extract d fd) as [out|e]; cbn [res world log]; [|discriminate].
  destruct (df_empty out) eqn:E; cbn [res world log]; [discriminate|].
  destruct (to_json out) as [j|e] eqn:J; cbn [res world log]; [|discriminate].
  intros X. injection X as <-. eauto.
Qed.

End EmptyInput.

(** C4, as the code has it.  With an empty extract the loader is never
    given work: the DAG's load task, handed [None], returns at once with
    status skipped and no row inserted, touching nothing; its extract task
    hands over [None] rather than an empty table; and [start_workflow]
    returns False right after an empty extract, its trace ending with the
    extraction. *)
Theorem C4_empty_extract {W : Type} `{Backend W} {xcom : Xcom}
    (src : Source) (vars : Variables) (date : pystr) (w : W) :
  Dag.load_data_to_postgres None w
  = mkout (Ok (mkresult "skipped" 0 NothingToLoad)) w [] /\
  (forall date_exists data,
      res (Dag.extract_data_from_minio vars date date_exists w) = Ok (Some data) ->
      exists out, to_json out = Ok data /\ df_empty out = false) /\
  (forall df,
      res (DataInjection.check_date_exists date w) = Ok false ->
      res (DataInjection.extract_data_from_minio src date
             (world (DataInjection.check_date_exists date w))) = Ok df ->
      df_empty df = true ->
      res (DataInjection.start_workflow src date w) = Ok false /\
      log (DataInjection.start_workflow src date w)
      = log (DataInjection.check_date_exists date w)
        ++ log (DataInjection.extract_data_from_minio src date
                  (world (DataInjection.check_date_exists date w)))) /\
  (validate_date date = Ok true ->
   res (Dag.check_date_exists date w) = Ok false ->
   res (Dag.extract_data_from_minio vars date false
          (world (Dag.check_date_exists date w))) = Ok None ->
   res (Dag.fashion_store_etl vars date w) = Ok (mkresult "skipped" 0 NothingToLoad) /\
   log (Dag.fashion_store_etl vars date w)
   = log (Dag.check_date_exists date w)
     ++ log (Dag.extract_data_from_minio vars date false
               (world (Dag.check_date_exists date w)))).
Proof.
  split; [reflexivity|]. split; [|split].
  - intros ex data. apply dag_extract_nonempty.
  - intros df E1 E2 E3. rewrite start_workflow_steps. cbv zeta.
    rewrite E1, E2, E3. auto.
  - intros V E1 E2. rewrite etl_steps. cbv zeta. rewrite V, E1, E2.
    cbn [Dag.load_data_to_postgres]. unfold ret. cbn [res world log].
    destruct (dag_check_cases date w) as [(b & fd & F & _ & _)|(e & E' & _)];
      [|congruence].
    rewrite F. cbn [res log]. rewrite app_nil_r. auto.
Qed.

Lemma C4_empty_extract_witness :
  res (DataInjection.start_workflow Example.source Example.d20230615
         (Example.fresh Example.only_other_day)) = Ok false /\
  res (Dag.fashion_store_etl (xcom := Example.same_table) Example.dag_variables
         Example.d20230615 (Example.fresh Example.only_other_day))
  = Ok (mkresult "skipped" 0 NothingToLoad).
Proof.
  pose proof (C4_empty_extract (xcom := Example.same_table) Example.source
                Example.dag_variables Example.d20230615
                (Example.fresh Example.only_other_day)) as (_ & _ & Hcli & Hdag).
  split.
  - exact (proj1 (Hcli (mkdf Example.all_columns []) eq_refl eq_refl eq_refl)).
  - exact (proj1 (Hdag eq_refl eq_refl eq_refl)).
Defined.

(** C4 as stated fails: given an empty table, the command-line loader
    opens a connection and commits, and returns no status; the DAG's
    loader, given the empty table an empty JSON list parses to, does the
    same and reports success. *)
Lemma C4_counterexample :
  df_rows Example.no_rows = [] /\
  log (DataInjection.load_data_to_postgres Example.no_rows (Example.fresh Example.no_rows))
  = [EvConnect; EvCommit; EvCommit; EvClose] /\
  df_rows Example.no_records = [] /\
  read_json (Xcom := Example.same_table) Example.no_records = Ok Example.no_records /\
  res (Dag.load_data_to_postgres (xcom := Example.same_table) (Some Example.no_records)
         (Example.fresh Example.no_rows))
  = Ok (mkresult "success" 0 (Inserted 0)) /\
  log (Dag.load_data_to_postgres (xcom := Example.same_table) (Some Example.no_records)
         (Example.fresh Example.no_rows))
  = [EvConnect; EvCommit; EvClose].
Proof. vm_compute. repeat split; reflexivity. Qed.

(* ===================================================================== *)
(** ** The date validator                                                 *)
(* ===================================================================== *)

Section Validator.

Lemma in_ascii_digits c : 48 <= c <= 57 -> In c ascii_digits.
Proof.
  intros Hc. unfold ascii_digits.
  assert (c = 48 \/ c = 49 \/ c = 50 \/ c = 51 \/ c = 52 \/ c = 53 \/ c = 54
          \/ c = 55 \/ c = 56 \/ c = 57) as Hcases by lia.
  cbn. intuition auto.
Qed.

Lemma ascii_digit_range c : ascii_digit c = true <-> 48 <= c <= 57.
Proof. unfold ascii_digit, in_range. rewrite andb_true_iff, !Z.leb_le. tauto. Qed.

Lemma unicode_decimal_ascii c : 48 <= c <= 57 -> unicode_decimal c = Some (c - 48).
Proof.
  intros Hc. unfold unicode_decimal, decimal_blocks. cbn [List.find].
  unfold in_range at 1.
  replace (48 <=? c) with true by (symmetry; apply Z.leb_le; lia).
  replace (c <=? 48 + 9) with true by (symmetry; apply Z.leb_le; lia).
  reflexivity.
Qed.

Lemma is_decimal_ascii c : 48 <= c <= 57 -> is_decimal c = true.
Proof. intros Hc. unfold is_decimal. rewrite unicode_decimal_ascii by exact Hc. reflexivity. Qed.

(** Below 128 the only digits are the ASCII ones. *)
Lemma isdigit_char_ascii c : 0 <= c < 128 -> isdigit_char c = ascii_digit c.
Proof.
  intros Hc. destruct (ascii_digit c) eqn:E.
  - apply ascii_digit_range in E. unfold isdigit_char.
    rewrite is_decimal_ascii by exact E. reflexivity.
  - assert (Hn : ~ 48 <= c <= 57) by (rewrite <- ascii_digit_range; congruence).
    unfold isdigit_char. apply orb_false_iff. split.
    + unfold is_decimal, unicode_decimal.
      destruct (List.find _ decimal_blocks) as [b|] eqn:F; [|reflexivity].
      apply find_some in F as [Hin Hr]. exfalso.
      unfold in_range in Hr. apply andb_true_iff in Hr as [H1 H2].
      apply Z.leb_le in H1, H2.
      assert (Hb : b = 48 \/ 1632 <= b).
      { assert (A : forallb (fun b => (b =? 48) || (1632 <=? b)) decimal_blocks = true)
          by (vm_compute; reflexivity).
        rewrite forallb_forall in A. specialize (A b Hin).
        apply orb_true_iff in A as [A|A]; [left; apply Z.eqb_eq, A | right; apply Z.leb_le, A]. }
      lia.
    + destruct (existsb _ other_digit_ranges) eqn:X; [|reflexivity].
      apply existsb_exists in X as (r & Hin & Hr). exfalso.
      unfold in_range in Hr. apply andb_true_iff in Hr as [H1 H2].
      apply Z.leb_le in H1, H2.
      assert (A : forallb (fun r => 178 <=? fst r) other_digit_ranges = true)
        by (vm_compute; reflexivity).
      rewrite forallb_forall in A. specialize (A r Hin). apply Z.leb_le in A. lia.
Qed.

Lemma md_agrees_digits :
  forallb (fun e => forallb (fun f => forallb (fun g =>
    forallb (md_agrees e f g) ascii_digits) ascii_digits) ascii_digits)
    ascii_digits = true.
Proof. vm_compute. reflexivity. Qed.

Lemma md_agrees_ascii e f g h :
  48 <= e <= 57 -> 48 <= f <= 57 -> 48 <= g <= 57 -> 48 <= h <= 57 ->
  md_agrees e f g h = true.
Proof.
  intros He Hf Hg Hh. pose proof md_agrees_digits as A.
  rewrite forallb_forall in A. specialize (A e (in_ascii_digits e He)).
  rewrite forallb_forall in A. specialize (A f (in_ascii_digits f Hf)).
  rewrite forallb_forall in A. specialize (A g (in_ascii_digits g Hg)).
  rewrite forallb_forall in A. exact (A h (in_ascii_digits h Hh)).
Qed.

Lemma year_agrees_digits :
  forallb (fun a => forallb (fun b => forallb (fun c =>
    forallb (year_agrees a b c) ascii_digits) ascii_digits) ascii_digits)
    ascii_digits = true.
Proof. vm_compute. reflexivity. Qed.

Lemma pair_agrees_digits :
  forallb (fun a => forallb (pair_agrees a) ascii_digits) ascii_digits = true.
Proof. vm_compute. reflexivity. Qed.

Lemma lengths_agree_months y :
  forallb (lengths_agree y) [1; 2; 3; 4; 5; 6; 7; 8; 9; 10; 11; 12] = true.
Proof.
  unfold lengths_agree, days_in_month, month_length, is_leap, leap_year.
  cbn [forallb Z.eqb andb orb nth Z.to_nat Pos.to_nat Pos.iter_op Init.Nat.add].
  assert (D : forall a b, 0 < a -> 0 < b -> y mod (a * b) = 0 -> y mod a = 0).
  { intros a b Ha Hb E. apply Z.mod_divide; [lia|].
    apply Z.divide_trans with (a * b); [exists b; lia|].
    apply Z.mod_divide; [lia | exact E]. }
  assert (E4 : y mod 400 = 0 -> y mod 100 = 0 /\ y mod 4 = 0).
  { intros E. split; [apply (D 100 4) | apply (D 4 100)]; try lia; exact E. }
  assert (E1 : y mod 100 = 0 -> y mod 4 = 0).
  { intros E. apply (D 4 25); try lia. exact E. }
  destruct (y mod 400 =? 0) eqn:A; destruct (y mod 100 =? 0) eqn:B;
    destruct (y mod 4 =? 0) eqn:C; cbn; try reflexivity; exfalso;
    rewrite ?Z.eqb_eq, ?Z.eqb_neq in *; intuition.
Qed.

Lemma strptime_value_error s e : strptime s = Raise e -> exists msg, e = ValueError msg.
Proof.
  unfold strptime.
  destruct (regex_match s) as [[[[y m] d] [|c rest]]|];
    try (intros E; injection E as <-; eauto).
  destruct (check_date_fields _ _ _); [discriminate|].
  intros E; injection E as <-; eauto.
Qed.

(** The validator returns a boolean for every string. *)
Lemma validate_date_total s : exists b, validate_date s = Ok b.
Proof.
  unfold validate_date. destruct (_ || _); [eauto|].
  destruct (strptime s) as [d|e] eqn:E; [eauto|].
  destruct (strptime_value_error s e E) as [msg ->]. eauto.
Qed.

Lemma first_match_with_year (ys : pystr) (l : list (pystr * pystr)) :
  hd_error (flat_map (fun m => List.map (fun d => (ys, fst m, fst d, snd d))
                                        (re_d (snd m))) l)
  = match hd_error (flat_map (fun m => List.map (fun d => (fst m, fst d, snd d))
                                                (re_d (snd m))) l) with
    | Some (m, dd, r) => Some (ys, m, dd, r)
    | None => None
    end.
Proof.
  induction l as [|x l IH]; [reflexivity|]. cbn [flat_map].
  destruct (re_d (snd x)) as [|d0 ds]; [exact IH | reflexivity].
Qed.

Lemma regex_match_digits a b c d rest :
  48 <= a <= 57 -> 48 <= b <= 57 -> 48 <= c <= 57 -> 48 <= d <= 57 ->
  regex_match (a :: b :: c :: d :: rest)
  = match hd_error (md_groups rest) with
    | Some (m, dd, r) => Some ([a; b; c; d], m, dd, r)
    | None => None
    end.
Proof.
  intros Ha Hb Hc Hd.
  assert (Y : re_Y (a :: b :: c :: d :: rest) = [([a; b; c; d], rest)]).
  { unfold re_Y, seq2, cls.
    repeat (rewrite is_decimal_ascii by assumption;
            cbn [flat_map List.map app fst snd]).
    reflexivity. }
  unfold regex_match. rewrite Y.
  cbn [flat_map app fst snd]. rewrite app_nil_r.
  apply first_match_with_year.
Qed.

Lemma py_int_year a b c d :
  48 <= a <= 57 -> 48 <= b <= 57 -> 48 <= c <= 57 -> 48 <= d <= 57 ->
  py_int [a; b; c; d] = number [a; b; c; d].
Proof.
  intros Ha Hb Hc Hd. unfold py_int, number. cbn [fold_left].
  rewrite !unicode_decimal_ascii by assumption. reflexivity.
Qed.

Lemma month_length_le y m : month_length y m <= 31.
Proof.
  unfold month_length. destruct (m =? 2); [destruct (leap_year y); lia|].
  destruct (_ || _); lia.
Qed.

Lemma days_in_month_spec y m : 1 <= m <= 12 -> days_in_month y m = month_length y m.
Proof.
  intros Hm. pose proof (lengths_agree_months y) as A.
  rewrite forallb_forall in A. apply Z.eqb_eq. apply A.
  assert (m = 1 \/ m = 2 \/ m = 3 \/ m = 4 \/ m = 5 \/ m = 6 \/ m = 7 \/ m = 8
          \/ m = 9 \/ m = 10 \/ m = 11 \/ m = 12) as Hcases by lia.
  cbn. intuition auto.
Qed.

(** On eight ASCII digits, [strptime] succeeds exactly on the calendar
    dates, and yields the date the digits write. *)
Lemma strptime_digits a b c d e f g h :
  Forall (fun x => 48 <= x <= 57) [a; b; c; d; e; f; g; h] ->
  let y := number [a; b; c; d] in
  let m := number [e; f] in
  let dd := number [g; h] in
  (real_calendar_date y m dd = true ->
   strptime [a; b; c; d; e; f; g; h] = Ok (mkdate y m dd)) /\
  (real_calendar_date y m dd = false ->
   exists msg, strptime [a; b; c; d; e; f; g; h] = Raise (ValueError msg)).
Proof.
  intros F y m dd.
  repeat match goal with
         | HF : Forall _ (_ :: _) |- _ => apply Forall_cons in HF as [? HF]
         end.
  assert (Hy : 0 <= y <= 9999) by (unfold y, number; cbn [fold_left]; lia).
  pose proof (md_agrees_ascii e f g h) as A. unfold md_agrees in A.
  repeat (specialize (A ltac:(assumption))).
  unfold strptime. rewrite regex_match_digits by assumption.
  fold m dd in A. unfold md_expected in A. fold m dd in A.
  unfold real_calendar_date, check_date_fields.
  destruct (hd_error (md_groups [e; f; g; h])) as [[[mt dt] [|x r]]|].
  - apply andb_true_iff in A as [A Ed]. apply andb_true_iff in A as [A Em].
    apply andb_true_iff in A as [Rm Rd].
    apply Z.eqb_eq in Em, Ed. rewrite Em, Ed, py_int_year by assumption. fold y.
    assert (Hm : 1 <= m <= 12).
    { unfold in_range in Rm. apply andb_true_iff in Rm as [R1 R2].
      apply Z.leb_le in R1, R2. lia. }
    rewrite (days_in_month_spec y m Hm).
    replace (in_range 1 9999 y) with (1 <=? y).
    2:{ unfold in_range. replace (y <=? 9999) with true
          by (symmetry; apply Z.leb_le; lia). rewrite andb_true_r. reflexivity. }
    destruct (_ && _ && _); split; intros; eauto; discriminate.
  - apply negb_true_iff in A. split; [|eauto].
    intros R. exfalso. apply andb_true_iff in R as [R Rd].
    apply andb_true_iff in R as [_ Rm]. rewrite Rm in A. cbn [andb] in A.
    pose proof (month_length_le y m). unfold in_range in *.
    apply andb_true_iff in Rd as [R1 R2]. apply Z.leb_le in R1, R2.
    apply andb_false_iff in A as [A|A]; apply Z.leb_gt in A; lia.
  - apply negb_true_iff in A. split; [|eauto].
    intros R. exfalso. apply andb_true_iff in R as [R Rd].
    apply andb_true_iff in R as [_ Rm]. rewrite Rm in A. cbn [andb] in A.
    pose proof (month_length_le y m). unfold in_range in *.
    apply andb_true_iff in Rd as [R1 R2]. apply Z.leb_le in R1, R2.
    apply andb_false_iff in A as [A|A]; apply Z.leb_gt in A; lia.
Qed.

Lemma forallb_ascii s :
  Forall (fun c => 0 <= c < 128) s -> forallb isdigit_char s = forallb ascii_digit s.
Proof.
  induction 1 as [|c s Hc _ IH]; [reflexivity|].
  cbn [forallb]. rewrite IH, isdigit_char_ascii by exact Hc. reflexivity.
Qed.

Lemma forallb_digits s :
  forallb ascii_digit s = true -> Forall (fun x => 48 <= x <= 57) s.
Proof.
  induction s as [|c s IH]; [constructor|]. cbn [forallb].
  intros E. apply andb_true_iff in E as [E1 E2].
  constructor; [apply ascii_digit_range, E1 | apply IH, E2].
Qed.

(** On ASCII input the validator is the specification's. *)
Theorem validate_date_ascii s :
  Forall (fun c => 0 <= c < 128) s -> validate_date s = Ok (spec_validate s).
Proof.
  intros F. unfold validate_date.
  destruct s as [|a [|b [|c [|d [|e [|f [|g [|h [|i s]]]]]]]]]; try reflexivity.
  2:{ replace (Z.of_nat (length (a :: b :: c :: d :: e :: f :: g :: h :: i :: s)) =? 8)
        with false by (symmetry; apply Z.eqb_neq; cbn [length]; lia).
      reflexivity. }
  cbn [length Z.of_nat Pos.of_succ_nat Pos.succ Z.eqb Pos.eqb negb orb].
  unfold isdigit. rewrite (forallb_ascii _ F). unfold spec_validate.
  destruct (forallb ascii_digit _) eqn:D; cbn [negb andb]; [|reflexivity].
  apply forallb_digits in D.
  destruct (strptime_digits a b c d e f g h D) as [Hok Hbad].
  destruct (real_calendar_date _ _ _).
  - rewrite (Hok eq_refl). reflexivity.
  - destruct (Hbad eq_refl) as [msg ->]. reflexivity.
Qed.

Lemma string_of_list_app (l l' : list ascii) :
  string_of_list_ascii (l ++ l')
  = (string_of_list_ascii l ++ string_of_list_ascii l')%string.
Proof. induction l as [|x l IH]; [reflexivity|]. simpl. rewrite IH. reflexivity. Qed.

(** For a date the specification accepts, the code's formatted date is
    its YYYY-MM-DD form with the leading zeros of the year dropped. *)
Lemma formatted_date_code s :
  spec_validate s = true -> formatted_date s = Ok (code_form s).
Proof.
  unfold spec_validate.
  destruct s as [|a [|b [|c [|d [|e [|f [|g [|h [|i s]]]]]]]]]; try discriminate.
  intros V. apply andb_true_iff in V as [D R]. apply forallb_digits in D.
  destruct (strptime_digits a b c d e f g h D) as [Hok _].
  unfold formatted_date. rewrite (Hok R). f_equal.
  repeat match goal with
         | HF : Forall _ (_ :: _) |- _ => apply Forall_cons in HF as [? HF]
         end.
  pose proof year_agrees_digits as Y.
  rewrite forallb_forall in Y. specialize (Y a (in_ascii_digits a ltac:(assumption))).
  rewrite forallb_forall in Y. specialize (Y b (in_ascii_digits b ltac:(assumption))).
  rewrite forallb_forall in Y. specialize (Y c (in_ascii_digits c ltac:(assumption))).
  rewrite forallb_forall in Y. specialize (Y d (in_ascii_digits d ltac:(assumption))).
  pose proof pair_agrees_digits as P.
  rewrite forallb_forall in P.
  pose proof (P e (in_ascii_digits e ltac:(assumption))) as Pm.
  rewrite forallb_forall in Pm. specialize (Pm f (in_ascii_digits f ltac:(assumption))).
  pose proof (P g (in_ascii_digits g ltac:(assumption))) as Pd.
  rewrite forallb_forall in Pd. specialize (Pd h (in_ascii_digits h ltac:(assumption))).
  unfold year_agrees, pair_agrees in *.
  apply String.eqb_eq in Y, Pm, Pd.
  unfold strftime, code_form. cbn [year month day]. rewrite Y, Pm, Pd.
  rewrite string_of_list_app. reflexivity.
Qed.

(** From the year 1000 on this is the YYYY-MM-DD form itself. *)
Lemma code_form_iso s : four_digit_year s = true -> code_form s = iso_form s.
Proof.
  destruct s as [|a [|b [|c [|d [|e [|f [|g [|h [|i s]]]]]]]]]; try reflexivity.
  cbn [four_digit_year]. intros N. apply negb_true_iff in N.
  unfold code_form, iso_form. cbn [strip_zeros]. rewrite N. reflexivity.
Qed.

Lemma formatted_date_iso s :
  spec_validate s = true -> four_digit_year s = true ->
  formatted_date s = Ok (iso_form s).
Proof.
  intros V Y. rewrite (formatted_date_code s V), (code_form_iso s Y). reflexivity.
Qed.

End Validator.

(** C8, at the input where the code departs from it.  The claim holds of
    the validator on ASCII input ([validate_date_ascii]) and the validator
    never raises ([validate_date_total]); but a string whose year is
    written in Arabic-Indic digits, U+0662 U+0660 U+0662 U+0663 followed
    by "0615", is accepted although it is not made of eight ASCII digits:
    [str.isdigit], [\d] and [int] accept decimal digits of every script. *)
Theorem C8_validate_accepts_non_ascii_digits :
  validate_date [1634; 1632; 1634; 1635; 48; 54; 49; 53] = Ok true /\
  spec_validate [1634; 1632; 1634; 1635; 48; 54; 49; 53] = false /\
  validate_date [50; 48; 50; 51; 48; 54; 49; 1637] = Ok true /\
  spec_validate [50; 48; 50; 51; 48; 54; 49; 1637] = false.
Proof. vm_compute. repeat split; reflexivity. Qed.

(* ===================================================================== *)
(** ** The extract filter                                                 *)
(* ===================================================================== *)

Section ExtractFilter.


Lemma same_cell_sym a b : same_cell a b = same_cell b a.
Proof.
  destruct a, b; cbn; try reflexivity;
    try (apply bool_decide_ext; split; congruence).
  rewrite Z.eqb_sym, (andb_comm (float_zero bits)). reflexivity.
Qed.


Lemma same_row_sym r r' : same_row r r' = same_row r' r.
Proof.
  revert r'. induction r as [|a r IH]; intros [|b r']; try reflexivity.
  cbn. rewrite same_cell_sym, IH. reflexivity.
Qed.

(** A row that stays comes from the input and equals none of the rows
    seen before. *)
Lemma drop_duplicates_in seen rows r :
  r ∈ drop_duplicates_from seen rows ->
  r ∈ rows /\ existsb (same_row r) seen = false.
Proof.
  revert seen. induction rows as [|x rows IH]; intros seen; cbn [drop_duplicates_from].
  - intros X. apply elem_of_nil in X. destruct X.
  - destruct (existsb (same_row x) seen) eqn:Hx.
    + intros X. apply IH in X as [X1 X2]. split; [right; exact X1 | exact X2].
    + rewrite elem_of_cons. intros [->|X].
      * split; [left | exact Hx].
      * apply IH in X as [X1 X2]. split; [right; exact X1|].
        cbn [existsb] in X2. apply orb_false_iff in X2. tauto.
Qed.


Lemma drop_duplicates_distinct seen rows :
  all_distinct (drop_duplicates_from seen rows) = true.
Proof.
  revert seen. induction rows as [|x rows IH]; intros seen; cbn [drop_duplicates_from].
  - reflexivity.
  - destruct (existsb (same_row x) seen) eqn:Hx; [apply IH|].
    cbn [all_distinct]. rewrite IH, andb_true_r. apply negb_true_iff.
    destruct (existsb (same_row x) (drop_duplicates_from (x :: seen) rows)) eqn:E;
      [|reflexivity].
    apply existsb_exists in E as (r & Hr & Hxr).
    apply list_elem_of_In, drop_duplicates_in in Hr as [_ Hr].
    cbn [existsb] in Hr. apply orb_false_iff in Hr as [Hr _].
    rewrite same_row_sym in Hr. congruence.
Qed.



(** Rows that are pairwise different, and different from those seen
    before, all stay. *)
Lemma drop_duplicates_distinct_id seen rows :
  all_distinct rows = true ->
  (forall r, r ∈ rows -> existsb (same_row r) seen = false) ->
  drop_duplicates_from seen rows = rows.
Proof.
  revert seen. induction rows as [|x rows IH]; intros seen D Hs; [reflexivity|].
  cbn [all_distinct] in D. apply andb_true_iff in D as [D1 D2].
  apply negb_true_iff in D1. cbn [drop_duplicates_from].
  rewrite (Hs x) by left. f_equal. apply IH; [exact D2|].
  intros r Hr. cbn [existsb]. rewrite (Hs r) by (right; exact Hr).
  rewrite orb_false_r. rewrite same_row_sym.
  destruct (same_row x r) eqn:E; [|reflexivity].
  assert (X : existsb (same_row x) rows = true).
  { apply existsb_exists. exists r. split; [apply list_elem_of_In, Hr | exact E]. }
  congruence.
Qed.

End ExtractFilter.




(* ===================================================================== *)
(** ** Further properties of the two files                                *)
(* ===================================================================== *)

(** The text of an exception is abbreviated in the model (the source
    formats the date or the file name into it); the statements below speak
    of the class of an exception, not of its text. *)

Section EntryPoint.
Context {W : Type} `{Backend W}.

Lemma validate_formats date :
  validate_date date = Ok true -> exists fd, formatted_date date = Ok fd.
Proof.
  unfold validate_date, formatted_date. destruct (_ || _); [discriminate|].
  destruct (strptime date) as [d|e]; [eauto|]. destruct e; discriminate.
Qed.

Lemma main_runs argv env w date :
  nth_error argv 1 = Some date ->
  validate_date date = Ok true ->
  settings_present env = true ->
  main argv env w
  = mkout (Ok tt)
          (world (DataInjection.start_workflow (main_source env) date w))
          (log (DataInjection.start_workflow (main_source env) date w)).
Proof.
  intros Hd V S. unfold main. destruct argv as [|a0 [|d rest]]; try discriminate.
  injection Hd as ->. unfold bind at 1, lift. rewrite V.
  fold (settings_present env). rewrite S. cbn [negb].
  fold (main_source env). rewrite bind_outcome. unfold ret.
  rewrite start_workflow_steps. cbv zeta.
  destruct (res (DataInjection.check_date_exists date w)) as [[|]|e];
    cbn [res world log]; rewrite ?app_nil_r; try reflexivity.
  destruct (res (DataInjection.extract_data_from_minio _ date _)) as [df|e];
    [destruct (df_empty df)|]; cbn [res world log]; rewrite ?app_nil_r; reflexivity.
Qed.

Lemma main_idle argv env w :
  nth_error argv 1 = None
  \/ (exists date, nth_error argv 1 = Some date /\ validate_date date = Ok false)
  \/ settings_present env = false ->
  main argv env w = mkout (Ok tt) w [].
Proof.
  intros Hwhy. unfold main. destruct argv as [|a0 [|d rest]]; try reflexivity.
  unfold bind, lift, ret. destruct (validate_date_total d) as [b Vb]. rewrite Vb.
  destruct b; [|reflexivity].
  fold (settings_present env).
  destruct Hwhy as [Hn|[(date & Hd & V)|S]].
  - discriminate.
  - injection Hd as <-. congruence.
  - rewrite S. reflexivity.
Qed.

End EntryPoint.

(** X1. [main] reaches the collaborators only through [start_workflow],
    and only when a first argument is given, validates, and the five
    settings are set and not empty: then its effects are exactly those of
    [start_workflow] on the bucket and object of the environment, the
    object name defaulting to fashion_store_sales.csv.  Otherwise it
    returns without a single call.  It raises in no case, and a date it
    hands over always parses, so the workflow it starts is never rejected
    at runtime. *)
Theorem X1_main_gate {W : Type} `{Backend W}
    (argv : list pystr) (env : Environ) (w : W) :
  res (main argv env w) = Ok tt /\
  (forall date,
      nth_error argv 1 = Some date ->
      validate_date date = Ok true ->
      settings_present env = true ->
      world (main argv env w)
      = world (DataInjection.start_workflow (main_source env) date w) /\
      log (main argv env w)
      = log (DataInjection.start_workflow (main_source env) date w) /\
      run_state (main_source env) date w <> RejectedAtRuntime /\
      (FILE_NAME env = None -> file (main_source env) = "fashion_store_sales.csv"%string)) /\
  (nth_error argv 1 = None
   \/ (exists date, nth_error argv 1 = Some date /\ validate_date date = Ok false)
   \/ settings_present env = false ->
   world (main argv env w) = w /\ log (main argv env w) = []).
Proof.
  split; [|split].
  - destruct (nth_error argv 1) as [date|] eqn:Hd.
    + destruct (validate_date_total date) as [[|] V].
      * destruct (settings_present env) eqn:S.
        -- rewrite (main_runs argv env w date Hd V S). reflexivity.
        -- rewrite (main_idle argv env w); [reflexivity | auto].
      * rewrite (main_idle argv env w); [reflexivity | eauto].
    + rewrite (main_idle argv env w); [reflexivity | auto].
  - intros date Hd V S. rewrite (main_runs argv env w date Hd V S). cbn [world log].
    split; [reflexivity|]. split; [reflexivity|]. split.
    + unfold run_state. destruct (validate_formats date V) as [fd ->].
      destruct (res (DataInjection.check_date_exists date w)) as [[|]|e]; try discriminate.
      destruct (res (DataInjection.extract_data_from_minio _ date _)) as [df|e];
        try discriminate.
      destruct (df_empty df); try discriminate.
      destruct (res (DataInjection.load_data_to_postgres df _)); discriminate.
    + intros F. unfold main_source. rewrite F. reflexivity.
  - intros Hwhy. rewrite (main_idle argv env w Hwhy). auto.
Qed.

Lemma X1_main_gate_witness :
  log (main Example.argv Example.environ (Example.fresh Example.three_rows))
  = log (DataInjection.start_workflow Example.source Example.d20230615
           (Example.fresh Example.three_rows)).
Proof.
  exact (proj1 (proj2 (proj1 (proj2
    (X1_main_gate Example.argv Example.environ (Example.fresh Example.three_rows)))
    Example.d20230615 eq_refl eq_refl eq_refl))).
Defined.

Section TaskErrors.
Context {W : Type} `{Backend W} {xcom : Xcom}.

Lemma dag_check_raises date w e fd :
  formatted_date date = Ok fd ->
  res (Dag.check_date_exists date w) = Raise e ->
  e = DataInjectionError "Impossible de verifier la date en base".
Proof.
  intros F. unfold Dag.check_date_exists. rewrite bind_outcome. unfold lift.
  cbn [res world log]. rewrite F. cbn [res world log]. rewrite catch_outcome.
  destruct (res (Dag.get_first fd w)) as [b|e'] eqn:E; cbn [res].
  - rewrite E. discriminate.
  - unfold raise. cbn [res]. congruence.
Qed.

(** With both variables set, the extract task fetches the object and
    turns whatever goes wrong into [DataInjectionError]. *)
Lemma dag_extract_set vars date w fd b f :
  formatted_date date = Ok fd ->
  minio_bucket_name vars = Some b ->
  file_name vars = Some f ->
  log (Dag.extract_data_from_minio vars date false w) = [EvGetObject b f] /\
  world (Dag.extract_data_from_minio vars date false w) = snd (s3_read_csv b f w) /\
  forall e, res (Dag.extract_data_from_minio vars date false w) = Raise e ->
            e = DataInjectionError "Impossible de lire le fichier".
Proof.
  intros F Hb Hf.
  unfold Dag.extract_data_from_minio, bind, catch, call, lift, ret, raise.
  rewrite F, Hb, Hf. cbn [variable_get].
  destruct (s3_read_csv b f w) as [[df|e0] w1]; cbn [fst snd res world log app].
  - destruct (filter_extract df fd) as [out|e1]; cbn [res world log app].
    + destruct (df_empty out); cbn [res world log app].
      * repeat split. discriminate.
      * destruct (to_json out) as [data|e2]; cbn [res world log app];
          repeat split; congruence.
    + repeat split. congruence.
  - repeat split. congruence.
Qed.

(** A variable that does not exist: [Variable.get] raises [KeyError]
    before anything is fetched. *)
Lemma dag_extract_unset vars date w fd :
  formatted_date date = Ok fd ->
  minio_bucket_name vars = None \/ file_name vars = None ->
  exists key,
    (key = "minio_bucket_name"%string /\ minio_bucket_name vars = None
     \/ key = "file_name"%string /\ minio_bucket_name vars <> None
        /\ file_name vars = None) /\
    Dag.extract_data_from_minio vars date false w = mkout (Raise (KeyError key)) w [].
Proof.
  intros F Hv.
  unfold Dag.extract_data_from_minio, bind, catch, call, lift, ret, raise.
  rewrite F. destruct (minio_bucket_name vars) as [b|] eqn:Hb; cbn [variable_get].
  - destruct Hv as [Hv|Hv]; [discriminate|]. rewrite Hv. cbn [variable_get].
    exists "file_name"%string. split; [right; repeat split; congruence | reflexivity].
  - exists "minio_bucket_name"%string. split; [left; split; reflexivity | reflexivity].
Qed.

Lemma dag_table_raises df w e :
  res (Dag.load_table df w) = Raise e ->
  e = DataInjectionError "Impossible d'inserer les donnees".
Proof.
  rewrite dag_load_outcome. cbv zeta.
  destruct (fst (pg_connect w)); cbn [res]; [|congruence].
  destruct (res (Dag.insert_rows _ _ _ _)); cbn [res]; [|congruence].
  destruct (fst (pg_commit _)); cbn [res]; [discriminate | congruence].
Qed.

(** The load task raises what [pd.read_json] raised, having called
    nothing, or [DataInjectionError]. *)
Lemma dag_load_raises data w e :
  res (Dag.load_data_to_postgres data w) = Raise e ->
  (exists text, data = Some text /\ read_json text = Raise e /\
                Dag.load_data_to_postgres data w = mkout (Raise e) w [])
  \/ e = DataInjectionError "Impossible d'inserer les donnees".
Proof.
  destruct data as [text|]; [|discriminate].
  destruct (read_json text) as [df|e'] eqn:R.
  - rewrite (dag_load_read _ _ _ R). intros E. right. exact (dag_table_raises _ _ _ E).
  - rewrite (dag_load_unread _ _ _ R). cbn [res]. intros E. injection E as <-.
    left. eauto.
Qed.


End TaskErrors.

(** X2. How the DAG fails.  A date that does not validate stops it in the
    first task with [ValueError], before any call is made and with the
    world untouched.  For a date that validates there are three ways.  An
    Airflow variable that does not exist stops the extract task with the
    raw [KeyError] of [Variable.get], after the check and before anything
    is fetched.  A hand-off text that [pd.read_json] cannot read stops the
    load task with the raw error of [pd.read_json], after the fetch and
    before any connection of the load.  Everything else that goes wrong in
    the check, the extraction or the load reaches the scheduler as
    [DataInjectionError]; in particular, with both variables set and a
    hand-off that can be read, every failure does. *)
Theorem X2_dag_failures {W : Type} `{Backend W} {xcom : Xcom}
    (vars : Variables) (date : pystr) (w : W) (e : exn) :
  let run := Dag.fashion_store_etl vars date w in
  let check := Dag.check_date_exists date w in
  res run = Raise e ->
  (validate_date date = Ok false /\
   (exists msg, e = ValueError msg) /\
   log run = [] /\
   world run = w)
  \/ (validate_date date = Ok true /\
      ((exists msg, e = DataInjectionError msg)
       \/ (res check = Ok false /\
           (e = KeyError "minio_bucket_name" /\ minio_bucket_name vars = None
            \/ e = KeyError "file_name" /\ minio_bucket_name vars <> None
               /\ file_name vars = None) /\
           log run = log check /\
           world run = world check)
       \/ (exists b f text,
             minio_bucket_name vars = Some b /\ file_name vars = Some f /\
             read_json text = Raise e /\
             log run = log check ++ [EvGetObject b f])) /\
      (minio_bucket_name vars <> None -> file_name vars <> None ->
       (forall text e', read_json text <> Raise e') ->
       exists msg, e = DataInjectionError msg)).
Proof.
  cbv zeta. rewrite etl_steps. cbv zeta.
  destruct (validate_date_total date) as [[|] V]; rewrite V; cbn [res world log].
  2:{ intros E. injection E as <-. left. eauto. }
  destruct (validate_formats date V) as [fd F].
  intros E. right. split; [reflexivity|].
  destruct (res (Dag.check_date_exists date w)) as [ex|e1] eqn:E1;
    cbn [res world log] in *.
  2:{ injection E as <-. rewrite (dag_check_raises date w e1 fd F E1).
      split; [left|]; eauto. }
  destruct ex.
  { unfold Dag.extract_data_from_minio, Dag.load_data_to_postgres, ret in E.
    cbn [res world log] in E. rewrite F in E. discriminate E. }
  set (w1 := world (Dag.check_date_exists date w)) in *.
  destruct (minio_bucket_name vars) as [b|] eqn:Hb;
    [destruct (file_name vars) as [f|] eqn:Hf|].
  - destruct (dag_extract_set vars date w1 fd b f F Hb Hf) as (L & _ & R).
    rewrite L.
    destruct (res (Dag.extract_data_from_minio vars date false w1)) as [data|e2];
      cbn [res world log] in *.
    2:{ injection E as <-. rewrite (R e2 eq_refl). split; [left|]; eauto. }
    destruct (res (Dag.load_data_to_postgres data _)) as [r|e3] eqn:E3;
      cbn [res world log] in *.
    { rewrite F in E. discriminate E. }
    injection E as <-.
    destruct (dag_load_raises _ _ _ E3) as [(text & -> & Rj & ->)| ->].
    + cbn [log]. split.
      * right. right. exists b, f, text. rewrite app_nil_r. auto.
      * intros _ _ N. destruct (N _ _ Rj).
    + split; [left|]; eauto.
  - destruct (dag_extract_unset vars date w1 fd F) as (key & K & X);
      [right; exact Hf|].
    rewrite X in *. cbn [res world log] in *. injection E as <-. split.
    + right. left. rewrite app_nil_r. split; [reflexivity|]. split; [|auto].
      destruct K as [[-> K]|(-> & _ & K)]; [congruence|]. right. repeat split.
      discriminate.
    + intros _ N. destruct N. reflexivity.
  - destruct (dag_extract_unset vars date w1 fd F) as (key & K & X);
      [left; exact Hb|].
    rewrite X in *. cbn [res world log] in *. injection E as <-. split.
    + right. left. rewrite app_nil_r. split; [reflexivity|]. split; [|auto].
      destruct K as [[-> K]|(-> & K & _)]; [|congruence]. left. auto.
    + intros N. destruct N. reflexivity.
Qed.

Lemma X2_dag_failures_witness :
  (exists msg, DataInjectionError "Impossible de lire le fichier" = DataInjectionError msg) /\
  res (Dag.fashion_store_etl (xcom := Example.same_table)
         (mkvars (Some "sales"%string) None) Example.d20230615
         (Example.fresh Example.three_rows))
  = Raise (KeyError "file_name").
Proof.
  assert (E : res (Dag.fashion_store_etl (xcom := Example.same_table)
                     Example.dag_variables Example.d20230615 Example.object_missing)
              = Raise (DataInjectionError "Impossible de lire le fichier"))
    by (vm_compute; reflexivity).
  destruct (X2_dag_failures (xcom := Example.same_table) Example.dag_variables
              Example.d20230615 Example.object_missing _ E)
    as [(V & _)|(_ & _ & D)]; [discriminate V|].
  split; [|reflexivity].
  apply D; [discriminate | discriminate | intros text e' X; discriminate X].
Defined.



Section CliLoad.
Context {W : Type} `{Backend W}.

(** The body of the [with] block of the command-line load: the loop, then
    [conn.commit()]. *)
Lemma cli_body_outcome cols rows w :
  (DataInjection.insert_rows cols rows 0 ;;; call EvCommit pg_commit) w
  = let o := DataInjection.insert_rows cols rows 0 w in
    match res o with
    | Raise e => mkout (Raise e) (world o) (log o)
    | Ok _ => mkout (fst (pg_commit (world o))) (snd (pg_commit (world o)))
                    (log o ++ [EvCommit])
    end.
Proof.
  rewrite bind_outcome. cbv zeta. unfold call.
  destruct (res (DataInjection.insert_rows cols rows 0 w)); reflexivity.
Qed.

End CliLoad.



Section TwoLoops.
Context {W : Type} `{Backend W}.

Lemma column_index_absent name cols :
  ~ In name cols -> column_index name cols = None.
Proof.
  induction cols as [|c cs IH]; [reflexivity|]. cbn [column_index In].
  intros N. destruct (decide (c = name)) as [->|_]; [tauto|].
  rewrite IH by tauto. reflexivity.
Qed.

Lemma column_index_present name cols i :
  column_index name cols = Some i -> In name cols.
Proof.
  revert i. induction cols as [|c cs IH]; intros i; [discriminate|].
  cbn [column_index In]. destruct (decide (c = name)) as [->|_]; [auto|].
  destruct (column_index name cs); [|discriminate]. intros _. right. eauto.
Qed.

(** A tuple that reads a missing column raises [KeyError] for the first
    such column, whatever the row. *)
Lemma getitems_missing cols names c :
  In c names -> ~ In c cols ->
  exists c', In c' names /\ ~ In c' cols /\
             forall r, getitems cols r names = Raise (KeyError c').
Proof.
  intros Hin Hc. induction names as [|n ns IH]; [destruct Hin|].
  destruct (column_index n cols) as [i|] eqn:E.
  - destruct Hin as [->|Hin].
    + rewrite (column_index_absent _ _ Hc) in E. discriminate.
    + destruct (IH Hin) as (c' & H1 & H2 & H3). exists c'.
      split; [right; exact H1|]. split; [exact H2|].
      intros r. cbn [getitems]. unfold getitem at 1. rewrite E, H3. reflexivity.
  - exists n. split; [left; reflexivity|]. split.
    + intros X. destruct (column_index_in _ _ X) as [i Hi]. congruence.
    + intros r. cbn [getitems]. unfold getitem at 1. rewrite E. reflexivity.
Qed.

(** Without a column of the Client statement, a row raises [KeyError]
    before anything is sent. *)
Lemma insert_row_no_client_column cols c :
  In c (table_columns Client) -> ~ In c cols ->
  exists c', ~ In c' cols /\
             forall r w, insert_row cols r w = mkout (Raise (KeyError c')) w [].
Proof.
  intros Hin Hc. destruct (getitems_missing cols _ c Hin Hc) as (c' & _ & N & G).
  exists c'. split; [exact N|]. intros r w. unfold insert_row.
  rewrite bind_outcome, (execute_insert_raise _ _ _ _ _ (G r)). reflexivity.
Qed.

Lemma loops_agree cols rows n w :
  In "sale_id"%string cols ->
  Forall swallowed_by_cli (run_rows cols rows w) ->
  DataInjection.insert_rows cols rows n w = Dag.insert_rows cols rows n w.
Proof.
  intros Hs F. destruct (column_index_in _ _ Hs) as [i Hi].
  rewrite (cli_rows_counted _ _ _ _ F), (dag_rows_counted _ _ _ _ _ Hi). reflexivity.
Qed.

(** The DAG's loop over rows that all raise the same error before sending
    anything. *)
Lemma dag_rows_all_raise cols e rows n w :
  (forall r w, insert_row cols r w = mkout (Raise e) w []) ->
  In "sale_id"%string cols ->
  Dag.insert_rows cols rows n w = mkout (Ok n) w [].
Proof.
  intros R Hs. destruct (column_index_in _ _ Hs) as [i Hi].
  revert w. induction rows as [|r rest IH]; intros w; [reflexivity|].
  cbn [Dag.insert_rows]. rewrite bind_outcome, guarded_row. cbv zeta.
  rewrite R. cbn [res world log]. rewrite bind_outcome. unfold lift, getitem.
  rewrite Hi. cbn [res world log ret]. unfold ret. cbn [res world log].
  rewrite IH. reflexivity.
Qed.

End TwoLoops.

(** X5. The two loops are the same function as long as rows fail with
    storage errors only: on a table that has a [sale_id] column, when each
    row's sequence returns or raises a storage error, the command-line
    loop and the DAG's loop give the same count, the same final state and
    the same trace.  They part on any other error at a row: the
    command-line loop stops there and lets the error out, the rows after
    it never attempted, whereas the DAG's loop goes on with the next row
    and the count unchanged. *)
Theorem X5_loops_agree_and_part {W : Type} `{Backend W}
    (cols : list string) (rows : list row) (n : nat) (w : W) :
  In "sale_id"%string cols ->
  (Forall swallowed_by_cli (run_rows cols rows w) ->
   DataInjection.insert_rows cols rows n w = Dag.insert_rows cols rows n w) /\
  (forall r rest e,
      rows = r :: rest ->
      res (insert_row cols r w) = Raise e ->
      is_psycopg e = false ->
      DataInjection.insert_rows cols rows n w
      = mkout (Raise e) (world (insert_row cols r w)) (log (insert_row cols r w)) /\
      Dag.insert_rows cols rows n w
      = let o := insert_row cols r w in
        let o' := Dag.insert_rows cols rest n (world o) in
        mkout (res o') (world o') (log o ++ log o')).
Proof.
  intros Hs. split; [apply loops_agree, Hs|].
  intros r rest e -> E P. destruct (column_index_in _ _ Hs) as [i Hi]. split.
  - cbn [DataInjection.insert_rows]. rewrite bind_outcome, guarded_row. cbv zeta.
    rewrite E, P. reflexivity.
  - cbn [Dag.insert_rows]. rewrite bind_outcome, guarded_row. cbv zeta.
    rewrite E. cbn [res world log]. rewrite bind_outcome. unfold lift, getitem.
    rewrite Hi. cbn [res world log]. unfold ret. cbn [res world log].
    rewrite !app_nil_r. reflexivity.
Qed.

Lemma X5_loops_agree_and_part_witness :
  DataInjection.insert_rows Example.all_columns (df_rows Example.mixed) 0
    (snd (pg_connect (Example.fresh Example.mixed)))
  = Dag.insert_rows Example.all_columns (df_rows Example.mixed) 0
      (snd (pg_connect (Example.fresh Example.mixed))).
Proof.
  apply (X5_loops_agree_and_part Example.all_columns (df_rows Example.mixed) 0
           (snd (pg_connect (Example.fresh Example.mixed)))).
  - vm_compute. tauto.
  - vm_compute.
    repeat (apply Forall_cons_2;
            [first [left; reflexivity | right; eexists; reflexivity]|]).
    apply Forall_nil_2.
Defined.

(** X6. A table whose header lacks a column of the Client statement, with
    at least one row, on a connection that opens.  The command-line load
    lets the [KeyError] of the first row out as it is, having sent no
    statement, rolled back and closed.  The DAG's load, given a hand-off
    text that reads back as that table, when the header has [sale_id],
    skips every row the same way, sends no statement, commits and, the
    commit going through, reports success with no row inserted; when the
    header has no [sale_id] either, the handler's own log line raises and
    the task fails before any commit. *)
Theorem X6_missing_client_column {W : Type} `{Backend W} {xcom : Xcom}
    (df : DataFrame) (data : json) (w : W) (c : string) :
  read_json data = Ok df ->
  In c (table_columns Client) ->
  ~ In c (df_columns df) ->
  df_rows df <> [] ->
  fst (pg_connect w) = Ok tt ->
  (exists c', ~ In c' (df_columns df) /\
              res (DataInjection.load_data_to_postgres df w) = Raise (KeyError c') /\
              log (DataInjection.load_data_to_postgres df w)
              = [EvConnect; EvRollback; EvClose]) /\
  (In "sale_id"%string (df_columns df) ->
   (fst (pg_commit (snd (pg_connect w))) = Ok tt ->
    res (Dag.load_data_to_postgres (Some data) w)
    = Ok (mkresult "success" 0 (Inserted 0)) /\
    log (Dag.load_data_to_postgres (Some data) w) = [EvConnect; EvCommit; EvClose]) /\
   List.filter is_insert (log (Dag.load_data_to_postgres (Some data) w)) = []) /\
  (~ In "sale_id"%string (df_columns df) ->
   (exists msg, res (Dag.load_data_to_postgres (Some data) w)
                = Raise (DataInjectionError msg)) /\
   log (Dag.load_data_to_postgres (Some data) w) = [EvConnect]).
Proof.
  intros Hread Hin Hc Hrows Hconn. rewrite (dag_load_read _ _ _ Hread).
  destruct (insert_row_no_client_column _ c Hin Hc) as (c' & N & R).
  destruct (df_rows df) as [|r rest] eqn:Erows; [congruence|]. clear Hrows.
  split; [|split].
  - exists c'. split; [exact N|].
    unfold DataInjection.load_data_to_postgres.
    rewrite catch_outcome, with_connection_outcome. cbv zeta.
    rewrite cli_body_outcome. cbv zeta. rewrite Hconn, Erows.
    cbn [DataInjection.insert_rows]. rewrite bind_outcome, guarded_row. cbv zeta.
    rewrite R. cbn [res world log is_psycopg]. split; reflexivity.
  - intros Hs. rewrite dag_load_outcome. cbv zeta. rewrite Hconn.
    rewrite (dag_rows_all_raise _ _ _ _ _ R Hs). cbn [res world log]. split.
    + intros ->. split; reflexivity.
    + destruct (fst (pg_commit _)); reflexivity.
  - intros Hs. rewrite dag_load_outcome. cbv zeta. rewrite Hconn, Erows.
    cbn [Dag.insert_rows]. rewrite bind_outcome, guarded_row. cbv zeta.
    rewrite R. cbn [res world log]. rewrite bind_outcome. unfold lift, getitem.
    rewrite (column_index_absent _ _ Hs). cbn [res world log]. split; eauto.
Qed.

Lemma X6_missing_client_column_witness :
  res (Dag.load_data_to_postgres (xcom := Example.same_table)
         (Some Example.no_email) (Example.fresh Example.no_email))
  = Ok (mkresult "success" 0 (Inserted 0)) /\
  exists c', res (DataInjection.load_data_to_postgres Example.no_email
                    (Example.fresh Example.no_email)) = Raise (KeyError c').
Proof.
  assert (N : ~ In "email"%string (df_columns Example.no_email)).
  { vm_compute. intros [X|[X|[X|[]]]]; discriminate X. }
  assert (R : df_rows Example.no_email <> []) by discriminate.
  destruct (X6_missing_client_column (xcom := Example.same_table)
              Example.no_email Example.no_email (Example.fresh Example.no_email)
              "email"%string eq_refl ltac:(vm_compute; tauto) N R eq_refl)
    as ((c' & _ & E & _) & D & _).
  split.
  - exact (proj1 (proj1 (D ltac:(vm_compute; tauto)) eq_refl)).
  - exists c'. exact E.
Defined.

(** X7. The extraction when it goes wrong, for a date that formats.  Both
    extract steps make exactly one call, the fetch of the object.  When
    the fetch raises, the command-line step turns an [S3Error] into
    [DataInjectionError] and lets any other exception out as it is; the
    DAG's task turns every exception into [DataInjectionError].  When the
    object parses to a table without a [sale_date] column, the
    command-line step raises the raw [KeyError] of the lookup and the
    DAG's task [DataInjectionError].  The DAG's task also raises
    [DataInjectionError] when the filtered table cannot be written as
    JSON; when one of its two variables does not exist it raises the
    [KeyError] of [Variable.get] and fetches nothing. *)
Theorem X7_extract_errors {W : Type} `{Backend W} {xcom : Xcom}
    (src : Source) (date : pystr) (fd : string) (w : W) :
  formatted_date date = Ok fd ->
  let fetch := s3_read_csv (bucket src) (file src) w in
  let cli := DataInjection.extract_data_from_minio src date w in
  let dag := Dag.extract_data_from_minio (variables src) date false w in
  log cli = [EvGetObject (bucket src) (file src)] /\
  log dag = [EvGetObject (bucket src) (file src)] /\
  world cli = snd fetch /\
  world dag = snd fetch /\
  (forall e, fst fetch = Raise e ->
     (is_s3 e = true -> exists msg, res cli = Raise (DataInjectionError msg)) /\
     (is_s3 e = false -> res cli = Raise e) /\
     exists msg, res dag = Raise (DataInjectionError msg)) /\
  (forall df, fst fetch = Ok df ->
     ~ In "sale_date"%string (df_columns df) ->
     res cli = Raise (KeyError "sale_date") /\
     exists msg, res dag = Raise (DataInjectionError msg)) /\
  (forall df out e, fst fetch = Ok df ->
     filter_extract df fd = Ok out -> df_empty out = false ->
     to_json out = Raise e ->
     exists msg, res dag = Raise (DataInjectionError msg)) /\
  (forall vars, minio_bucket_name vars = None \/ file_name vars = None ->
     exists key, Dag.extract_data_from_minio vars date false w
                 = mkout (Raise (KeyError key)) w []).
Proof.
  intros F. cbv zeta.
  assert (Unset : forall vars,
             minio_bucket_name vars = None \/ file_name vars = None ->
             exists key, Dag.extract_data_from_minio vars date false w
                         = mkout (Raise (KeyError key)) w []).
  { intros vars Hv. destruct (dag_extract_unset vars date w fd F Hv) as (key & _ & X).
    eauto. }
  match goal with |- _ /\ _ /\ _ /\ _ /\ _ /\ _ /\ _ /\ ?U => set (unset := U) end.
  unfold DataInjection.extract_data_from_minio, Dag.extract_data_from_minio,
    bind, catch, call, lift, ret, raise.
  rewrite F. cbn [variables minio_bucket_name file_name variable_get].
  destruct (s3_read_csv (bucket src) (file src) w) as [[df|e] w1];
    cbn [fst snd res world log app].
  - destruct (filter_extract df fd) as [out|e'] eqn:Ef; cbn [res world log app].
    + assert (Hcol : In "sale_date"%string (df_columns df)).
      { unfold filter_extract, filter_by_date in Ef.
        destruct (column_index "sale_date" (df_columns df)) as [i|] eqn:Ei;
          [|discriminate].
        exact (column_index_present _ _ _ Ei). }
      destruct (df_empty out) eqn:Ee; cbn [res world log app].
      * do 4 (split; [reflexivity|]). split; [intros e X; discriminate X|].
        split; [intros df' X N; injection X as <-; contradiction|].
        split; [|exact Unset].
        intros df' out' e X Y E'. injection X as <-. congruence.
      * destruct (to_json out) as [data|e2] eqn:Ej; cbn [res world log app];
          (do 4 (split; [reflexivity|])); (split; [intros e X; discriminate X|]);
          (split; [intros df' X N; injection X as <-; contradiction|]);
          (split; [|exact Unset]);
          intros df' out' e X Y E' J; injection X as <-;
          first [congruence | eauto].
    + unfold filter_extract, filter_by_date in Ef.
      destruct (column_index "sale_date" (df_columns df)) as [i|] eqn:Ei; [discriminate|].
      injection Ef as <-. cbn [is_s3 res world log app].
      do 4 (split; [reflexivity|]). split; [intros e X; discriminate X|].
      split; [intros df' X N; split; [reflexivity | eauto]|].
      split; [|exact Unset]. intros df' out' e X Y. eauto.
  - destruct (is_s3 e) eqn:S3; cbn [res world log app];
      (do 4 (split; [reflexivity|]));
      (split; [|split; [intros df' X; discriminate X
                       |split; [intros df' out' e' X; discriminate X | exact Unset]]]);
      intros e' X; injection X as <-; rewrite S3;
      (split; [intros X; first [discriminate X | eauto]
             | split; [intros X; first [discriminate X | reflexivity] | eauto]]).
Qed.

Lemma X7_extract_errors_witness :
  exists msg, res (DataInjection.extract_data_from_minio Example.source
                     Example.d20230615 Example.object_missing)
              = Raise (DataInjectionError msg).
Proof.
  destruct (X7_extract_errors (xcom := Example.same_table)
              Example.source Example.d20230615 "2023-06-15"
              Example.object_missing eq_refl) as (_ & _ & _ & _ & Hf & _).
  exact (proj1 (Hf (S3Error "NoSuchKey") eq_refl) eq_refl).
Defined.

Section FilterAgain.

Lemma filter_all {A} (P : A -> Prop) `{!forall x, Decision (P x)} (l : list A) :
  Forall P l -> filter P l = l.
Proof.
  induction 1 as [|x l Hx _ IH]; [reflexivity|].
  rewrite filter_cons_True by exact Hx. f_equal. exact IH.
Qed.

End FilterAgain.

(** X8. Filtering is stable: filtering an extract that is already the
    result of the filter for the same date returns it unchanged, and the
    filtered extracts of one table for two different dates share no
    row. *)
Theorem X8_filter_stable (df out : DataFrame) (fd : string) :
  filter_extract df fd = Ok out ->
  filter_extract out fd = Ok out /\
  (forall fd' out', filter_extract df fd' = Ok out' -> fd' <> fd ->
                    forall r, r ∈ df_rows out -> r ∉ df_rows out').
Proof.
  unfold filter_extract, filter_by_date.
  destruct (column_index "sale_date" (df_columns df)) as [i|] eqn:Ei; [|discriminate].
  intros E. injection E as <-. cbn [drop_duplicates df_columns df_rows].
  rewrite Ei. split.
  - f_equal. unfold drop_duplicates. cbn [df_columns df_rows]. f_equal.
    rewrite filter_all.
    + apply drop_duplicates_distinct_id; [apply drop_duplicates_distinct|].
      intros r _. reflexivity.
    + apply Forall_forall. intros r Hr.
      apply drop_duplicates_in in Hr as [Hr _].
      apply list_elem_of_filter in Hr as [Hr _]. exact Hr.
  - intros fd' out' E' Hne r Hr Hr'. injection E' as <-.
    cbn [drop_duplicates df_columns df_rows] in Hr'.
    apply drop_duplicates_in in Hr as [Hr _], Hr' as [Hr' _].
    apply list_elem_of_filter in Hr as [Hr _], Hr' as [Hr' _].
    congruence.
Qed.

Lemma X8_filter_stable_witness :
  filter_extract (drop_duplicates
                    (mkdf (df_columns Example.mixed)
                          (filter (fun r => nth 17 r CNull = CStr "2023-06-15")
                                  (df_rows Example.mixed))))
                 "2023-06-15"
  = Ok (drop_duplicates
          (mkdf (df_columns Example.mixed)
                (filter (fun r => nth 17 r CNull = CStr "2023-06-15")
                        (df_rows Example.mixed)))).
Proof.
  exact (proj1 (X8_filter_stable Example.mixed _ "2023-06-15" eq_refl)).
Defined.

Section Canonical.

Lemma strptime_fields s d :
  strptime s = Ok d -> check_date_fields (year d) (month d) (day d) = true.
Proof.
  unfold strptime. destruct (regex_match s) as [[[[y m] dd] rest]|]; [|discriminate].
  destruct rest; [|discriminate]. cbv zeta.
  destruct (check_date_fields _ _ _) eqn:C; [|discriminate].
  intros E. injection E as <-. exact C.
Qed.

Lemma fields_real d :
  check_date_fields (year d) (month d) (day d) = true ->
  1 <= year d <= 9999 /\ 1 <= month d <= 12 /\ 1 <= day d <= 31 /\
  real_calendar_date (year d) (month d) (day d) = true.
Proof.
  unfold check_date_fields, real_calendar_date, in_range.
  rewrite !andb_true_iff, !Z.leb_le. intros [[[Y1 Y2] [M1 M2]] [D1 D2]].
  rewrite days_in_month_spec in D2 by lia.
  pose proof (month_length_le (year d) (month d)) as L.
  repeat split; lia.
Qed.

Lemma number_year y :
  0 <= y <= 9999 ->
  number [48 + (y / 1000) mod 10; 48 + (y / 100) mod 10; 48 + (y / 10) mod 10;
          48 + y mod 10] = y.
Proof.
  intros B. unfold number. cbn [fold_left]. Z.div_mod_to_equations. lia.
Qed.

Lemma number_pair n :
  0 <= n <= 99 -> number [48 + (n / 10) mod 10; 48 + n mod 10] = n.
Proof.
  intros B. unfold number. cbn [fold_left]. Z.div_mod_to_equations. lia.
Qed.

Lemma ascii_digit_mod x : ascii_digit (48 + x mod 10) = true.
Proof.
  unfold ascii_digit, in_range. pose proof (Z.mod_pos_bound x 10 ltac:(lia)).
  apply andb_true_iff. rewrite !Z.leb_le. lia.
Qed.

Lemma date_digits_spec d :
  check_date_fields (year d) (month d) (day d) = true ->
  spec_validate (date_digits d) = true.
Proof.
  intros C. destruct (fields_real d C) as (Y & M & D & R).
  unfold spec_validate, date_digits.
  rewrite number_year, !number_pair by lia. rewrite R.
  cbn [forallb]. rewrite !ascii_digit_mod. reflexivity.
Qed.

(** [strftime] writes the year without leading zeros. *)
Lemma strftime_digits d :
  1 <= year d <= 9999 -> strftime d = code_form (date_digits d).
Proof.
  intros Y. unfold strftime, code_form, date_digits.
  rewrite string_of_list_app. f_equal.
  unfold year_text, pad2, digit_char, char_of. cbn [strip_zeros].
  destruct (Z.ltb_spec (year d) 10); [|destruct (Z.ltb_spec (year d) 100);
    [|destruct (Z.ltb_spec (year d) 1000)]];
    destruct (Z.eqb_spec (48 + (year d / 1000) mod 10) 48);
    destruct (Z.eqb_spec (48 + (year d / 100) mod 10) 48);
    destruct (Z.eqb_spec (48 + (year d / 10) mod 10) 48);
    try reflexivity; exfalso; Z.div_mod_to_equations; lia.
Qed.

Lemma four_digits_from_1000 d :
  1000 <= year d <= 9999 -> four_digit_year (date_digits d) = true.
Proof.
  intros Y. unfold four_digit_year, date_digits. apply negb_true_iff, Z.eqb_neq.
  Z.div_mod_to_equations. lia.
Qed.

End Canonical.

(** X9. Whatever characters the input is written in, a date the validator
    accepts parses to a date of the calendar with a year of at most four
    digits, and its formatted date, the one the existence query and the
    filter use, is the YYYY-MM-DD form of that date with the leading zeros
    of the year dropped: the ten-character YYYY-MM-DD form itself from the
    year 1000 on.  The ASCII spelling of the same date is accepted too and
    formats the same. *)
Theorem X9_accepted_dates_are_real (s : pystr) :
  validate_date s = Ok true ->
  exists d,
    strptime s = Ok d /\
    real_calendar_date (year d) (month d) (day d) = true /\
    year d <= 9999 /\
    spec_validate (date_digits d) = true /\
    formatted_date s = Ok (code_form (date_digits d)) /\
    (1000 <= year d ->
     formatted_date s = Ok (iso_form (date_digits d)) /\
     String.length (iso_form (date_digits d)) = 10%nat) /\
    validate_date (date_digits d) = Ok true /\
    formatted_date (date_digits d) = formatted_date s.
Proof.
  intros V. assert (P : exists d, strptime s = Ok d).
  { unfold validate_date in V. destruct (_ || _); [discriminate|].
    destruct (strptime s) as [d|e]; [eauto|]. destruct e; discriminate. }
  destruct P as [d P]. exists d.
  pose proof (strptime_fields s d P) as C.
  destruct (fields_real d C) as (Y & _ & _ & R).
  pose proof (date_digits_spec d C) as Sp.
  assert (F : formatted_date s = Ok (code_form (date_digits d))).
  { unfold formatted_date. rewrite P, strftime_digits by lia. reflexivity. }
  split; [exact P|]. split; [exact R|]. split; [lia|]. split; [exact Sp|].
  split; [exact F|]. split; [|split].
  - intros Y4. split; [|reflexivity].
    rewrite F, code_form_iso; [reflexivity|]. apply four_digits_from_1000. lia.
  - rewrite validate_date_ascii.
    + rewrite Sp. reflexivity.
    + unfold date_digits.
      repeat (apply Forall_cons_2;
              [pose proof (Z.mod_pos_bound (year d) 10 ltac:(lia));
               match goal with |- 0 <= 48 + ?x mod 10 < 128 =>
                 pose proof (Z.mod_pos_bound x 10 ltac:(lia)); lia end|]).
      apply Forall_nil_2.
  - rewrite F. apply formatted_date_code, Sp.
Qed.

Lemma X9_accepted_dates_are_real_witness :
  exists d, strptime [1634; 1632; 1634; 1635; 48; 54; 49; 53] = Ok d /\
            formatted_date [1634; 1632; 1634; 1635; 48; 54; 49; 53]
            = Ok (code_form (date_digits d)) /\
            formatted_date Example.d09990101 = Ok "999-01-01"%string.
Proof.
  destruct (X9_accepted_dates_are_real [1634; 1632; 1634; 1635; 48; 54; 49; 53]
              ltac:(vm_compute; reflexivity)) as (d & P & _ & _ & _ & F & _).
  exists d. split; [exact P|]. split; [exact F | reflexivity].
Defined.

Section Checks.
Context {W : Type} `{Backend W}.

Lemma get_first_outcome fd w :
  Dag.get_first fd w
  = match fst (pg_connect w) with
    | Raise e => mkout (Raise e) (snd (pg_connect w)) [EvConnect]
    | Ok _ =>
        let q := pg_select_exists fd (snd (pg_connect w)) in
        match fst q with
        | Raise e => mkout (Raise e) (pg_close (snd q))
                           [EvConnect; EvSelectExists fd; EvClose]
        | Ok b =>
            match fst (pg_commit (snd q)) with
            | Raise e => mkout (Raise e) (pg_close (snd (pg_commit (snd q))))
                               [EvConnect; EvSelectExists fd; EvCommit; EvClose]
            | Ok _ => mkout (Ok b) (pg_close (snd (pg_commit (snd q))))
                            [EvConnect; EvSelectExists fd; EvCommit; EvClose]
            end
        end
    end.
Proof.
  unfold Dag.get_first, bind, catch, call, call_total, ret, raise. cbv zeta.
  destruct (pg_connect w) as [[[]|e] w1]; cbn [fst snd res world log]; [|reflexivity].
  destruct (pg_select_exists fd w1) as [[b|e] w2]; cbn [fst snd res world log app];
    [|reflexivity].
  destruct (pg_commit w2) as [[[]|e] w3]; cbn [fst snd res world log app]; reflexivity.
Qed.

Lemma cli_check_outcome fd w :
  DataInjection.with_connection
    (call (EvSelectExists fd) (pg_select_exists fd)) w
  = match fst (pg_connect w) with
    | Raise e => mkout (Raise e) (snd (pg_connect w)) [EvConnect]
    | Ok _ =>
        let q := pg_select_exists fd (snd (pg_connect w)) in
        match fst q with
        | Raise e => mkout (Raise e) (pg_close (pg_rollback (snd q)))
                           [EvConnect; EvSelectExists fd; EvRollback; EvClose]
        | Ok b =>
            match fst (pg_commit (snd q)) with
            | Raise e => mkout (Raise e) (snd (pg_commit (snd q)))
                               [EvConnect; EvSelectExists fd; EvCommit]
            | Ok _ => mkout (Ok b) (pg_close (snd (pg_commit (snd q))))
                            [EvConnect; EvSelectExists fd; EvCommit; EvClose]
            end
        end
    end.
Proof.
  rewrite with_connection_outcome. cbv zeta. unfold call. cbn [res world log app].
  reflexivity.
Qed.

Lemma cli_check_formatted date fd w :
  formatted_date date = Ok fd ->
  DataInjection.check_date_exists date w
  = catch (DataInjection.with_connection
             (call (EvSelectExists fd) (pg_select_exists fd)))
          (fun e => if is_psycopg e
                    then Some (raise (DataInjectionError
                                        "Impossible de verifier la date en base"))
                    else None) w.
Proof.
  intros F. unfold DataInjection.check_date_exists. unfold bind at 1, lift.
  rewrite F. destruct (catch _ _ w). reflexivity.
Qed.

Lemma dag_check_formatted date fd w :
  formatted_date date = Ok fd ->
  Dag.check_date_exists date w
  = catch (Dag.get_first fd)
          (fun e => Some (raise (DataInjectionError
                                   "Impossible de verifier la date en base"))) w.
Proof.
  intros F. unfold Dag.check_date_exists. unfold bind at 1, lift.
  rewrite F. destruct (catch _ _ w). reflexivity.
Qed.

End Checks.

(** X10. The two existence checks, for a date that formats.  They return
    in the same cases and are then the same in everything: the answer is
    the one the query gave on the connection just opened, the calls are
    connect, query, commit, close, and the state left is the same.  When
    the DAG's check raises, the error is [DataInjectionError] and a
    connection that was opened has been closed.  When the command-line
    check raises, the error is never a raw storage error; the connection
    was rolled back and closed if the query failed, and is left open if
    the commit of the [with] block failed. *)
Theorem X10_checks_agree {W : Type} `{Backend W} (date : pystr) (fd : string) (w : W) :
  formatted_date date = Ok fd ->
  let cli := DataInjection.check_date_exists date w in
  let dag := Dag.check_date_exists date w in
  (forall b, res cli = Ok b <-> res dag = Ok b) /\
  (forall b, res cli = Ok b ->
     cli = dag /\
     fst (pg_select_exists fd (snd (pg_connect w))) = Ok b /\
     log cli = [EvConnect; EvSelectExists fd; EvCommit; EvClose]) /\
  (forall e, res dag = Raise e ->
     (exists msg, e = DataInjectionError msg) /\
     (log dag = [EvConnect] \/ exists l, log dag = l ++ [EvClose])) /\
  (forall e, res cli = Raise e ->
     (forall msg, e <> PsycopgError msg) /\
     (log cli = [EvConnect] \/
      log cli = [EvConnect; EvSelectExists fd; EvRollback; EvClose] \/
      log cli = [EvConnect; EvSelectExists fd; EvCommit])).
Proof.
  intros F. cbv zeta.
  rewrite (cli_check_formatted _ _ _ F), (dag_check_formatted _ _ _ F).
  rewrite !catch_outcome, get_first_outcome, cli_check_outcome. cbv zeta.
  assert (Hraw : forall e, is_psycopg e = false -> forall msg, e <> PsycopgError msg).
  { intros e P msg ->. discriminate P. }
  destruct (fst (pg_connect w)) as [[]|e0]; cbn [res world log].
  - destruct (fst (pg_select_exists fd (snd (pg_connect w)))) as [b|e1];
      cbn [res world log].
    + destruct (fst (pg_commit _)) as [[]|e2]; cbn [res world log].
      * split; [tauto|]. split; [|split; intros e X; discriminate X].
        intros b' X. injection X as <-. repeat split.
      * unfold raise. split; [|split; [|split]].
        -- intros b'. destruct (is_psycopg e2); cbn [res]; split; discriminate.
        -- intros b'. destruct (is_psycopg e2); cbn [res]; discriminate.
        -- intros e X. cbn [res world log] in *. injection X as <-.
           split; [eauto|]. right.
           exists [EvConnect; EvSelectExists fd; EvCommit]. reflexivity.
        -- intros e. destruct (is_psycopg e2) eqn:P; cbn [res world log];
             intros X; injection X as <-;
             (split; [first [discriminate | exact (Hraw _ P)] | auto]).
    + unfold raise. split; [|split; [|split]].
      * intros b'. destruct (is_psycopg e1); cbn [res]; split; discriminate.
      * intros b'. destruct (is_psycopg e1); cbn [res]; discriminate.
      * intros e X. cbn [res world log] in *. injection X as <-.
        split; [eauto|]. right.
        exists [EvConnect; EvSelectExists fd]. reflexivity.
      * intros e. destruct (is_psycopg e1) eqn:P; cbn [res world log];
          intros X; injection X as <-;
          (split; [first [discriminate | exact (Hraw _ P)] | auto]).
  - unfold raise. split; [|split; [|split]].
    + intros b'. destruct (is_psycopg e0); cbn [res]; split; discriminate.
    + intros b'. destruct (is_psycopg e0); cbn [res]; discriminate.
    + intros e X. cbn [res world log] in *. injection X as <-.
      split; [eauto|]. left. reflexivity.
    + intros e. destruct (is_psycopg e0) eqn:P; cbn [res world log];
        intros X; injection X as <-;
        (split; [first [discriminate | exact (Hraw _ P)] | auto]).
Qed.

Lemma X10_checks_agree_witness :
  DataInjection.check_date_exists Example.d20230615
    (Example.holding Example.already_loaded Example.three_rows)
  = Dag.check_date_exists Example.d20230615
      (Example.holding Example.already_loaded Example.three_rows).
Proof.
  exact (proj1 (proj1 (proj2
    (X10_checks_agree Example.d20230615 "2023-06-15"
       (Example.holding Example.already_loaded Example.three_rows) eq_refl))
    true eq_refl)).
Defined.

Section Extracts.
Context {W : Type} `{Backend W} {xcom : Xcom}.

Lemma filter_extract_raises df fd e :
  filter_extract df fd = Raise e -> e = KeyError "sale_date".
Proof.
  unfold filter_extract, filter_by_date.
  destruct (column_index "sale_date" (df_columns df)); [discriminate|].
  intros E. injection E as <-. reflexivity.
Qed.

Lemma cli_extract_outcome src date fd w :
  formatted_date date = Ok fd ->
  DataInjection.extract_data_from_minio src date w
  = let f := s3_read_csv (bucket src) (file src) w in
    match fst f with
    | Ok df => mkout (filter_extract df fd) (snd f) [EvGetObject (bucket src) (file src)]
    | Raise e =>
        mkout (Raise (if is_s3 e then DataInjectionError "Impossible de lire le fichier"
                      else e))
              (snd f) [EvGetObject (bucket src) (file src)]
    end.
Proof.
  intros F. cbv zeta.
  unfold DataInjection.extract_data_from_minio, bind, catch, call, lift, ret, raise.
  rewrite F.
  destruct (s3_read_csv (bucket src) (file src) w) as [[df|e] w1];
    cbn [fst snd res world log app].
  - destruct (filter_extract df fd) as [out|e'] eqn:Ef; cbn [res world log app];
      [reflexivity|].
    rewrite (filter_extract_raises _ _ _ Ef). reflexivity.
  - destruct (is_s3 e); reflexivity.
Qed.

(** What the extract task hands over: nothing for an empty table,
    otherwise its JSON text. *)
Lemma dag_extract_outcome src date fd w :
  formatted_date date = Ok fd ->
  Dag.extract_data_from_minio (variables src) date false w
  = let f := s3_read_csv (bucket src) (file src) w in
    match fst f with
    | Ok df =>
        match filter_extract df fd with
        | Ok out =>
            mkout (if df_empty out then Ok None
                   else match to_json out with
                        | Ok data => Ok (Some data)
                        | Raise _ =>
                            Raise (DataInjectionError "Impossible de lire le fichier")
                        end)
                  (snd f) [EvGetObject (bucket src) (file src)]
        | Raise _ => mkout (Raise (DataInjectionError "Impossible de lire le fichier"))
                           (snd f) [EvGetObject (bucket src) (file src)]
        end
    | Raise _ => mkout (Raise (DataInjectionError "Impossible de lire le fichier"))
                       (snd f) [EvGetObject (bucket src) (file src)]
    end.
Proof.
  intros F. cbv zeta.
  unfold Dag.extract_data_from_minio, bind, catch, call, lift, ret, raise.
  rewrite F. cbn [variables minio_bucket_name file_name variable_get].
  destruct (s3_read_csv (bucket src) (file src) w) as [[df|e] w1];
    cbn [fst snd res world log app]; [|reflexivity].
  destruct (filter_extract df fd) as [out|e'] eqn:Ef; cbn [res world log app];
    [|reflexivity].
  destruct (df_empty out); [reflexivity|].
  destruct (to_json out); reflexivity.
Qed.

End Extracts.

(* ===================================================================== *)
(** ** The two files against the relational store                         *)
(* ===================================================================== *)

Module StoreFacts.
Import Store.

Lemma grows_refl ts : grows ts ts.
Proof. intros t. exists []. rewrite app_nil_r. reflexivity. Qed.

Lemma grows_trans a b c : grows a b -> grows b c -> grows a c.
Proof.
  intros Hab Hbc t. destruct (Hab t) as [k1 E1]. destruct (Hbc t) as [k2 E2].
  exists (k1 ++ k2). rewrite E2, E1, app_assoc. reflexivity.
Qed.

Lemma grows_add_row t p ts : grows ts (add_row t p ts).
Proof.
  intros t'. destruct t, t'; cbn; first [by exists [p] | exists []; by rewrite app_nil_r].
Qed.

Lemma has_key_grows t k a b : grows a b -> has_key t k a = true -> has_key t k b = true.
Proof.
  intros G Hk. destruct (G t) as [extra E]. unfold has_key in *.
  rewrite E, existsb_app, Hk. reflexivity.
Qed.

Lemma has_key_add_row t p ts : has_key t (pkey p) (add_row t p ts) = true.
Proof.
  unfold has_key. destruct t; cbn; rewrite existsb_app; cbn;
    rewrite bool_decide_true by reflexivity; apply orb_true_iff; right; reflexivity.
Qed.


(** A statement that returns leaves its key in the table and removes
    nothing; one that is refused raises a storage error. *)
Lemma insert_do_nothing_ok t p ts ts' :
  insert_do_nothing t p ts = Ok ts' ->
  grows ts ts' /\ has_key t (pkey p) ts' = true.
Proof.
  unfold insert_do_nothing.
  destruct (pkey p) as [|z|z|z] eqn:Ek; [discriminate| | |];
    (match goal with |- context [has_key t ?k ts] => destruct (has_key t k ts) eqn:Hk end;
     [ intros E; injection E as <-; split; [apply grows_refl | exact Hk]
     | destruct (foreign_keys_ok t p ts); [|discriminate];
       intros E; injection E as <-; rewrite <- Ek;
       split; [apply grows_add_row | apply has_key_add_row] ]).
Qed.

Lemma insert_do_nothing_raises t p ts e :
  insert_do_nothing t p ts = Raise e -> is_psycopg e = true.
Proof.
  unfold insert_do_nothing.
  destruct (pkey p); [intros E; injection E as <-; reflexivity| | |];
    (match goal with |- context [has_key t ?k ts] => destruct (has_key t k ts) end;
     [discriminate|]);
    (destruct (foreign_keys_ok t p ts); [discriminate|]);
    intros E; injection E as <-; reflexivity.
Qed.

Lemma new_sales_refl fd ts : new_sales_dated fd ts ts.
Proof. intros s Hs. left. exact Hs. Qed.

Lemma new_sales_trans fd a b c :
  new_sales_dated fd a b -> new_sales_dated fd b c -> new_sales_dated fd a c.
Proof.
  intros Hab Hbc s Hs. destruct (Hbc s Hs) as [Hb|Hd]; [|right; exact Hd].
  exact (Hab s Hb).
Qed.

Lemma insert_do_nothing_sales fd t p ts ts' :
  insert_do_nothing t p ts = Ok ts' ->
  (t = Sale -> nth 1 p CNull = CStr fd) ->
  new_sales_dated fd ts ts'.
Proof.
  unfold insert_do_nothing. intros E D.
  assert (Hcases : ts' = ts \/ ts' = add_row t p ts).
  { destruct (pkey p); [discriminate| | |];
      (destruct (has_key t _ ts); [injection E as <-; auto|]);
      (destruct (foreign_keys_ok t p ts); [injection E as <-; auto | discriminate]). }
  destruct Hcases as [->| ->]; [apply new_sales_refl|].
  intros s Hs. destruct t; cbn in Hs; auto.
  apply in_app_or in Hs as [Hs|[<-|[]]]; auto.
Qed.


(** An insert in a transaction that is not aborted, and in an aborted
    one. *)
Lemma pg_insert_open t p w ts :
  session w = Some (InTransaction ts) ->
  pg_insert t p w
  = match insert_do_nothing t p ts with
    | Ok ts' => (Ok tt, mkpg (committed w) (Some (InTransaction ts')) (objects w))
    | Raise e => (Raise e, mkpg (committed w) (Some Aborted) (objects w))
    end.
Proof. intros Hs. cbn. rewrite Hs. reflexivity. Qed.

Lemma pg_insert_aborted t p w :
  session w = Some Aborted -> pg_insert t p w = (Raise in_failed_transaction, w).
Proof. intros Hs. cbn. rewrite Hs. reflexivity. Qed.

Lemma getitems_raises cols r names e :
  getitems cols r names = Raise e -> exists c, e = KeyError c.
Proof.
  induction names as [|n ns IH]; [discriminate|]. cbn [getitems]. unfold getitem.
  destruct (column_index n cols); [|intros E; injection E as <-; eauto].
  destruct (getitems cols r ns) as [ps|e0]; [discriminate | exact IH].
Qed.

Lemma sale_params_dated fd cols r :
  (forall i, column_index "sale_date" cols = Some i -> nth i r CNull = CStr fd) ->
  forall p, getitems cols r (table_columns Sale) = Ok p -> nth 1 p CNull = CStr fd.
Proof.
  intros Hd p E.
  pose proof (getitems_nth _ _ _ _ E 1%nat "sale_date" eq_refl) as G.
  unfold getitem in G.
  destruct (column_index "sale_date" cols) as [i|]; [|discriminate].
  injection G as G. rewrite <- G. apply Hd. reflexivity.
Qed.

(** The per-row sequence in a transaction that is not aborted.  Nothing
    is committed and the objects are as they were.  Either a statement
    was refused: the sequence raises that storage error and leaves the
    transaction aborted.  Or none was: the sequence returned or raised
    the [KeyError] of a missing column, the tables only grew, every
    statement sent has its key in them, and a Sale row that is new
    carries the row's date. *)
Lemma insert_tables_open l cols r w ts :
  session w = Some (InTransaction ts) ->
  committed (world (insert_tables l cols r w)) = committed w /\
  objects (world (insert_tables l cols r w)) = objects w /\
  ((exists e, res (insert_tables l cols r w) = Raise e /\ is_psycopg e = true) /\
   session (world (insert_tables l cols r w)) = Some Aborted
   \/ (res (insert_tables l cols r w) = Ok tt
       \/ exists c, res (insert_tables l cols r w) = Raise (KeyError c)) /\
      exists ts',
        session (world (insert_tables l cols r w)) = Some (InTransaction ts') /\
        grows ts ts' /\
        (forall t p, In (EvInsert t p) (log (insert_tables l cols r w)) ->
                     has_key t (pkey p) ts' = true) /\
        (forall fd,
            (forall p, getitems cols r (table_columns Sale) = Ok p ->
                       nth 1 p CNull = CStr fd) ->
            new_sales_dated fd ts ts')).
Proof.
  revert w ts. induction l as [|t l IH]; intros w ts Hs.
  - cbn. split; [reflexivity|]. split; [reflexivity|]. right.
    split; [left; reflexivity|]. exists ts. split; [exact Hs|].
    split; [apply grows_refl|]. split; [intros t p []|].
    intros fd _. apply new_sales_refl.
  - cbn [insert_tables]. rewrite bind_outcome.
    destruct (getitems cols r (table_columns t)) as [p|e] eqn:E.
    + rewrite (execute_insert_ok _ _ _ _ _ E). cbn [res world log].
      rewrite (pg_insert_open t p w ts Hs).
      destruct (insert_do_nothing t p ts) as [ts1|e] eqn:Ei; cbn [fst snd].
      * destruct (insert_do_nothing_ok _ _ _ _ Ei) as [G1 K1].
        set (w1 := mkpg (committed w) (Some (InTransaction ts1)) (objects w)).
        destruct (IH w1 ts1 eq_refl) as (C & O & Cases).
        cbn [res world log]. split; [exact C|]. split; [exact O|].
        destruct Cases as [[Hr Ha]|[Hr (ts2 & Hs2 & G2 & K2 & D2)]].
        -- left. split; assumption.
        -- right. split; [exact Hr|]. exists ts2. split; [exact Hs2|].
           split; [eapply grows_trans; eauto|]. split.
           ++ intros t' p' [X|X].
              ** injection X as <- <-. eapply has_key_grows; eauto.
              ** apply K2, X.
           ++ intros fd D. eapply new_sales_trans; [|apply D2, D].
              eapply insert_do_nothing_sales; [exact Ei|].
              intros ->. apply D, E.
      * cbn [res world log committed objects session].
        split; [reflexivity|]. split; [reflexivity|]. left.
        split; [|reflexivity]. exists e. split; [reflexivity|].
        exact (insert_do_nothing_raises _ _ _ _ Ei).
    + rewrite (execute_insert_raise _ _ _ _ _ E). cbn [res world log].
      split; [reflexivity|]. split; [reflexivity|]. right.
      destruct (getitems_raises _ _ _ _ E) as [c ->].
      split; [right; eauto|]. exists ts. split; [exact Hs|].
      split; [apply grows_refl|]. split; [intros t' p' []|].
      intros fd _. apply new_sales_refl.
Qed.

(** In an aborted transaction a row changes nothing and raises: the
    server refuses its first statement, if the statement can be built. *)
Lemma insert_row_aborted cols r w :
  session w = Some Aborted ->
  world (insert_row cols r w) = w /\
  res (insert_row cols r w)
  = match getitems cols r (table_columns Client) with
    | Ok _ => Raise in_failed_transaction
    | Raise e => Raise e
    end.
Proof.
  intros Hs. unfold insert_row. rewrite bind_outcome.
  destruct (getitems cols r (table_columns Client)) as [p|e] eqn:E.
  - rewrite (execute_insert_ok _ _ _ _ _ E), (pg_insert_aborted _ _ _ Hs).
    split; reflexivity.
  - rewrite (execute_insert_raise _ _ _ _ _ E). split; reflexivity.
Qed.

End StoreFacts.

Module RowFacts.
Import Store.

Lemma references_present t k ts : has_key t k ts = true -> references t k ts = true.
Proof. intros Hk. unfold references. destruct k; auto. Qed.

Lemma statement_result_ok t cols r :
  statement_result t cols r = Ok tt ->
  exists p, getitems cols r (table_columns t) = Ok p /\ pkey p <> CNull.
Proof.
  unfold statement_result. destruct (getitems cols r (table_columns t)) as [p|e];
    [|discriminate].
  intros E. exists p. split; [reflexivity|]. intros Hk. rewrite Hk in E. discriminate.
Qed.

Lemma insert_do_nothing_null t p ts :
  pkey p = CNull ->
  insert_do_nothing t p ts = Raise (PsycopgError "null value in primary key").
Proof. intros Hk. unfold insert_do_nothing. rewrite Hk. reflexivity. Qed.

Lemma insert_do_nothing_returns t p ts :
  pkey p <> CNull -> foreign_keys_ok t p ts = true ->
  exists ts', insert_do_nothing t p ts = Ok ts'.
Proof.
  intros Hk Hf. unfold insert_do_nothing. rewrite Hf.
  destruct (pkey p); [contradiction| | |];
    match goal with |- context [has_key t ?k ts] => destruct (has_key t k ts) end;
    eauto.
Qed.

(** One statement in a transaction that is not aborted, when what it
    refers to is there. *)
Lemma execute_insert_result t cols r w ts :
  session w = Some (InTransaction ts) ->
  (forall p, getitems cols r (table_columns t) = Ok p -> foreign_keys_ok t p ts = true) ->
  res (execute_insert t cols r w) = statement_result t cols r /\
  (statement_result t cols r = Ok tt ->
   exists ts', session (world (execute_insert t cols r w)) = Some (InTransaction ts') /\
               grows ts ts' /\
               forall p, getitems cols r (table_columns t) = Ok p ->
                         has_key t (pkey p) ts' = true).
Proof.
  intros Hs Hf. unfold statement_result.
  destruct (getitems cols r (table_columns t)) as [p|e] eqn:E.
  - rewrite (execute_insert_ok _ _ _ _ _ E). cbn [res world log].
    rewrite (StoreFacts.pg_insert_open t p w ts Hs).
    destruct (pkey p) eqn:Ek.
    + rewrite (insert_do_nothing_null t p ts Ek). split; [reflexivity | discriminate].
    + destruct (insert_do_nothing_returns t p ts) as [ts' Ei];
        [rewrite Ek; discriminate | apply Hf; reflexivity|].
      rewrite Ei. cbn [fst snd]. split; [reflexivity|]. intros _.
      destruct (StoreFacts.insert_do_nothing_ok _ _ _ _ Ei) as [G K].
      exists ts'. split; [reflexivity|]. split; [exact G|].
      intros p' X. injection X as <-. exact K.
    + destruct (insert_do_nothing_returns t p ts) as [ts' Ei];
        [rewrite Ek; discriminate | apply Hf; reflexivity|].
      rewrite Ei. cbn [fst snd]. split; [reflexivity|]. intros _.
      destruct (StoreFacts.insert_do_nothing_ok _ _ _ _ Ei) as [G K].
      exists ts'. split; [reflexivity|]. split; [exact G|].
      intros p' X. injection X as <-. exact K.
    + destruct (insert_do_nothing_returns t p ts) as [ts' Ei];
        [rewrite Ek; discriminate | apply Hf; reflexivity|].
      rewrite Ei. cbn [fst snd]. split; [reflexivity|]. intros _.
      destruct (StoreFacts.insert_do_nothing_ok _ _ _ _ Ei) as [G K].
      exists ts'. split; [reflexivity|]. split; [exact G|].
      intros p' X. injection X as <-. exact K.
  - rewrite (execute_insert_raise _ _ _ _ _ E). cbn [res world log].
    split; [reflexivity | discriminate].
Qed.

Lemma pkey_nth p : pkey p = nth 0 p CNull.
Proof. destruct p; reflexivity. Qed.

(** Two parameter tuples of a row agree on a column they share. *)
Lemma params_agree cols r t1 t2 p1 p2 i1 i2 name :
  getitems cols r (table_columns t1) = Ok p1 ->
  getitems cols r (table_columns t2) = Ok p2 ->
  table_columns t1 !! i1 = Some name ->
  table_columns t2 !! i2 = Some name ->
  nth i1 p1 CNull = nth i2 p2 CNull.
Proof.
  intros E1 E2 H1 H2.
  pose proof (getitems_nth _ _ _ _ E1 i1 name H1) as G1.
  pose proof (getitems_nth _ _ _ _ E2 i2 name H2) as G2.
  congruence.
Qed.

(** In a transaction that is not aborted a row's outcome does not depend
    on what the tables hold: the references of Sale and SaleProduct are
    to keys the row itself has just inserted. *)
Lemma insert_row_result cols r w ts :
  session w = Some (InTransaction ts) ->
  res (insert_row cols r w) = row_result cols r.
Proof.
  intros Hs. unfold insert_row, row_result, insert_order. cbn [tables_result].
  (* Client *)
  destruct (execute_insert_result Client cols r w ts Hs (fun _ _ => eq_refl))
    as (R1 & K1).
  rewrite bind_outcome, R1.
  destruct (statement_result Client cols r) as [[]|e] eqn:S1; [|reflexivity].
  destruct (statement_result_ok _ _ _ S1) as (pc & Ec & Nc).
  destruct (K1 eq_refl) as (ts1 & Hs1 & G1 & Kc). specialize (Kc pc Ec). cbn [res].
  (* Product *)
  destruct (execute_insert_result Product cols r _ ts1 Hs1 (fun _ _ => eq_refl))
    as (R2 & K2).
  rewrite bind_outcome, R2.
  destruct (statement_result Product cols r) as [[]|e] eqn:S2; [|reflexivity].
  destruct (statement_result_ok _ _ _ S2) as (pp & Ep & Np).
  destruct (K2 eq_refl) as (ts2 & Hs2 & G2 & Kp). specialize (Kp pp Ep). cbn [res].
  assert (Kc' : has_key Client (pkey pc) ts2 = true)
    by (eapply StoreFacts.has_key_grows; eauto).
  (* Sale *)
  destruct (execute_insert_result Sale cols r _ ts2 Hs2) as (R3 & K3).
  { intros ps Es. cbn [foreign_keys_ok]. apply references_present.
    rewrite <- (params_agree cols r Client Sale pc ps 0 4 "customer_id" Ec Es eq_refl eq_refl).
    rewrite <- pkey_nth. exact Kc'. }
  rewrite bind_outcome, R3.
  destruct (statement_result Sale cols r) as [[]|e] eqn:S3; [|reflexivity].
  destruct (statement_result_ok _ _ _ S3) as (ps & Es & Ns).
  destruct (K3 eq_refl) as (ts3 & Hs3 & G3 & Ks). specialize (Ks ps Es). cbn [res].
  assert (Kp' : has_key Product (pkey pp) ts3 = true)
    by (eapply StoreFacts.has_key_grows; eauto).
  (* SaleProduct *)
  destruct (execute_insert_result SaleProduct cols r _ ts3 Hs3) as (R4 & _).
  { intros pi Ei. cbn [foreign_keys_ok]. apply andb_true_iff. split; apply references_present.
    - rewrite <- (params_agree cols r Sale SaleProduct ps pi 0 1 "sale_id" Es Ei eq_refl eq_refl).
      rewrite <- pkey_nth. exact Ks.
    - rewrite <- (params_agree cols r Product SaleProduct pp pi 0 2 "product_id" Ep Ei eq_refl eq_refl).
      rewrite <- pkey_nth. exact Kp'. }
  rewrite R4. destruct (statement_result SaleProduct cols r) as [[]|e]; reflexivity.
Qed.

Lemma row_key_params t cols r p :
  getitems cols r (table_columns t) = Ok p -> row_key t cols r = pkey p.
Proof.
  intros E. unfold row_key.
  assert (G : getitem cols r (hd ""%string (table_columns t)) = Ok (nth 0 p CNull)).
  { destruct t; exact (getitems_nth _ _ _ _ E 0%nat _ eq_refl). }
  rewrite G, pkey_nth. reflexivity.
Qed.



(** A row in a transaction that is not aborted: its result is the one of
    [row_result]; a refused row leaves the transaction aborted; any other
    leaves it open with tables that only grew, all four keys of the row
    in them when the row returned, and new Sale rows of the row's date
    only. *)
Lemma insert_row_open cols r w ts :
  session w = Some (InTransaction ts) ->
  res (insert_row cols r w) = row_result cols r /\
  committed (world (insert_row cols r w)) = committed w /\
  objects (world (insert_row cols r w)) = objects w /\
  (refused cols r = true -> session (world (insert_row cols r w)) = Some Aborted) /\
  (refused cols r = false ->
   exists ts',
     session (world (insert_row cols r w)) = Some (InTransaction ts') /\
     grows ts ts' /\
     (row_result cols r = Ok tt -> all_present cols r ts' = true) /\
     (forall fd,
         (forall i, column_index "sale_date" cols = Some i -> nth i r CNull = CStr fd) ->
         new_sales_dated fd ts ts')).
Proof.
  intros Hs. pose proof (insert_row_result cols r w ts Hs) as R.
  destruct (insert_row_log cols r w) as (j & _ & Hl & Hj).
  destruct (StoreFacts.insert_tables_open insert_order cols r w ts Hs)
    as (C & O & Cases).
  rewrite <- insert_row_tables in C, O, Cases.
  split; [exact R|]. split; [exact C|]. split; [exact O|].
  unfold refused. rewrite <- R.
  destruct Cases as [[(e & -> & P) Ha]|[Hr (ts' & Hs' & G & K & D)]].
  - rewrite P. split; [intros _; exact Ha | discriminate].
  - split.
    { destruct Hr as [->|[c ->]]; discriminate. }
    intros _. exists ts'. split; [exact Hs'|]. split; [exact G|]. split.
    + intros Hok. destruct (Hj Hok) as [-> L].
      rewrite firstn_all2 in Hl by lia.
      unfold all_present. apply forallb_forall. intros t Ht.
      unfold row_inserts, insert_order in *. cbn [statements] in *.
      destruct (getitems cols r (table_columns Client)) as [pc|] eqn:Ec; [|discriminate].
      destruct (getitems cols r (table_columns Product)) as [pp|] eqn:Ep; [|discriminate].
      destruct (getitems cols r (table_columns Sale)) as [ps|] eqn:Es; [|discriminate].
      destruct (getitems cols r (table_columns SaleProduct)) as [pi|] eqn:Ei;
        [|discriminate].
      destruct t.
      * rewrite (row_key_params _ _ _ _ Ec). apply K. rewrite Hl. cbn. auto.
      * rewrite (row_key_params _ _ _ _ Ep). apply K. rewrite Hl. cbn. auto.
      * rewrite (row_key_params _ _ _ _ Es). apply K. rewrite Hl. cbn. auto.
      * rewrite (row_key_params _ _ _ _ Ei). apply K. rewrite Hl. cbn. auto.
    + intros fd Hd. apply D. apply StoreFacts.sale_params_dated, Hd.
Qed.


Lemma complete_header_columns cols t c :
  complete_header cols = true -> In c (table_columns t) -> In c cols.
Proof.
  unfold complete_header. rewrite forallb_forall. intros Hall Hc.
  assert (Ht : In t insert_order) by (destruct t; cbn; tauto).
  specialize (Hall t Ht). rewrite forallb_forall in Hall. specialize (Hall c Hc).
  apply bool_decide_eq_true in Hall as [i Hi].
  exact (column_index_present _ _ _ Hi).
Qed.

Lemma getitems_present cols r names :
  (forall c, In c names -> In c cols) -> exists p, getitems cols r names = Ok p.
Proof.
  induction names as [|n ns IH]; intros Hall; [eexists; reflexivity|].
  destruct (column_index_in n cols (Hall n (or_introl eq_refl))) as [i Hi].
  destruct IH as [p Hp]; [intros c Hc; apply Hall; right; exact Hc|].
  exists (nth i r CNull :: p). cbn [getitems]. unfold getitem. rewrite Hi, Hp.
  reflexivity.
Qed.

Lemma complete_header_sale_id cols :
  complete_header cols = true -> exists i, column_index "sale_id" cols = Some i.
Proof.
  intros Hc. apply column_index_in, (complete_header_columns _ Sale _ Hc).
  left. reflexivity.
Qed.

Lemma statement_result_storage t cols r :
  complete_header cols = true ->
  statement_result t cols r = Ok tt
  \/ exists msg, statement_result t cols r = Raise (PsycopgError msg).
Proof.
  intros Hc. unfold statement_result.
  destruct (getitems_present cols r (table_columns t)) as [p ->].
  { intros c. apply complete_header_columns, Hc. }
  destruct (pkey p); eauto.
Qed.

(** With every column there, a row returns or is refused. *)
Lemma row_result_storage cols r :
  complete_header cols = true ->
  row_result cols r = Ok tt \/ refused cols r = true.
Proof.
  intros Hc. unfold refused, row_result.
  induction insert_order as [|t ts IH]; [left; reflexivity|]. cbn [tables_result].
  destruct (statement_result_storage t cols r Hc) as [->|[msg ->]]; [exact IH|].
  right. reflexivity.
Qed.

Lemma row_ok_not_refused cols r : row_result cols r = Ok tt -> refused cols r = false.
Proof. unfold refused. intros ->. reflexivity. Qed.

(** In an aborted transaction, with every column there, the row is
    refused. *)
Lemma insert_row_aborted_complete cols r w :
  session w = Some Aborted -> complete_header cols = true ->
  world (insert_row cols r w) = w /\
  res (insert_row cols r w) = Raise in_failed_transaction.
Proof.
  intros Hs Hc. destruct (StoreFacts.insert_row_aborted cols r w Hs) as [Hw Hr].
  split; [exact Hw|]. rewrite Hr.
  destruct (getitems_present cols r (table_columns Client)) as [p ->]; [|reflexivity].
  intros c. apply complete_header_columns, Hc.
Qed.

End RowFacts.

Module StoreLoops.
Import Store.

(** In an aborted transaction the loops change nothing; with every
    column there they go through all rows and count none. *)
Lemma cli_rows_aborted cols rows n w :
  session w = Some Aborted ->
  world (DataInjection.insert_rows cols rows n w) = w /\
  (complete_header cols = true ->
   res (DataInjection.insert_rows cols rows n w) = Ok n).
Proof.
  intros Hs. induction rows as [|r rest IH]; [split; reflexivity|].
  cbn [DataInjection.insert_rows]. rewrite bind_outcome, guarded_row. cbv zeta.
  destruct (StoreFacts.insert_row_aborted cols r w Hs) as [Hw Hr]. rewrite Hw.
  destruct (res (insert_row cols r w)) as [[]|e] eqn:Er; cbn [res world log].
  { destruct (getitems cols r (table_columns Client)); discriminate. }
  destruct (is_psycopg e) eqn:P; unfold ret; cbn [res world log].
  - exact IH.
  - split; [reflexivity|]. intros Hc.
    destruct (RowFacts.insert_row_aborted_complete cols r w Hs Hc) as [_ Hr'].
    rewrite Er in Hr'. injection Hr' as ->. discriminate.
Qed.

Lemma dag_rows_aborted cols rows n w :
  session w = Some Aborted ->
  world (Dag.insert_rows cols rows n w) = w /\
  (complete_header cols = true -> res (Dag.insert_rows cols rows n w) = Ok n).
Proof.
  intros Hs. induction rows as [|r rest IH]; [split; reflexivity|].
  cbn [Dag.insert_rows]. rewrite bind_outcome, guarded_row. cbv zeta.
  destruct (StoreFacts.insert_row_aborted cols r w Hs) as [Hw Hr]. rewrite Hw.
  destruct (res (insert_row cols r w)) as [[]|e] eqn:Er; cbn [res world log].
  { destruct (getitems cols r (table_columns Client)); discriminate. }
  rewrite bind_outcome. unfold lift, ret. cbn [res world log].
  destruct (getitem cols r "sale_id") as [c|e'] eqn:G; cbn [res world log].
  - exact IH.
  - split; [reflexivity|]. intros Hc.
    destruct (RowFacts.complete_header_sale_id cols Hc) as [i Hi].
    unfold getitem in G. rewrite Hi in G. discriminate.
Qed.

Lemma loop_leaves_refl fd cols rows w ts :
  session w = Some (InTransaction ts) -> loop_leaves fd cols rows w ts w.
Proof.
  intros Hs. split; [reflexivity|]. split; [reflexivity|]. right. exists ts.
  split; [exact Hs|]. split; [apply StoreFacts.grows_refl|].
  intros _. apply StoreFacts.new_sales_refl.
Qed.

(** What a loop leaves, from what it leaves after its first row. *)
Lemma loop_leaves_after_row fd cols r rest w ts w' :
  session w = Some (InTransaction ts) ->
  (session (world (insert_row cols r w)) = Some Aborted ->
   w' = world (insert_row cols r w)) ->
  (forall ts1, session (world (insert_row cols r w)) = Some (InTransaction ts1) ->
               loop_leaves fd cols rest (world (insert_row cols r w)) ts1 w') ->
  loop_leaves fd cols (r :: rest) w ts w'.
Proof.
  intros Hs Ha Ho.
  destruct (RowFacts.insert_row_open cols r w ts Hs) as (_ & C & O & A & B).
  destruct (refused cols r).
  - specialize (A eq_refl). rewrite (Ha A).
    split; [exact C|]. split; [exact O|]. left. exact A.
  - destruct (B eq_refl) as (ts1 & Hs1 & G1 & _ & D1).
    destruct (Ho ts1 Hs1) as (C2 & O2 & Cases).
    split; [congruence|]. split; [congruence|].
    destruct Cases as [Hab|(ts2 & Hs2 & G2 & D2)]; [left; exact Hab|].
    right. exists ts2. split; [exact Hs2|].
    split; [eapply StoreFacts.grows_trans; eauto|].
    intros Hd. eapply StoreFacts.new_sales_trans.
    + apply D1. intros i Hi. apply (Hd i Hi). left. reflexivity.
    + apply D2. intros i Hi x Hx. apply (Hd i Hi). right. exact Hx.
Qed.

Lemma cli_rows_leaves fd cols rows n w ts :
  session w = Some (InTransaction ts) ->
  loop_leaves fd cols rows w ts (world (DataInjection.insert_rows cols rows n w)).
Proof.
  revert n w ts. induction rows as [|r rest IH]; intros n w ts Hs.
  - apply loop_leaves_refl, Hs.
  - apply (loop_leaves_after_row fd cols r rest w ts); [exact Hs | |];
      cbn [DataInjection.insert_rows]; rewrite bind_outcome, guarded_row; cbv zeta.
    + intros Ha.
      destruct (res (insert_row cols r w)) as [[]|e]; cbn [res world log].
      * apply (cli_rows_aborted cols rest (S n) _ Ha).
      * destruct (is_psycopg e); unfold ret; cbn [res world log]; [|reflexivity].
        apply (cli_rows_aborted cols rest n _ Ha).
    + intros ts1 Hs1.
      destruct (res (insert_row cols r w)) as [[]|e]; cbn [res world log].
      * apply IH; assumption.
      * destruct (is_psycopg e); unfold ret; cbn [res world log].
        -- apply IH; assumption.
        -- apply loop_leaves_refl, Hs1.
Qed.

Lemma dag_rows_leaves fd cols rows n w ts :
  session w = Some (InTransaction ts) ->
  loop_leaves fd cols rows w ts (world (Dag.insert_rows cols rows n w)).
Proof.
  revert n w ts. induction rows as [|r rest IH]; intros n w ts Hs.
  - apply loop_leaves_refl, Hs.
  - apply (loop_leaves_after_row fd cols r rest w ts); [exact Hs | |];
      cbn [Dag.insert_rows]; rewrite bind_outcome, guarded_row; cbv zeta.
    + intros Ha.
      destruct (res (insert_row cols r w)) as [[]|e]; cbn [res world log].
      * apply (dag_rows_aborted cols rest (S n) _ Ha).
      * rewrite bind_outcome. unfold lift, ret. cbn [res world log].
        destruct (getitem cols r "sale_id"); cbn [res world log]; [|reflexivity].
        apply (dag_rows_aborted cols rest n _ Ha).
    + intros ts1 Hs1.
      destruct (res (insert_row cols r w)) as [[]|e]; cbn [res world log].
      * apply IH; assumption.
      * rewrite bind_outcome. unfold lift, ret. cbn [res world log].
        destruct (getitem cols r "sale_id"); cbn [res world log].
        -- apply IH; assumption.
        -- apply loop_leaves_refl, Hs1.
Qed.



(** Rows of which one is refused, those before it returning: the count
    is the number of rows before it, and the transaction is left
    aborted. *)
Lemma cli_rows_refused cols pre r post n w ts :
  session w = Some (InTransaction ts) ->
  complete_header cols = true ->
  (forall x, In x pre -> row_result cols x = Ok tt) ->
  refused cols r = true ->
  res (DataInjection.insert_rows cols (pre ++ r :: post) n w)
  = Ok (n + length pre)%nat /\
  session (world (DataInjection.insert_rows cols (pre ++ r :: post) n w))
  = Some Aborted.
Proof.
  intros Hs Hc Hpre Hr. revert n w ts Hs Hpre.
  induction pre as [|x pre IH]; intros n w ts Hs Hpre.
  - cbn [app DataInjection.insert_rows length]. rewrite bind_outcome, guarded_row.
    cbv zeta. destruct (RowFacts.insert_row_open cols r w ts Hs) as (R & _ & _ & A & _).
    specialize (A Hr). rewrite R. unfold refused in Hr.
    destruct (row_result cols r) as [[]|e]; [discriminate|]. rewrite Hr.
    unfold ret. cbn [res world log].
    destruct (cli_rows_aborted cols post n _ A) as [-> Hres].
    rewrite (Hres Hc), Nat.add_0_r. split; [reflexivity | exact A].
  - assert (Hx : row_result cols x = Ok tt) by (apply Hpre; left; reflexivity).
    destruct (RowFacts.insert_row_open cols x w ts Hs) as (R & _ & _ & _ & B).
    destruct (B (RowFacts.row_ok_not_refused _ _ Hx)) as (ts1 & Hs1 & _).
    cbn [app DataInjection.insert_rows length]. rewrite bind_outcome, guarded_row.
    cbv zeta. rewrite R, Hx. cbn [res world log].
    destruct (IH (S n) _ ts1 Hs1) as (R2 & A2).
    { intros y Hy. apply Hpre. right. exact Hy. }
    split; [rewrite R2; f_equal; lia | exact A2].
Qed.

Lemma dag_rows_refused cols pre r post n w ts :
  session w = Some (InTransaction ts) ->
  complete_header cols = true ->
  (forall x, In x pre -> row_result cols x = Ok tt) ->
  refused cols r = true ->
  res (Dag.insert_rows cols (pre ++ r :: post) n w) = Ok (n + length pre)%nat /\
  session (world (Dag.insert_rows cols (pre ++ r :: post) n w)) = Some Aborted.
Proof.
  intros Hs Hc Hpre Hr. destruct (RowFacts.complete_header_sale_id cols Hc) as [i Hi].
  revert n w ts Hs Hpre.
  induction pre as [|x pre IH]; intros n w ts Hs Hpre.
  - cbn [app Dag.insert_rows length]. rewrite bind_outcome, guarded_row.
    cbv zeta. destruct (RowFacts.insert_row_open cols r w ts Hs) as (R & _ & _ & A & _).
    specialize (A Hr). rewrite R. unfold refused in Hr.
    destruct (row_result cols r) as [[]|e]; [discriminate|].
    cbn [res world log]. rewrite bind_outcome. unfold lift, ret, getitem.
    rewrite Hi. cbn [res world log].
    destruct (dag_rows_aborted cols post n _ A) as [-> Hres].
    rewrite (Hres Hc), Nat.add_0_r. split; [reflexivity | exact A].
  - assert (Hx : row_result cols x = Ok tt) by (apply Hpre; left; reflexivity).
    destruct (RowFacts.insert_row_open cols x w ts Hs) as (R & _ & _ & _ & B).
    destruct (B (RowFacts.row_ok_not_refused _ _ Hx)) as (ts1 & Hs1 & _).
    cbn [app Dag.insert_rows length]. rewrite bind_outcome, guarded_row.
    cbv zeta. rewrite R, Hx. cbn [res world log].
    destruct (IH (S n) _ ts1 Hs1) as (R2 & A2).
    { intros y Hy. apply Hpre. right. exact Hy. }
    split; [rewrite R2; f_equal; lia | exact A2].
Qed.



(** With every column there, each row of a loop returns or raises a
    storage error. *)
Lemma run_rows_swallowed cols rows w :
  session w <> None -> complete_header cols = true ->
  Forall swallowed_by_cli (run_rows cols rows w).
Proof.
  intros Hs Hc. revert w Hs. induction rows as [|r rest IH]; intros w Hs.
  - apply Forall_nil_2.
  - cbn [run_rows]. destruct (session w) as [[ts|]|] eqn:E; [| |contradiction].
    + destruct (RowFacts.insert_row_open cols r w ts E) as (R & _ & _ & A & B).
      apply Forall_cons_2.
      * unfold swallowed_by_cli. rewrite R.
        destruct (RowFacts.row_result_storage cols r Hc) as [->|Hr]; [left; reflexivity|].
        unfold refused in Hr. destruct (row_result cols r) as [[]|[]]; try discriminate.
        right. eauto.
      * apply IH. destruct (refused cols r).
        -- rewrite (A eq_refl). discriminate.
        -- destruct (B eq_refl) as (ts1 & -> & _). discriminate.
    + destruct (RowFacts.insert_row_aborted_complete cols r w E Hc) as [Hw Hr].
      apply Forall_cons_2.
      * unfold swallowed_by_cli. rewrite Hr. right. unfold in_failed_transaction. eauto.
      * apply IH. rewrite Hw, E. discriminate.
Qed.


End StoreLoops.

Module StoreLoads.
Import Store.

Lemma connect_opens (w : pg) : pg_connect w = (Ok tt, opened w).
Proof. reflexivity. Qed.

(** [COMMIT] on an open connection returns, once or twice, and keeps
    what the transaction built unless it was aborted. *)
Lemma commit_close (w : pg) :
  session w <> None ->
  fst (pg_commit w) = Ok tt /\
  pg_close (snd (pg_commit w)) = mkpg (after_commit w) None (objects w) /\
  fst (pg_commit (snd (pg_commit w))) = Ok tt /\
  pg_close (snd (pg_commit (snd (pg_commit w))))
  = mkpg (after_commit w) None (objects w).
Proof.
  intros Hs. cbn. unfold after_commit.
  destruct (session w) as [[ts|]|]; [| |contradiction]; cbn; repeat split; reflexivity.
Qed.

Lemma rollback_close (w : pg) :
  session w <> None ->
  pg_close (pg_rollback w) = mkpg (committed w) None (objects w).
Proof.
  intros Hs. cbn. destruct (session w) as [s|]; [reflexivity | contradiction].
Qed.

Lemma loop_leaves_session fd cols rows w ts w' :
  loop_leaves fd cols rows w ts w' -> session w' <> None.
Proof. intros (_ & _ & [->|(ts' & -> & _)]); discriminate. Qed.

(** What is committed after a loop that started on a fresh connection. *)
Lemma loop_leaves_commit fd cols rows w w' :
  loop_leaves fd cols rows (opened w) (committed w) w' ->
  grows (committed w) (after_commit w') /\
  (rows_dated fd cols rows -> new_sales_dated fd (committed w) (after_commit w')) /\
  (session w' = Some Aborted -> after_commit w' = committed w).
Proof.
  intros (C & _ & Cases). unfold after_commit. cbn [opened committed] in C.
  destruct Cases as [->|(ts' & -> & G & D)].
  - rewrite C. split; [apply StoreFacts.grows_refl|].
    split; [intros _; apply StoreFacts.new_sales_refl | reflexivity].
  - split; [exact G|]. split; [exact D | discriminate].
Qed.

(** The DAG's load of a table, on the store. *)
Lemma dag_table_store df w :
  Dag.load_table df w
  = let o := Dag.insert_rows (df_columns df) (df_rows df) 0 (opened w) in
    match res o with
    | Ok n => mkout (Ok (mkresult "success" n (Inserted n)))
                    (mkpg (after_commit (world o)) None (objects w))
                    (EvConnect :: log o ++ [EvCommit; EvClose])
    | Raise _ => mkout (Raise (DataInjectionError "Impossible d'inserer les donnees"))
                       (world o) (EvConnect :: log o)
    end.
Proof.
  rewrite dag_load_outcome. cbv zeta. rewrite connect_opens. cbn [fst snd].
  pose proof (StoreLoops.dag_rows_leaves ""%string (df_columns df) (df_rows df) 0
                (opened w) (committed w) eq_refl) as L.
  destruct (res (Dag.insert_rows _ _ _ _)) as [n|e]; [|reflexivity].
  destruct (commit_close _ (loop_leaves_session _ _ _ _ _ _ L)) as (E1 & E2 & _).
  destruct L as (_ & O & _). cbn [opened objects] in O.
  rewrite E1, E2, O. reflexivity.
Qed.

(** The command-line load, on the store. *)
Lemma cli_load_store df w :
  DataInjection.load_data_to_postgres df w
  = let o := DataInjection.insert_rows (df_columns df) (df_rows df) 0 (opened w) in
    match res o with
    | Ok _ => mkout (Ok tt) (mkpg (after_commit (world o)) None (objects w))
                    (EvConnect :: log o ++ [EvCommit; EvCommit; EvClose])
    | Raise e =>
        mkout (Raise (if is_psycopg e
                      then DataInjectionError "Impossible d'inserer les donnees"
                      else e))
              (mkpg (committed w) None (objects w))
              (EvConnect :: log o ++ [EvRollback; EvClose])
    end.
Proof.
  unfold DataInjection.load_data_to_postgres.
  rewrite catch_outcome, with_connection_outcome. cbv zeta.
  rewrite cli_body_outcome. cbv zeta. rewrite connect_opens. cbn [fst snd].
  pose proof (StoreLoops.cli_rows_leaves ""%string (df_columns df) (df_rows df) 0
                (opened w) (committed w) eq_refl) as L.
  pose proof (loop_leaves_session _ _ _ _ _ _ L) as Hs.
  destruct L as (C & O & _). cbn [opened committed objects] in C, O.
  destruct (res (DataInjection.insert_rows _ _ _ _)) as [n|e]; cbn [res world log].
  - destruct (commit_close _ Hs) as (E1 & _ & E3 & E4).
    rewrite E1. cbn [res world log]. rewrite E3, E4, O. cbn [res world log].
    rewrite <- app_assoc. reflexivity.
  - rewrite (rollback_close _ Hs), C, O.
    destruct (is_psycopg e); unfold raise; cbn [res world log];
      rewrite ?app_nil_r; reflexivity.
Qed.

(** The two loads on a table: nothing is taken away, new Sale rows carry
    the date of the rows, and a load that raises commits nothing. *)
Lemma dag_table_leaves fd df w :
  objects (world (Dag.load_table df w)) = objects w /\
  grows (committed w) (committed (world (Dag.load_table df w))) /\
  (dated fd df ->
   new_sales_dated fd (committed w) (committed (world (Dag.load_table df w)))) /\
  (forall e, res (Dag.load_table df w) = Raise e ->
             committed (world (Dag.load_table df w)) = committed w).
Proof.
  rewrite dag_table_store. cbv zeta.
  pose proof (StoreLoops.dag_rows_leaves fd (df_columns df) (df_rows df) 0
                (opened w) (committed w) eq_refl) as L.
  destruct (loop_leaves_commit _ _ _ _ _ L) as (G & D & _).
  destruct L as (C & O & _). cbn [opened committed objects] in C, O.
  destruct (res (Dag.insert_rows _ _ _ _)) as [n|e]; cbn [res world log committed objects].
  - split; [reflexivity|]. split; [exact G|]. split; [exact D | discriminate].
  - rewrite C. split; [exact O|]. split; [apply StoreFacts.grows_refl|].
    split; [intros _; apply StoreFacts.new_sales_refl | reflexivity].
Qed.

Lemma cli_load_leaves fd df w :
  objects (world (DataInjection.load_data_to_postgres df w)) = objects w /\
  grows (committed w) (committed (world (DataInjection.load_data_to_postgres df w))) /\
  (dated fd df ->
   new_sales_dated fd (committed w)
     (committed (world (DataInjection.load_data_to_postgres df w)))) /\
  (forall e, res (DataInjection.load_data_to_postgres df w) = Raise e ->
             committed (world (DataInjection.load_data_to_postgres df w)) = committed w).
Proof.
  rewrite cli_load_store. cbv zeta.
  pose proof (StoreLoops.cli_rows_leaves fd (df_columns df) (df_rows df) 0
                (opened w) (committed w) eq_refl) as L.
  destruct (loop_leaves_commit _ _ _ _ _ L) as (G & D & _).
  destruct (res (DataInjection.insert_rows _ _ _ _)) as [n|e];
    cbn [res world log committed objects].
  - split; [reflexivity|]. split; [exact G|]. split; [exact D | discriminate].
  - split; [reflexivity|]. split; [apply StoreFacts.grows_refl|].
    split; [intros _; apply StoreFacts.new_sales_refl | reflexivity].
Qed.



(** A table of which one row is refused, those before it returning: both
    loads return, the DAG's with the number of rows before it, and
    nothing is committed. *)
Lemma dag_table_refused df w pre r post :
  complete_header (df_columns df) = true ->
  df_rows df = pre ++ r :: post ->
  (forall x, In x pre -> row_result (df_columns df) x = Ok tt) ->
  refused (df_columns df) r = true ->
  res (Dag.load_table df w)
  = Ok (mkresult "success" (length pre) (Inserted (length pre))) /\
  committed (world (Dag.load_table df w)) = committed w.
Proof.
  intros Hc Hrows Hpre Hr. rewrite dag_table_store. cbv zeta. rewrite Hrows.
  destruct (StoreLoops.dag_rows_refused (df_columns df) pre r post 0
              (opened w) (committed w) eq_refl Hc Hpre Hr) as (R & A).
  pose proof (StoreLoops.dag_rows_leaves ""%string (df_columns df) (pre ++ r :: post) 0
                (opened w) (committed w) eq_refl) as L.
  destruct (loop_leaves_commit _ _ _ _ _ L) as (_ & _ & Hab).
  rewrite R. cbn [res world committed Nat.add]. split; [reflexivity | exact (Hab A)].
Qed.

Lemma cli_load_refused df w pre r post :
  complete_header (df_columns df) = true ->
  df_rows df = pre ++ r :: post ->
  (forall x, In x pre -> row_result (df_columns df) x = Ok tt) ->
  refused (df_columns df) r = true ->
  res (DataInjection.load_data_to_postgres df w) = Ok tt /\
  committed (world (DataInjection.load_data_to_postgres df w)) = committed w.
Proof.
  intros Hc Hrows Hpre Hr. rewrite cli_load_store. cbv zeta. rewrite Hrows.
  destruct (StoreLoops.cli_rows_refused (df_columns df) pre r post 0
              (opened w) (committed w) eq_refl Hc Hpre Hr) as (R & A).
  pose proof (StoreLoops.cli_rows_leaves ""%string (df_columns df) (pre ++ r :: post) 0
                (opened w) (committed w) eq_refl) as L.
  destruct (loop_leaves_commit _ _ _ _ _ L) as (_ & _ & Hab).
  rewrite R. cbn [res world committed]. split; [reflexivity | exact (Hab A)].
Qed.



(** On a complete header the two loads do the same to the store and both
    return; the command-line load commits once more. *)
Lemma loads_agree df w :
  complete_header (df_columns df) = true ->
  exists n l,
    res (DataInjection.load_data_to_postgres df w) = Ok tt /\
    res (Dag.load_table df w) = Ok (mkresult "success" n (Inserted n)) /\
    world (DataInjection.load_data_to_postgres df w) = world (Dag.load_table df w) /\
    log (Dag.load_table df w) = l ++ [EvCommit; EvClose] /\
    log (DataInjection.load_data_to_postgres df w)
    = l ++ [EvCommit; EvCommit; EvClose].
Proof.
  intros Hc.
  assert (Hsale : In "sale_id"%string (df_columns df)).
  { apply (RowFacts.complete_header_columns _ Sale _ Hc). left. reflexivity. }
  destruct (column_index_in _ _ Hsale) as [i Hi].
  assert (Hsw : Forall swallowed_by_cli
                  (run_rows (df_columns df) (df_rows df) (opened w))).
  { apply StoreLoops.run_rows_swallowed; [discriminate | exact Hc]. }
  rewrite cli_load_store, dag_table_store. cbv zeta.
  rewrite (loops_agree (df_columns df) (df_rows df) 0 (opened w) Hsale Hsw).
  rewrite (dag_rows_counted _ _ _ _ _ Hi). cbn [res world log].
  eexists. exists (EvConnect :: concat (log <$> run_rows (df_columns df) (df_rows df)
                                          (opened w))).
  repeat split.
Qed.

End StoreLoads.

Module StoreRuns.
Import Store.

(** The existence check against the store: it answers from what is
    committed and leaves no connection open. *)
Lemma dag_check_store date w fd :
  formatted_date date = Ok fd ->
  Dag.check_date_exists date w
  = mkout (Ok (sale_dated fd (committed w))) (disconnected w)
          [EvConnect; EvSelectExists fd; EvCommit; EvClose].
Proof.
  intros F. unfold Dag.check_date_exists, Dag.get_first.
  unfold bind, catch, call, call_total, lift, ret. rewrite F. reflexivity.
Qed.

Lemma cli_check_store date w fd :
  formatted_date date = Ok fd ->
  DataInjection.check_date_exists date w
  = mkout (Ok (sale_dated fd (committed w))) (disconnected w)
          [EvConnect; EvSelectExists fd; EvCommit; EvClose].
Proof.
  intros F. unfold DataInjection.check_date_exists, DataInjection.with_connection.
  unfold bind, catch, call, call_total, lift, ret. rewrite F. reflexivity.
Qed.

Lemma cli_check_unformatted date e (w : pg) :
  formatted_date date = Raise e ->
  DataInjection.check_date_exists date w = mkout (Raise e) w [].
Proof.
  intros F. unfold DataInjection.check_date_exists, bind, lift. rewrite F. reflexivity.
Qed.

Lemma filter_extract_dated df fd out :
  filter_extract df fd = Ok out ->
  df_columns out = df_columns df /\ dated fd out.
Proof.
  unfold filter_extract, filter_by_date.
  destruct (column_index "sale_date" (df_columns df)) as [i|] eqn:Ei; [|discriminate].
  intros E. injection E as <-. cbn [drop_duplicates df_columns df_rows].
  split; [reflexivity|]. unfold dated, rows_dated, drop_duplicates.
  cbn [df_columns df_rows]. intros j Hj r Hr.
  assert (j = i) by congruence. subst j.
  apply list_elem_of_In, drop_duplicates_in in Hr as [Hr _].
  apply list_elem_of_filter in Hr as [Hr _]. exact Hr.
Qed.

(** A run of the command-line workflow against the store, step by
    step. *)
Lemma cli_run_store src date fd w :
  formatted_date date = Ok fd ->
  DataInjection.start_workflow src date w
  = let checked := [EvConnect; EvSelectExists fd; EvCommit; EvClose] in
    let fetched := checked ++ [EvGetObject (bucket src) (file src)] in
    if sale_dated fd (committed w) then mkout (Ok false) (disconnected w) checked
    else
      match lookup_object (bucket src) (file src) w with
      | None => mkout (Ok false) (disconnected w) fetched
      | Some df =>
          match filter_extract df fd with
          | Raise _ => mkout (Ok false) (disconnected w) fetched
          | Ok out =>
              if df_empty out then mkout (Ok false) (disconnected w) fetched
              else
                let o := DataInjection.load_data_to_postgres out (disconnected w) in
                mkout (Ok (is_ok (res o))) (world o) (fetched ++ log o)
          end
      end.
Proof.
  intros F. rewrite start_workflow_steps. cbv zeta.
  rewrite (cli_check_store _ _ _ F). cbn [res world log].
  destruct (sale_dated fd (committed w)); [reflexivity|].
  rewrite (cli_extract_outcome _ _ _ _ F). cbv zeta.
  cbn [s3_read_csv pg_backend].
  change (lookup_object (bucket src) (file src) (disconnected w))
    with (lookup_object (bucket src) (file src) w).
  destruct (lookup_object (bucket src) (file src) w) as [df|];
    cbn [fst snd res world log]; [|reflexivity].
  destruct (filter_extract df fd) as [out|e]; [|reflexivity].
  destruct (df_empty out); [reflexivity|].
  rewrite <- app_assoc. reflexivity.
Qed.

(** A run of the DAG against the store, step by step. *)
Lemma dag_run_store {xcom : Xcom} src date fd w :
  validate_date date = Ok true ->
  formatted_date date = Ok fd ->
  Dag.fashion_store_etl (variables src) date w
  = let checked := [EvConnect; EvSelectExists fd; EvCommit; EvClose] in
    let fetched := checked ++ [EvGetObject (bucket src) (file src)] in
    let unread := DataInjectionError "Impossible de lire le fichier" in
    if sale_dated fd (committed w)
    then mkout (Ok (mkresult "skipped" 0 NothingToLoad)) (disconnected w) checked
    else
      match lookup_object (bucket src) (file src) w with
      | None => mkout (Raise unread) (disconnected w) fetched
      | Some df =>
          match filter_extract df fd with
          | Raise _ => mkout (Raise unread) (disconnected w) fetched
          | Ok out =>
              if df_empty out
              then mkout (Ok (mkresult "skipped" 0 NothingToLoad)) (disconnected w) fetched
              else
                match to_json out with
                | Raise _ => mkout (Raise unread) (disconnected w) fetched
                | Ok data =>
                    match read_json data with
                    | Raise e => mkout (Raise e) (disconnected w) fetched
                    | Ok back =>
                        let o := Dag.load_table back (disconnected w) in
                        mkout (res o) (world o) (fetched ++ log o)
                    end
                end
          end
      end.
Proof.
  intros V F. rewrite etl_steps. cbv zeta. rewrite V.
  rewrite (dag_check_store _ _ _ F). cbn [res world log]. rewrite F.
  destruct (sale_dated fd (committed w)).
  { unfold Dag.extract_data_from_minio, Dag.load_data_to_postgres, ret.
    cbn [res world log]. reflexivity. }
  rewrite (dag_extract_outcome _ _ _ _ F). cbv zeta.
  cbn [s3_read_csv pg_backend].
  change (lookup_object (bucket src) (file src) (disconnected w))
    with (lookup_object (bucket src) (file src) w).
  destruct (lookup_object (bucket src) (file src) w) as [df|];
    cbn [fst snd res world log]; [|reflexivity].
  destruct (filter_extract df fd) as [out|e]; cbn [res world log]; [|reflexivity].
  destruct (df_empty out).
  { unfold Dag.load_data_to_postgres, ret. cbn [res world log].
    rewrite app_nil_r. reflexivity. }
  destruct (to_json out) as [data|e]; cbn [res world log]; [|reflexivity].
  destruct (read_json data) as [back|e] eqn:R.
  - rewrite (dag_load_read _ _ _ R).
    destruct (res (Dag.load_table back (disconnected w))); cbn [res world log];
      rewrite <- ?app_assoc; reflexivity.
  - rewrite (dag_load_unread _ _ _ R). cbn [res world log].
    rewrite app_nil_r. reflexivity.
Qed.

(** A run of the command-line workflow takes nothing away. *)
Lemma cli_run_leaves src date w :
  let o := DataInjection.start_workflow src date w in
  objects (world o) = objects w /\
  grows (committed w) (committed (world o)) /\
  (res o = Ok false -> committed (world o) = committed w) /\
  (forall fd, formatted_date date = Ok fd ->
              new_sales_dated fd (committed w) (committed (world o))).
Proof.
  cbv zeta. destruct (formatted_date date) as [fd|e] eqn:F.
  2:{ rewrite start_workflow_steps. cbv zeta.
      rewrite (cli_check_unformatted _ _ _ F). cbn [res world log].
      split; [reflexivity|]. split; [apply StoreFacts.grows_refl|].
      split; [reflexivity|]. discriminate. }
  enough (E : objects (world (DataInjection.start_workflow src date w)) = objects w /\
              grows (committed w)
                (committed (world (DataInjection.start_workflow src date w))) /\
              (res (DataInjection.start_workflow src date w) = Ok false ->
               committed (world (DataInjection.start_workflow src date w))
               = committed w) /\
              new_sales_dated fd (committed w)
                (committed (world (DataInjection.start_workflow src date w)))).
  { destruct E as (A & B & C & D). repeat split; auto.
    intros fd' F'. injection F' as <-. exact D. }
  rewrite (cli_run_store _ _ _ _ F). cbv zeta.
  assert (Same : forall (b : bool) (l : trace),
             objects (world (mkout (Ok b) (disconnected w) l)) = objects w /\
             grows (committed w) (committed (world (mkout (Ok b) (disconnected w) l))) /\
             (res (mkout (Ok b) (disconnected w) l) = Ok false ->
              committed (world (mkout (Ok b) (disconnected w) l)) = committed w) /\
             new_sales_dated fd (committed w)
               (committed (world (mkout (Ok b) (disconnected w) l)))).
  { intros b l. cbn. split; [reflexivity|].
    split; [apply StoreFacts.grows_refl|]. split; [reflexivity|].
    apply StoreFacts.new_sales_refl. }
  destruct (sale_dated fd (committed w)); [apply Same|].
  destruct (lookup_object _ _ _) as [df|]; [|apply Same].
  destruct (filter_extract df fd) as [out|e] eqn:Ef; [|apply Same].
  destruct (df_empty out); [apply Same|].
  destruct (filter_extract_dated _ _ _ Ef) as (_ & Hd).
  destruct (StoreLoads.cli_load_leaves fd out (disconnected w)) as (O & G & D & R).
  cbn [disconnected committed objects] in O, G, D, R. cbn [res world log].
  split; [exact O|]. split; [exact G|]. split; [|exact (D Hd)].
  destruct (res (DataInjection.load_data_to_postgres out _)) as [[]|e] eqn:E;
    cbn [is_ok]; [discriminate|]. intros _. exact (R e eq_refl).
Qed.

(** A run of the DAG takes nothing away. *)
Lemma dag_run_leaves {xcom : Xcom} src date w :
  let o := Dag.fashion_store_etl (variables src) date w in
  objects (world o) = objects w /\
  grows (committed w) (committed (world o)) /\
  (forall r, res o = Ok r -> status r = "skipped"%string ->
             committed (world o) = committed w) /\
  (forall e, res o = Raise e -> committed (world o) = committed w) /\
  (forall fd, formatted_date date = Ok fd -> keeps_dates xcom ->
              new_sales_dated fd (committed w) (committed (world o))).
Proof.
  cbv zeta. destruct (validate_date_total date) as [[|] V].
  2:{ rewrite etl_steps. cbv zeta. rewrite V. cbn [res world log].
      split; [reflexivity|]. split; [apply StoreFacts.grows_refl|].
      split; [reflexivity|]. split; [reflexivity|].
      intros fd _ _. apply StoreFacts.new_sales_refl. }
  destruct (validate_formats date V) as [fd F].
  enough (E : objects (world (Dag.fashion_store_etl (variables src) date w))
              = objects w /\
              grows (committed w)
                (committed (world (Dag.fashion_store_etl (variables src) date w))) /\
              (forall r, res (Dag.fashion_store_etl (variables src) date w) = Ok r ->
                         status r = "skipped"%string ->
                         committed (world (Dag.fashion_store_etl (variables src) date w))
                         = committed w) /\
              (forall e, res (Dag.fashion_store_etl (variables src) date w) = Raise e ->
                         committed (world (Dag.fashion_store_etl (variables src) date w))
                         = committed w) /\
              (keeps_dates xcom ->
               new_sales_dated fd (committed w)
                 (committed (world (Dag.fashion_store_etl (variables src) date w))))).
  { destruct E as (A & B & C & D & N). repeat split; auto.
    intros fd' F' K. assert (fd' = fd) by congruence. subst fd'. exact (N K). }
  rewrite (dag_run_store _ _ _ _ V F). cbv zeta.
  assert (Same : forall (r : result LoadResult) (l : trace),
             objects (world (mkout r (disconnected w) l)) = objects w /\
             grows (committed w) (committed (world (mkout r (disconnected w) l))) /\
             (forall r', res (mkout r (disconnected w) l) = Ok r' ->
                         status r' = "skipped"%string ->
                         committed (world (mkout r (disconnected w) l)) = committed w) /\
             (forall e, res (mkout r (disconnected w) l) = Raise e ->
                        committed (world (mkout r (disconnected w) l)) = committed w) /\
             (keeps_dates xcom ->
              new_sales_dated fd (committed w)
                (committed (world (mkout r (disconnected w) l))))).
  { intros r l. cbn. split; [reflexivity|].
    split; [apply StoreFacts.grows_refl|]. split; [reflexivity|].
    split; [reflexivity|]. intros _. apply StoreFacts.new_sales_refl. }
  destruct (sale_dated fd (committed w)); [apply Same|].
  destruct (lookup_object _ _ _) as [df|]; [|apply Same].
  destruct (filter_extract df fd) as [out|e] eqn:Ef; [|apply Same].
  destruct (df_empty out); [apply Same|].
  destruct (to_json out) as [data|e] eqn:Ej; [|apply Same].
  destruct (read_json data) as [back|e] eqn:Er; [|apply Same].
  destruct (filter_extract_dated _ _ _ Ef) as (_ & Hd).
  destruct (StoreLoads.dag_table_leaves fd back (disconnected w)) as (O & G & D & R).
  cbn [disconnected committed objects] in O, G, D, R. cbn [res world log].
  split; [exact O|]. split; [exact G|]. split; [|split; [exact R|]].
  - intros r' X Hst. revert X. rewrite StoreLoads.dag_table_store. cbv zeta.
    destruct (res (Dag.insert_rows _ _ _ _)); cbn [res]; [|discriminate].
    intros X. injection X as <-. discriminate.
  - intros K. apply D. exact (K date fd out data back F Hd Ej Er).
Qed.







End StoreRuns.



(** C2, where the code departs from it.  On the relational store, a
    table of sale records of which one row is refused by the server during
    its four inserts, the rows before it completing theirs.  The loop does
    go on to the next row and the load does end with a commit that
    returns; but the refused statement has aborted the transaction, so
    every later row is refused as well and the commit stores nothing.
    The DAG's task reports status success with [rows_inserted] the number
    of rows before the refused one, and the command-line load returns,
    while the committed tables are those before the load: not one of the
    other rows is committed.  With N rows, [rows_inserted] is below N-1
    as soon as a row follows the refused one. *)
Theorem C2_refused_row_aborts_load {xcom : Xcom} (df : DataFrame) (data : json)
    (w : Store.pg) (pre post : list row) (r : row) :
  complete_header (df_columns df) = true ->
  read_json data = Ok df ->
  df_rows df = pre ++ r :: post ->
  (forall x, In x pre -> Store.row_result (df_columns df) x = Ok tt) ->
  Store.refused (df_columns df) r = true ->
  let cli := DataInjection.load_data_to_postgres df w in
  let dag := Dag.load_data_to_postgres (Some data) w in
  res dag = Ok (mkresult "success" (length pre) (Inserted (length pre))) /\
  Store.committed (world dag) = Store.committed w /\
  res cli = Ok tt /\
  Store.committed (world cli) = Store.committed w /\
  (exists l, log dag = EvConnect :: l ++ [EvCommit; EvClose] /\
             row_by_row (df_columns df) (df_rows df) l) /\
  (exists l, log cli = EvConnect :: l ++ [EvCommit; EvCommit; EvClose] /\
             row_by_row (df_columns df) (df_rows df) l) /\
  (post <> [] -> (length pre < length (df_rows df) - 1)%nat).
Proof.
  intros Hc Hread Hrows Hpre Hr. cbv zeta. rewrite (dag_load_read _ _ _ Hread).
  destruct (StoreLoads.dag_table_refused df w pre r post Hc Hrows Hpre Hr) as [R1 C1].
  destruct (StoreLoads.cli_load_refused df w pre r post Hc Hrows Hpre Hr) as [R2 C2].
  split; [exact R1|]. split; [exact C1|]. split; [exact R2|]. split; [exact C2|].
  split; [|split].
  - revert R1. rewrite StoreLoads.dag_table_store. cbv zeta.
    pose proof (dag_rows_row_by_row (df_columns df) (df_rows df) 0 (Store.opened w)) as L.
    destruct (res (Dag.insert_rows _ _ _ _)); [|discriminate]. cbn [log]. eauto.
  - revert R2. rewrite StoreLoads.cli_load_store. cbv zeta.
    pose proof (cli_rows_row_by_row (df_columns df) (df_rows df) 0 (Store.opened w)) as L.
    destruct (res (DataInjection.insert_rows _ _ _ _)); [|discriminate]. cbn [log]. eauto.
  - intros Hp. rewrite Hrows, length_app. cbn [length].
    destruct post; [contradiction|]. cbn [length]. lia.
Qed.

Lemma C2_refused_row_aborts_load_witness :
  (res (Dag.load_data_to_postgres (xcom := Example.same_table)
          (Some Example.three_rows) (Example.fresh Example.three_rows))
   = Ok (mkresult "success" 1 (Inserted 1)) /\
   Store.committed
     (world (Dag.load_data_to_postgres (xcom := Example.same_table)
               (Some Example.three_rows) (Example.fresh Example.three_rows)))
   = Store.no_tables /\
   (1 < length (df_rows Example.three_rows) - 1)%nat) /\
  (res (Dag.load_data_to_postgres (xcom := Example.same_table)
          (Some Example.refused_last) (Example.fresh Example.refused_last))
   = Ok (mkresult "success" 2 (Inserted 2)) /\
   Store.committed
     (world (Dag.load_data_to_postgres (xcom := Example.same_table)
               (Some Example.refused_last) (Example.fresh Example.refused_last)))
   = Store.no_tables /\
   Store.committed
     (world (DataInjection.load_data_to_postgres Example.refused_last
               (Example.fresh Example.refused_last)))
   = Store.no_tables).
Proof.
  split.
  - destruct (C2_refused_row_aborts_load (xcom := Example.same_table)
                Example.three_rows Example.three_rows (Example.fresh Example.three_rows)
                [Example.good1] [Example.good2] Example.no_product
                eq_refl eq_refl eq_refl)
      as (R & C & _ & _ & _ & _ & N).
    + intros x [<-|[]]. reflexivity.
    + reflexivity.
    + split; [exact R|]. split; [exact C|]. apply N. discriminate.
  - destruct (C2_refused_row_aborts_load (xcom := Example.same_table)
                Example.refused_last Example.refused_last
                (Example.fresh Example.refused_last)
                [Example.good1; Example.good2] [] Example.no_product
                eq_refl eq_refl eq_refl)
      as (R & C & _ & C' & _).
    + intros x [<-|[<-|[]]]; reflexivity.
    + reflexivity.
    + split; [exact R|]. split; [exact C | exact C'].
Defined.




(** X12. Against the store, a run of either file takes nothing away: no
    row of a table is removed or changed, the objects of the bucket are as
    they were, and every Sale row that is new carries the formatted date
    of the run (in the DAG, given a hand-off that keeps the text of the
    dates).  A run that does not complete commits nothing: when
    [start_workflow] returns False, and when the DAG ends skipped or
    fails, the committed tables are exactly those before the run. *)
Theorem X12_runs_on_store {xcom : Xcom} (src : Source) (date : pystr) (w : Store.pg) :
  let cli := DataInjection.start_workflow src date w in
  let dag := Dag.fashion_store_etl (variables src) date w in
  (Store.objects (world cli) = Store.objects w /\
   Store.objects (world dag) = Store.objects w) /\
  (Store.grows (Store.committed w) (Store.committed (world cli)) /\
   Store.grows (Store.committed w) (Store.committed (world dag))) /\
  (forall fd, formatted_date date = Ok fd ->
     Store.new_sales_dated fd (Store.committed w) (Store.committed (world cli)) /\
     (keeps_dates xcom ->
      Store.new_sales_dated fd (Store.committed w) (Store.committed (world dag)))) /\
  (res cli = Ok false -> Store.committed (world cli) = Store.committed w) /\
  (forall r, res dag = Ok r -> status r = "skipped"%string ->
             Store.committed (world dag) = Store.committed w) /\
  (forall e, res dag = Raise e -> Store.committed (world dag) = Store.committed w).
Proof.
  cbv zeta.
  destruct (StoreRuns.cli_run_leaves src date w) as (O1 & G1 & R1 & D1).
  destruct (StoreRuns.dag_run_leaves src date w) as (O2 & G2 & S2 & R2 & D2).
  split; [split; assumption|]. split; [split; assumption|].
  split; [intros fd F; split; [apply D1 | apply D2]; exact F|].
  split; [exact R1|]. split; [exact S2 | exact R2].
Qed.

Lemma X12_runs_on_store_witness :
  Store.committed
    (world (DataInjection.start_workflow Example.source Example.d20230615
              Example.object_missing))
  = Store.committed Example.object_missing /\
  Store.new_sales_dated "2023-06-15"
    (Store.committed (Example.fresh Example.mixed))
    (Store.committed
       (world (Dag.fashion_store_etl (xcom := Example.same_table)
                 Example.dag_variables Example.d20230615
                 (Example.fresh Example.mixed)))).
Proof.
  split.
  - exact (proj1 (proj2 (proj2 (proj2
      (X12_runs_on_store (xcom := Example.same_table) Example.source
         Example.d20230615 Example.object_missing))))
      eq_refl).
  - refine (proj2 (proj1 (proj2 (proj2
      (X12_runs_on_store (xcom := Example.same_table) Example.source
         Example.d20230615 (Example.fresh Example.mixed)))) "2023-06-15"%string eq_refl) _).
    intros date fd df data back _ Hd J R. cbn in J, R.
    injection J as <-. injection R as <-. exact Hd.
Defined.

(** X11. Against the store, for a date that validates, an object whose
    header has every column the statements read and a hand-off that
    returns the extract as it was, the command-line workflow and the DAG
    do the same thing: they leave the same state; the workflow returns
    True exactly when the DAG ends with status success; a run that does
    not complete makes the same calls in both; and a run that completes
    makes the same calls up to the commit, after which the command-line
    workflow commits a second time before closing. *)
Theorem X11_pipelines_agree_on_store {xcom : Xcom} (src : Source) (date : pystr)
    (w : Store.pg) :
  validate_date date = Ok true ->
  (forall df, Store.lookup_object (bucket src) (file src) w = Some df ->
              complete_header (df_columns df) = true) ->
  (forall df fd out, Store.lookup_object (bucket src) (file src) w = Some df ->
                     formatted_date date = Ok fd ->
                     filter_extract df fd = Ok out ->
                     hands_over xcom out) ->
  let cli := DataInjection.start_workflow src date w in
  let dag := Dag.fashion_store_etl (variables src) date w in
  world cli = world dag /\
  (res cli = Ok true <-> exists n, res dag = Ok (mkresult "success" n (Inserted n))) /\
  (res cli = Ok true ->
   exists l, log dag = l ++ [EvCommit; EvClose] /\
             log cli = l ++ [EvCommit; EvCommit; EvClose]) /\
  (res cli = Ok false -> log cli = log dag).
Proof.
  intros V Hhead Hhand. cbv zeta.
  destruct (validate_formats date V) as [fd F].
  rewrite (StoreRuns.cli_run_store _ _ _ _ F), (StoreRuns.dag_run_store _ _ _ _ V F).
  cbv zeta.
  assert (Stop : forall (w' : Store.pg) (r : result LoadResult) (l : trace),
             (forall n, r <> Ok (mkresult "success" n (Inserted n))) ->
             world (mkout (@Ok bool false) w' l) = world (mkout r w' l) /\
             (res (mkout (@Ok bool false) w' l) = Ok true
              <-> exists n, res (mkout r w' l)
                            = Ok (mkresult "success" n (Inserted n))) /\
             (res (mkout (@Ok bool false) w' l) = Ok true ->
              exists l0, log (mkout r w' l) = l0 ++ [EvCommit; EvClose] /\
                         log (mkout (@Ok bool false) w' l)
                         = l0 ++ [EvCommit; EvCommit; EvClose]) /\
             (res (mkout (@Ok bool false) w' l) = Ok false ->
              log (mkout (@Ok bool false) w' l) = log (mkout r w' l))).
  { intros w' r l Hr. cbn [res world log]. split; [reflexivity|]. split; [|split].
    - split; [discriminate|]. intros [n X]. destruct (Hr n X).
    - discriminate.
    - reflexivity. }
  destruct (Store.sale_dated fd (Store.committed w)); [apply Stop; discriminate|].
  destruct (Store.lookup_object (bucket src) (file src) w) as [df|] eqn:L;
    [|apply Stop; discriminate].
  destruct (filter_extract df fd) as [out|e] eqn:Ef; [|apply Stop; discriminate].
  destruct (df_empty out); [apply Stop; discriminate|].
  destruct (Hhand df fd out eq_refl F Ef) as (data & -> & ->).
  destruct (StoreRuns.filter_extract_dated _ _ _ Ef) as (Hcols & _).
  assert (Hc : complete_header (df_columns out) = true)
    by (rewrite Hcols; exact (Hhead df eq_refl)).
  destruct (StoreLoads.loads_agree out (Store.disconnected w) Hc)
    as (n & l & R1 & R2 & Ww & L2 & L1).
  cbn [res world log]. rewrite R1, R2, Ww, L1, L2. cbn [is_ok].
  split; [reflexivity|]. split; [|split].
  - split; [eauto | reflexivity].
  - intros _.
    exists (([EvConnect; EvSelectExists fd; EvCommit; EvClose]
             ++ [EvGetObject (bucket src) (file src)]) ++ l).
    rewrite <- !app_assoc. split; reflexivity.
  - discriminate.
Qed.

Lemma X11_pipelines_agree_on_store_witness :
  world (DataInjection.start_workflow Example.source Example.d20230615
           (Example.fresh Example.mixed))
  = world (Dag.fashion_store_etl (xcom := Example.same_table) Example.dag_variables
             Example.d20230615 (Example.fresh Example.mixed)).
Proof.
  refine (proj1 (X11_pipelines_agree_on_store (xcom := Example.same_table)
                   Example.source Example.d20230615
                   (Example.fresh Example.mixed) eq_refl _ _)).
  - intros df L. vm_compute in L. injection L as <-. vm_compute. reflexivity.
  - intros df fd out _ _ _. exists out. split; reflexivity.
Defined.

Section MissingProductColumn.
Import Store.

(** A row whose Client statement can be built and whose Product statement
    reads a column the table does not have: the Client is inserted, then
    the row raises [KeyError]; the transaction is not aborted. *)
Lemma insert_row_client_only cols r w pc c :
  getitems cols r (table_columns Client) = Ok pc ->
  pkey pc <> CNull ->
  has_key Client (pkey pc) (committed w) = false ->
  In c (table_columns Product) -> ~ In c cols ->
  exists c', ~ In c' cols /\
    insert_row cols r (opened w)
    = mkout (Raise (KeyError c'))
            (mkpg (committed w)
                  (Some (InTransaction (add_row Client pc (committed w))))
                  (objects w))
            [EvInsert Client pc].
Proof.
  intros Ec Hn Hk Hc Hmiss.
  destruct (getitems_missing cols _ c Hc Hmiss) as (c' & _ & N & G).
  exists c'. split; [exact N|].
  assert (Ei : insert_do_nothing Client pc (committed w)
               = Ok (add_row Client pc (committed w))).
  { unfold insert_do_nothing. revert Hn Hk.
    destruct (pkey pc); intros Hn Hk; [contradiction| | |]; rewrite Hk; reflexivity. }
  unfold insert_row. rewrite bind_outcome, (execute_insert_ok _ _ _ _ _ Ec).
  cbn [res world log].
  rewrite (StoreFacts.pg_insert_open Client pc (opened w) (committed w) eq_refl), Ei.
  cbn [fst snd opened committed objects].
  rewrite bind_outcome, (execute_insert_raise _ _ _ _ _ (G r)). reflexivity.
Qed.

End MissingProductColumn.

(** X15. Row atomicity needs the header to be complete.  On the store, a
    table of one row whose header has the columns of the Client statement
    and [sale_id] but lacks a column of the Product statement, the
    customer being new: the DAG's load inserts the Client, skips the row
    at the [KeyError] of the missing column, which aborts nothing, and
    commits; it reports success with no row inserted, yet the Client is
    committed, the only statement sent being its insert.  The
    command-line load lets the [KeyError] out and its connection rolls
    back: nothing is committed. *)
Theorem X15_missing_product_column {xcom : Xcom} (df : DataFrame) (data : json)
    (w : Store.pg) (r : row) (pc : list cell) (c : string) :
  read_json data = Ok df ->
  df_rows df = [r] ->
  getitems (df_columns df) r (table_columns Client) = Ok pc ->
  Store.pkey pc <> CNull ->
  Store.has_key Client (Store.pkey pc) (Store.committed w) = false ->
  In c (table_columns Product) ->
  ~ In c (df_columns df) ->
  In "sale_id"%string (df_columns df) ->
  let dag := Dag.load_data_to_postgres (Some data) w in
  let cli := DataInjection.load_data_to_postgres df w in
  res dag = Ok (mkresult "success" 0 (Inserted 0)) /\
  List.filter is_insert (log dag) = [EvInsert Client pc] /\
  Store.committed (world dag) = Store.add_row Client pc (Store.committed w) /\
  Store.has_key Client (Store.pkey pc) (Store.committed (world dag)) = true /\
  Store.none_created (df_columns df) r
    (Store.committed w) (Store.committed (world dag)) = false /\
  (exists c', ~ In c' (df_columns df) /\ res cli = Raise (KeyError c')) /\
  Store.committed (world cli) = Store.committed w.
Proof.
  intros Hread Hrows Ec Hn Hk Hc Hmiss Hs. cbv zeta.
  destruct (insert_row_client_only _ r w pc c Ec Hn Hk Hc Hmiss) as (c' & N & R).
  destruct (column_index_in _ _ Hs) as [i Hi].
  rewrite (dag_load_read _ _ _ Hread).
  rewrite StoreLoads.dag_table_store, StoreLoads.cli_load_store. cbv zeta.
  rewrite Hrows. cbn [Dag.insert_rows DataInjection.insert_rows].
  rewrite !bind_outcome, !guarded_row. cbv zeta. rewrite R.
  cbn [res world log is_psycopg]. rewrite bind_outcome. unfold lift, ret, getitem.
  rewrite Hi. cbn [res world log app Store.committed Store.after_commit Store.session].
  cbn [List.filter is_insert].
  split; [reflexivity|]. split; [reflexivity|]. split; [reflexivity|].
  split; [apply StoreFacts.has_key_add_row|]. split.
  - unfold Store.none_created, insert_order. cbn [forallb].
    rewrite (RowFacts.row_key_params _ _ _ _ Ec), StoreFacts.has_key_add_row, Hk.
    reflexivity.
  - split; [|reflexivity]. exists c'. split; [exact N | reflexivity].
Qed.

Lemma X15_missing_product_column_witness :
  complete_header (df_columns Example.no_brand) = false /\
  res (Dag.load_data_to_postgres (xcom := Example.same_table)
         (Some Example.no_brand) (Example.fresh Example.no_brand))
  = Ok (mkresult "success" 0 (Inserted 0)) /\
  Store.t_client
    (Store.committed
       (world (Dag.load_data_to_postgres (xcom := Example.same_table)
                 (Some Example.no_brand) (Example.fresh Example.no_brand))))
  = [take 8 Example.good1].
Proof.
  destruct (X15_missing_product_column (xcom := Example.same_table)
              Example.no_brand Example.no_brand (Example.fresh Example.no_brand)
              (hd [] (df_rows Example.no_brand)) (take 8 Example.good1) "brand"%string
              eq_refl eq_refl eq_refl ltac:(discriminate) eq_refl
              ltac:(vm_compute; tauto)
              ltac:(vm_compute; intuition discriminate)
              ltac:(vm_compute; tauto))
    as (R & _ & C & _).
  split; [reflexivity|]. split; [exact R|].
  exact (eq_trans (f_equal Store.t_client C) eq_refl).
Defined.

(* ===================================================================== *)
(** ** The validator on ASCII input; the calls of a completed run         *)
(* ===================================================================== *)

(** X13. The validator never raises, and on a string of ASCII characters
    it is the validator of the specification: it returns True exactly on
    eight ASCII digits that read as a calendar date YYYYMMDD.  The
    formatted date of an accepted string is its YYYY-MM-DD form with the
    leading zeros of the year dropped, which is the YYYY-MM-DD form when
    the year does not start with a zero. *)
Theorem X13_validator_on_ascii (s : pystr) :
  (exists b, validate_date s = Ok b) /\
  (Forall (fun c => 0 <= c < 128) s ->
   validate_date s = Ok (spec_validate s) /\
   (validate_date s = Ok true ->
    formatted_date s = Ok (code_form s) /\
    (four_digit_year s = true -> formatted_date s = Ok (iso_form s)))).
Proof.
  split; [apply validate_date_total|]. intros A.
  pose proof (validate_date_ascii s A) as V. split; [exact V|].
  rewrite V. intros E. injection E as E.
  split; [apply formatted_date_code, E|]. intros Y. apply formatted_date_iso; assumption.
Qed.

Lemma X13_validator_on_ascii_witness :
  validate_date [50; 48; 50; 52; 48; 50; 50; 57]
  = Ok (spec_validate [50; 48; 50; 52; 48; 50; 50; 57]) /\
  formatted_date [50; 48; 50; 52; 48; 50; 50; 57] = Ok "2024-02-29"%string.
Proof.
  assert (A : Forall (fun c => 0 <= c < 128) [50; 48; 50; 52; 48; 50; 50; 57])
    by (repeat (apply Forall_cons_2; [lia|]); apply Forall_nil_2).
  destruct (proj2 (X13_validator_on_ascii [50; 48; 50; 52; 48; 50; 50; 57]) A)
    as [V F].
  split; [exact V|]. exact (proj2 (F eq_refl) eq_refl).
Defined.

Section CompletedRuns.
Context {W : Type} `{Backend W} {xcom : Xcom}.



End CompletedRuns.


